(** * ReviewCheck: scoring, smart labeling and retraining gates

    A shallow embedding of the review-scoring and feedback-relabeling
    pipeline of the ReviewCheck backend:

    - [services/review_scorer.py]   ([SmartReviewScorer.predict]),
    - [services/ai_analyzer.py]     ([ReviewAIAnalyzer]),
    - [services/analysis_service.py] ([AnalysisService.analyze_with_ai]),
    - [routers/feedback.py]         (smart labeling and [submit_feedback]),
    - [scripts/train_model.py]      (retraining gates and model versions).

    Conventions of the embedding.

    - Python floats come in two views.  Where a property is a range, a
      cap, a comparison or a relation between two runs, floats are
      idealised as rationals ([Q]): every arithmetic operation is exact,
      comparisons are the order of [Q], and [round(x, n)] is rounding to
      the nearest multiple of [10^-n], ties to even.  Where a property
      states the value of a formula or the side of a threshold a computed
      number falls on, the scorer and the analyzer are embedded once
      more in binary64 ([Binary64], [FloatScorer], [FloatAnalyzer]), with
      the operations of [SpecFloat] in the order the code applies them.
    - A Python [str] is the list of its code points ([pystr]); literals are
      written as UTF-8 string literals and decoded by [u].
    - Exceptions are values of [PyExc]; a computation that may raise
      returns a [Result].
    - The embedding model, the random-forest classifier, the CSV file of
      the original training set and scikit-learn are external: they are
      Section variables, total functions that may return [Raise]. *)

From Stdlib Require Import ZArith QArith Qround Qminmax Qabs List String Ascii Bool.
From Stdlib Require Import Lia Lqa NArith SpecFloat.
Import ListNotations.

Local Open Scope Z_scope.

(* ================================================================== *)
(** ** Numbers *)

Module PyNum.

(** [x < y], [x <= y], [x > y], [x >= y] on floats. *)
Definition leb (x y : Q) : bool := Qle_bool x y.
Definition ltb (x y : Q) : bool := negb (Qle_bool y x).
Definition geb (x y : Q) : bool := Qle_bool y x.
Definition gtb (x y : Q) : bool := negb (Qle_bool x y).

(** Nearest integer, ties to even. *)
Definition round_half_even (x : Q) : Z :=
  let f := Qfloor x in
  match Qcompare (x - inject_Z f) (1 # 2) with
  | Lt => f
  | Gt => f + 1
  | Eq => if Z.even f then f else f + 1
  end.

(** [round(x, ndigits)] for [ndigits >= 0]. *)
Definition py_round (x : Q) (ndigits : nat) : Q :=
  let scale := Pos.pow 10 (Pos.of_nat ndigits) in
  match ndigits with
  | O => inject_Z (round_half_even x)
  | S _ => Qmake (round_half_even (x * inject_Z (Zpos scale))) scale
  end.

(** [sum(xs)] and [len(xs)] as floats. *)
Definition sum (xs : list Q) : Q := fold_left Qplus xs 0%Q.
Definition len {A} (xs : list A) : Z := Z.of_nat (List.length xs).

(** [np.mean(xs)] on a non-empty list. *)
Definition mean (xs : list Q) : Q := (sum xs / inject_Z (len xs))%Q.

(** A float with exactly [n] decimals: an integer multiple of [10^-n]. *)
Definition has_decimals (n : nat) (x : Q) : Prop :=
  exists k : Z, (x == Qmake k (Pos.pow 10 (Pos.of_nat n)))%Q.

End PyNum.

(* ================================================================== *)
(** ** Strings *)

Module PyStr.

(** A Python [str]: its code points. *)
Definition pystr := list N.

Definition flush (pending : option N) (acc : list N) : list N :=
  match pending with
  | Some c => c :: acc
  | None => acc
  end.

(** UTF-8 decoding of a byte sequence, accumulating the code points in
    reverse.  [pending] is the code point being assembled. *)
Fixpoint utf8_decode (bs : list N) (pending : option N) (acc : list N)
  : list N :=
  match bs with
  | [] => rev (flush pending acc)
  | b :: bs' =>
      if (b <? 128)%N then utf8_decode bs' None (b :: flush pending acc)
      else if (b <? 192)%N then
        match pending with
        | Some c => utf8_decode bs' (Some (c * 64 + (b - 128))%N) acc
        | None => utf8_decode bs' None acc
        end
      else if (b <? 224)%N then
        utf8_decode bs' (Some (b - 192)%N) (flush pending acc)
      else if (b <? 240)%N then
        utf8_decode bs' (Some (b - 224)%N) (flush pending acc)
      else utf8_decode bs' (Some (b - 240)%N) (flush pending acc)
  end.

(** The [str] written by a UTF-8 literal. *)
Definition u (s : string) : pystr :=
  utf8_decode (map N_of_ascii (list_ascii_of_string s)) None [].

Definition code_eqb : N -> N -> bool := N.eqb.

(** [text.startswith(k)]. *)
Fixpoint startswith (text k : pystr) : bool :=
  match k, text with
  | [], _ => true
  | _ :: _, [] => false
  | a :: k', b :: text' => code_eqb a b && startswith text' k'
  end.

(** [k in text]: substring test. *)
Fixpoint contains (k text : pystr) : bool :=
  startswith text k ||
  match text with
  | [] => false
  | _ :: text' => contains k text'
  end.

(** [str.isspace] on one code point. *)
Definition isspace (c : N) : bool :=
  ((9 <=? c) && (c <=? 13) || (28 <=? c) && (c <=? 32)
   || (c =? 133) || (c =? 160) || (c =? 5760)
   || (8192 <=? c) && (c <=? 8202)
   || (c =? 8232) || (c =? 8233) || (c =? 8239) || (c =? 8287)
   || (c =? 12288))%N.

Fixpoint lstrip (s : pystr) : pystr :=
  match s with
  | [] => []
  | c :: s' => if isspace c then lstrip s' else s
  end.

(** [s.strip()]. *)
Definition strip (s : pystr) : pystr := rev (lstrip (rev (lstrip s))).

(** Truthiness of a string: [bool(s)]. *)
Definition truthy (s : pystr) : bool :=
  match s with [] => false | _ :: _ => true end.

End PyStr.

Import PyStr.

(* ================================================================== *)
(** ** Exceptions *)

Inductive PyExc : Type :=
| ExternalError (what : string)
| IndexError
| ValueError (msg : string)
| AttributeError
| KeyError (key : string)
| UnboundLocalError (var : string)
| HTTPException (status_code : Z) (detail : string).

Inductive Result (A : Type) : Type :=
| Ok (a : A)
| Raise (e : PyExc).
Arguments Ok {A} a.
Arguments Raise {A} e.

Definition is_ok {A} (r : Result A) : bool :=
  match r with Ok _ => true | Raise _ => false end.

(* ================================================================== *)
(** ** services/review_scorer.py *)

Module ReviewScorer.

Definition PRODUCT_KEYWORDS : list pystr := Eval vm_compute in map u [
  "두께"; "두껍"; "얇"; "시보리"; "지퍼"; "마감"; "박음질"; "실밥"; "손상";
  "보들"; "부드럽"; "거칠"; "까끌"; "탄탄"; "짱짱"; "퀄리"; "재질";
  "소재"; "원단"; "털"; "보풀"; "비침"; "안감"; "주머니"; "단추"; "버튼";
  "신축성"; "스판"; "구김"; "물빠짐"; "세탁"; "건조"; "냄새"; "향"; "오염";
  "핏"; "기장"; "소매"; "허리"; "어깨"; "가슴"; "품"; "통";
  "오버"; "루즈"; "슬림"; "타이트"; "넉넉"; "작아"; "커요"; "길어"; "짧아";
  "넓어"; "좁아"; "딱 맞"; "헐렁"; "쪼이"; "작네"; "크네"; "길네"; "짧네"; "맞네";
  "사이즈"; "크기"; "cm"; "kg"; "키"; "몸무게"; "평소"; "크네요"; "커서"; "작네요";
  "불편"; "편안"; "아프"; "따뜻"; "시원"; "여름"; "겨울"; "가을"; "봄"; "계절";
  "입어보"; "신어보"; "써보"; "사용해"; "착용"; "따뜻";
  "발볼"; "발등"; "굽"; "무게"; "가볍"; "무겁"; "소음"; "소리"; "조립"; "설치"; "신발끈";
  "색감"; "색상"; "실물"; "퀄리티"; "실제"
]%string.

Definition DELIVERY_KEYWORDS : list pystr := Eval vm_compute in map u [
  "배송"; "택배"; "기사"; "박스"; "포장"; "주문"; "도착"; "배송비"; "칼배송"
]%string.

(** Calls to the external models, in the order they are made. *)
Inductive Call : Type :=
| CallEmbedding (text : pystr)
| CallPredictProba (features : list Q).

(** A computation that may raise and records its external calls. *)
Record Traced (A : Type) : Type := mkTraced {
  outcome : Result A;
  calls : list Call
}.
Arguments mkTraced {A} outcome calls.
Arguments outcome {A} t.
Arguments calls {A} t.

Definition ret {A} (a : A) : Traced A := mkTraced (Ok a) [].
Definition raise {A} (e : PyExc) : Traced A := mkTraced (Raise e) [].

Definition bind {A B} (m : Traced A) (k : A -> Traced B) : Traced B :=
  match outcome m with
  | Ok a => let r := k a in mkTraced (outcome r) (calls m ++ calls r)
  | Raise e => mkTraced (Raise e) (calls m)
  end.

Notation "x <- m ;; k" := (bind m (fun x => k))
  (at level 61, m at next level, right associativity).
Notation "' p <- m ;; k" := (bind m (fun x => let p := x in k))
  (at level 61, p pattern, m at next level, right associativity).

(** Make an external call [f x], recording it as [c]. *)
Definition external {A} (c : Call) (r : Result A) : Traced A :=
  mkTraced r [c].

Fixpoint mapM {A B} (f : A -> Traced B) (xs : list A) : Traced (list B) :=
  match xs with
  | [] => ret []
  | x :: xs' => y <- f x ;; ys <- mapM f xs' ;; ret (y :: ys)
  end.

Section Scorer.

(** The tokenizer followed by KcELECTRA: the [CLS] embedding of a
    text. *)
Variable bert_model : pystr -> Result (list Q).

(** [rf_model.predict_proba(features)[0]]: the class probabilities of
    the single row. *)
Variable predict_proba : list Q -> Result (list Q).

Definition any_keyword (keywords : list pystr) (text : pystr) : bool :=
  existsb (fun k => contains k text) keywords.

Definition _extract_features (text : pystr)
  : Traced (list Q * Q * Z * Z) :=
  emb <- external (CallEmbedding text) (bert_model text) ;;
  let length_val := (inject_Z (Z.min (PyNum.len text) 100) / 100)%Q in
  let has_product := if any_keyword PRODUCT_KEYWORDS text then 1 else 0 in
  let has_delivery := if any_keyword DELIVERY_KEYWORDS text then 1 else 0 in
  ret (emb ++ [length_val; inject_Z has_product; inject_Z has_delivery],
       length_val, has_product, has_delivery).

(** [probs[1]]. *)
Definition index1 (probs : list Q) : Traced Q :=
  match nth_error probs 1 with
  | Some p => ret p
  | None => raise IndexError
  end.

Definition predict (text : pystr) : Traced Q :=
  if negb (truthy text) then ret 0%Q else
  '(features, length_val, has_product, has_delivery) <-
     _extract_features text ;;
  probs <- external (CallPredictProba features) (predict_proba features) ;;
  p1 <- index1 probs ;;
  let raw_score := (p1 * 100)%Q in
  let final_score := raw_score in
  let final_score :=
    if has_product =? 0 then (raw_score * 0.25)%Q
    else if (has_delivery =? 1) && PyNum.ltb length_val 0.2 then
      (final_score * 0.1)%Q
    else
      let length_bonus := (inject_Z (Z.min (PyNum.len text) 50) / 50)%Q in
      (final_score * 0.85 + final_score * 0.15 * length_bonus)%Q in
  ret (PyNum.py_round final_score 1).

End Scorer.

End ReviewScorer.

(* ================================================================== *)
(** ** Review objects *)

(** A review as it travels through the pipeline: a JSON object.  A missing
    key is [None]; the keys the pipeline never reads are left out. *)
Record Review : Type := mkReview {
  text : option pystr;
  content : option pystr;
  reliability_score : option Q;
  analysis_label : option string;
  color_class : option string
}.

(** [review.get(key, '')]. *)
Definition get_str (field : option pystr) : pystr :=
  match field with Some s => s | None => [] end.

(** [a or b] on strings. *)
Definition or_str (a b : pystr) : pystr := if truthy a then a else b.

(** [review.get('reliability_score', 0)]. *)
Definition get_score (review : Review) : Q :=
  match reliability_score review with Some s => s | None => 0%Q end.

(* ================================================================== *)
(** ** routers/feedback.py *)

Module Feedback.

Definition smart_label_hybrid (score avg_score : Q) (user_satisfaction : Z)
  : option Z :=
  if user_satisfaction =? 1 then
    if PyNum.geb score 85 then Some 1
    else if PyNum.leb score 35 then Some 0
    else Some (if PyNum.gtb score avg_score then 1 else 0)
  else
    if PyNum.leb score 35 then Some 0
    else if PyNum.geb score 85 then Some 1
    else Some (if PyNum.ltb score avg_score then 0 else 1).

Definition smart_label_extreme (score : Q) (user_satisfaction : Z)
  : option Z :=
  if user_satisfaction =? 1 then
    if PyNum.geb score 80 then Some 1
    else if PyNum.leb score 40 then Some 0
    else None
  else
    if PyNum.leb score 40 then Some 0
    else if PyNum.geb score 80 then Some 1
    else None.

Definition smart_label_relative (score avg_score : Q) (user_satisfaction : Z)
  : Z :=
  if user_satisfaction =? 1 then
    if PyNum.gtb score avg_score then 1 else 0
  else
    if PyNum.ltb score avg_score then 0 else 1.

Definition calculate_label_confidence (score : Q) (label : Z) : Q :=
  if label =? 1 then Qmin (score / 100) 1
  else Qmin ((100 - score) / 100) 1.

(** The request body.  [strategy] is a free string: the schema declares
    [str] with default ["hybrid"] and no validator. *)
Record FeedbackRequest : Type := mkFeedbackRequest {
  req_analysis_id : Z;
  is_helpful : bool;
  strategy : string
}.

(** A completed analysis as the endpoint reads it. *)
Record Analysis : Type := mkAnalysis {
  analysis_id : Z;
  status : string;
  top_reviews : option (list Review);
  worst_reviews : option (list Review)
}.

(** A row of table [feedbacks], without the columns the database fills
    in ([feedback_id], [created_at]). *)
Record FeedbackRow : Type := mkFeedbackRow {
  fb_analysis_id : Z;
  review_text : pystr;
  confidence : Q;
  tags : Z;
  original_score : Q;
  labeling_strategy : string;
  label_confidence : Q
}.

Record StrategyInfo : Type := mkStrategyInfo {
  info_strategy : string;
  total_reviews : Z;
  saved : Z;
  skipped : Z;
  label_0 : Z;
  label_1 : Z;
  average_score : Q
}.

Record FeedbackResponse : Type := mkFeedbackResponse {
  success : bool;
  feedback_count : Z;
  strategy_info : StrategyInfo
}.

(** *** The database session

    [committed] is what other sessions see, [pending] the view of the
    open transaction. *)
Record Session : Type := mkSession {
  committed : list FeedbackRow;
  pending : list FeedbackRow
}.

Definition open_session (table : list FeedbackRow) : Session :=
  mkSession table table.

(** [db.query(Feedback).filter(Feedback.analysis_id == id).delete()]. *)
Definition delete_feedback (id : Z) (db : Session) : Session :=
  mkSession (committed db)
    (filter (fun row => negb (fb_analysis_id row =? id)) (pending db)).

Definition add (row : FeedbackRow) (db : Session) : Session :=
  mkSession (committed db) (pending db ++ [row]).

Definition commit (db : Session) : Session :=
  mkSession (pending db) (pending db).

Definition rollback (db : Session) : Session :=
  mkSession (committed db) (committed db).

(** [db.query(Analysis).filter(Analysis.analysis_id == id).first()]. *)
Definition query_analysis (analyses : list Analysis) (id : Z)
  : option Analysis :=
  find (fun a => analysis_id a =? id) analyses.

(** [if xs: all_reviews.extend(xs)]. *)
Definition extend_if (xs : option (list Review)) (all_reviews : list Review)
  : list Review :=
  match xs with
  | Some (x :: xs') => all_reviews ++ x :: xs'
  | _ => all_reviews
  end.

(** Step 2 of the endpoint: [top_reviews] then [worst_reviews]. *)
Definition collect_reviews (analysis : Analysis) : list Review :=
  extend_if (worst_reviews analysis) (extend_if (top_reviews analysis) []).

(** The [if/elif] chain on [request.strategy] (step 6 of the endpoint). *)
Definition apply_strategy (strategy : string)
           (score avg_score : Q) (user_satisfaction : Z) : option Z :=
  if String.eqb strategy "weak" then Some user_satisfaction
  else if String.eqb strategy "hybrid" then
    smart_label_hybrid score avg_score user_satisfaction
  else if String.eqb strategy "extreme" then
    smart_label_extreme score user_satisfaction
  else if String.eqb strategy "relative" then
    Some (smart_label_relative score avg_score user_satisfaction)
  else smart_label_hybrid score avg_score user_satisfaction.

(** The local variables the labeling loop updates.  [label] is [None]
    while the Python variable is unbound, [Some None] when it holds
    [None]. *)
Record Locals : Type := mkLocals {
  db : Session;
  saved_count : Z;
  skipped_count : Z;
  stats_0 : Z;
  stats_1 : Z;
  label : option (option Z)
}.

(** [label_stats[f'label_{label}'] += 1]: only the keys ['label_0'] and
    ['label_1'] exist. *)
Definition bump_stats (lbl : Z) (st : Locals) : Result Locals :=
  if lbl =? 0 then
    Ok (mkLocals (db st) (saved_count st) (skipped_count st)
                 (stats_0 st + 1) (stats_1 st) (label st))
  else if lbl =? 1 then
    Ok (mkLocals (db st) (saved_count st) (skipped_count st)
                 (stats_0 st) (stats_1 st + 1) (label st))
  else Raise (KeyError "label_").

(** One iteration of [for review in all_reviews]. *)
Definition label_review (request : FeedbackRequest)
           (avg_score : Q) (user_satisfaction : Z)
           (review : Review) (st : Locals) : Result Locals :=
  let review_text := or_str (get_str (content review)) (get_str (text review)) in
  let score := get_score review in
  if negb (truthy review_text) then Ok st
  else
    let lbl := apply_strategy (strategy request) score avg_score
                              user_satisfaction in
    match lbl with
    | None =>
        Ok (mkLocals (db st) (saved_count st) (skipped_count st + 1)
                     (stats_0 st) (stats_1 st) (Some None))
    | Some l =>
        let label_conf := calculate_label_confidence score l in
        let feedback :=
          mkFeedbackRow (req_analysis_id request) review_text score l
                        score (strategy request) label_conf in
        bump_stats l
          (mkLocals (add feedback (db st)) (saved_count st + 1)
                    (skipped_count st) (stats_0 st) (stats_1 st)
                    (Some (Some l)))
    end.

Fixpoint label_loop (request : FeedbackRequest)
         (avg_score : Q) (user_satisfaction : Z)
         (all_reviews : list Review) (st : Locals) : Result Locals :=
  match all_reviews with
  | [] => Ok st
  | review :: rest =>
      match label_review request avg_score user_satisfaction review st with
      | Ok st' => label_loop request avg_score user_satisfaction rest st'
      | Raise e => Raise e
      end
  end.

(** [except Exception] of the endpoint: roll back and answer 500. *)
Definition internal_error {A} (s : Session)
  : Result A * list FeedbackRow :=
  (Raise (HTTPException 500 "피드백 저장 중 오류"), committed (rollback s)).

(** [POST /users/feedback].  The session is opened on the table as it is
    when the request arrives and closed when the request ends; the
    second component is the table other requests see afterwards. *)
Definition submit_feedback (analyses : list Analysis)
           (table : list FeedbackRow) (request : FeedbackRequest)
  : Result FeedbackResponse * list FeedbackRow :=
  let s := open_session table in
  match query_analysis analyses (req_analysis_id request) with
  | None =>
      (Raise (HTTPException 404 "분석 결과를 찾을 수 없습니다."), table)
  | Some analysis =>
      if negb (String.eqb (status analysis) "completed") then
        (Raise (HTTPException 400 "완료되지 않은 분석입니다."), table)
      else
        let all_reviews := collect_reviews analysis in
        match all_reviews with
        | [] => (Raise (HTTPException 400 "리뷰 데이터가 없습니다."), table)
        | _ :: _ =>
            let scores := map get_score all_reviews in
            let avg_score := PyNum.mean scores in
            let user_satisfaction := if is_helpful request then 1 else 0 in
            let s := delete_feedback (req_analysis_id request) s in
            match label_loop request avg_score user_satisfaction all_reviews
                    (mkLocals s 0 0 0 0 None) with
            | Raise _ => internal_error s
            | Ok st =>
                let s := commit (db st) in
                match label st with
                | None => internal_error s
                | Some _ =>
                    (Ok (mkFeedbackResponse true (saved_count st)
                           (mkStrategyInfo (strategy request)
                              (PyNum.len all_reviews) (saved_count st)
                              (skipped_count st) (stats_0 st) (stats_1 st)
                              avg_score)),
                     committed s)
                end
            end
        end
  end.

(** The table after a sequence of requests, oldest first. *)
Definition submit_all (analyses : list Analysis)
           (table : list FeedbackRow) (requests : list FeedbackRequest)
  : list FeedbackRow :=
  fold_left (fun tbl request => snd (submit_feedback analyses tbl request))
            requests table.

End Feedback.

(* ================================================================== *)
(** ** services/ai_analyzer.py *)

Module AiAnalyzer.

Import ReviewScorer.

Record Details : Type := mkDetails {
  avg_trust_score : Q;
  avg_score : Q;
  total_reviews : Z
}.

(** The dictionary [analyze_reviews] returns. *)
Record AnalysisResult : Type := mkAnalysisResult {
  verdict : string;
  verdict_kr : string;
  confidence : Q;
  enriched_reviews : list Review;
  details : Details
}.

(** What [run] returns: the result of the analysis, or the dictionary
    [{'verdict': 'error', 'confidence': 0, 'error': msg}]. *)
Inductive RunResult : Type :=
| Analysed (result : AnalysisResult)
| ErrorVerdict (error : string).

(** What [main] prints: [{'success': True, 'result': ...}] or
    [{'success': False, 'error': str(e)}]. *)
Inductive Output : Type :=
| OutSuccess (result : RunResult)
| OutFailure (error : PyExc).

(** The label and the colour class of one score. *)
Definition label_and_color (score : Q) : string * string :=
  if PyNum.geb score 76 then ("매우 도움됨", "status-green")%string
  else if PyNum.geb score 36 then ("부분적으로 도움됨", "status-orange")%string
  else ("도움 안됨", "status-red")%string.

(** The overall verdict and its Korean caption. *)
Definition verdict_of (avg_trust : Q) : string * string :=
  if PyNum.gtb avg_trust 0.7 then ("safe", "신뢰할 만함")%string
  else if PyNum.geb avg_trust 0.3 then ("suspicious", "의심스러움")%string
  else ("malicious", "신뢰하기 어려움")%string.

(** Step 2 of [analyze_reviews] for one review. *)
Definition enrich (review : Review) (score : Q) : Review :=
  let '(lbl, color) := label_and_color score in
  mkReview (text review) (content review) (Some score) (Some lbl)
           (Some color).

(** [for i, review in enumerate(reviews): score = final_scores[i]]. *)
Fixpoint enrich_all (reviews : list Review) (final_scores : list Q)
  : Result (list Review) :=
  match reviews, final_scores with
  | [], _ => Ok []
  | _ :: _, [] => Raise IndexError
  | review :: reviews', score :: scores' =>
      match enrich_all reviews' scores' with
      | Ok rest => Ok (enrich review score :: rest)
      | Raise e => Raise e
      end
  end.

Definition lift {A} (r : Result A) : Traced A := mkTraced r [].

Section Analyzer.

Variable bert_model : pystr -> Result (list Q).
Variable predict_proba : list Q -> Result (list Q).

(** Whether [load_model] succeeds when the scorer is not loaded yet. *)
Variable model_loads : bool.

Definition preprocess_reviews (reviews : list Review) : list Review :=
  flat_map (fun review =>
    let t := or_str (get_str (text review)) (get_str (content review)) in
    if negb (truthy t) then []
    else [mkReview (Some (strip t)) (content review)
                   (reliability_score review) (analysis_label review)
                   (color_class review)])
  reviews.

(** [self.scorer.predict(review['text'])]. *)
Definition score_review (review : Review) : Traced Q :=
  match text review with
  | Some t => predict bert_model predict_proba t
  | None => raise (KeyError "text")
  end.

(** The [try] body re-raises whatever it catches, so an exception of
    the body is the exception of the method. *)
Definition analyze_reviews (reviews : list Review)
  : Traced AnalysisResult :=
  final_scores <- mapM score_review reviews ;;
  enriched <- lift (enrich_all reviews final_scores) ;;
  let avg_score :=
    match final_scores with
    | [] => 0%Q
    | _ :: _ => (PyNum.sum final_scores / inject_Z (PyNum.len final_scores))%Q
    end in
  let avg_trust := (avg_score / 100)%Q in
  let '(verdict, verdict_kr) := verdict_of avg_trust in
  let confidence := PyNum.py_round avg_score 2 in
  ret (mkAnalysisResult verdict verdict_kr confidence enriched
         (mkDetails (PyNum.py_round avg_trust 4)
                    (PyNum.py_round avg_score 2)
                    (PyNum.len reviews))).

Definition run (reviews : list Review) : Traced RunResult :=
  if negb model_loads then ret (ErrorVerdict "모델 로딩 실패")
  else
    let processed_reviews := preprocess_reviews reviews in
    match processed_reviews with
    | [] => ret (ErrorVerdict "분석할 리뷰 없음")
    | _ :: _ =>
        result <- analyze_reviews processed_reviews ;;
        ret (Analysed result)
    end.

(** [main] on the reviews read from its input. *)
Definition main (reviews : list Review) : Output :=
  match outcome (run reviews) with
  | Ok result => OutSuccess result
  | Raise e => OutFailure e
  end.

End Analyzer.

End AiAnalyzer.

(* ================================================================== *)
(** ** services/analysis_service.py *)

Module AnalysisService.

Import AiAnalyzer.

(** A row of table [analyses]. *)
Record Analysis : Type := mkAnalysis {
  analysis_id : Z;
  status : string;
  verdict : option string;
  confidence : option Q;
  error_message : option string;
  review_count : option Z
}.

Definition or_else {A} (new old : option A) : option A :=
  match new with Some _ => new | None => old end.

Definition nonempty (s : option string) : option string :=
  match s with
  | Some EmptyString => None
  | _ => s
  end.

(** [update_analysis_status] on the row it finds. *)
Definition update_analysis_status (analysis : Analysis) (new_status : string)
           (new_verdict : option string) (new_confidence : option Q)
           (new_error : option string) (new_count : option Z) : Analysis :=
  mkAnalysis (analysis_id analysis) new_status
    (or_else (nonempty new_verdict) (verdict analysis))
    (or_else new_confidence (confidence analysis))
    (or_else (nonempty new_error) (error_message analysis))
    (or_else new_count (review_count analysis)).

(** What [analyze_with_ai] returns. *)
Record AiResult : Type := mkAiResult {
  success : bool;
  result_verdict : option string;
  result_confidence : option Q
}.

Section Service.

(** [str(e)]: the text of an exception.  It depends on the arguments the
    raising library gave the exception, so it is taken as given. *)
Variable str : PyExc -> string.

(** [analyze_with_ai], from step 4 on: [output] is what the analyzer
    process printed, [OutFailure e] standing for
    [{'success': False, 'error': str(e)}].  The process boundary itself
    (time-out, non-zero exit code, malformed JSON) is not modelled.  A
    failure printed by the analyzer is raised as [Exception(error_msg)]
    and handled by [except Exception]: the analysis is marked failed with
    [f'AI 분석 오류: {str(e)}'], where [str(e)] is the text the analyzer
    printed. *)
Definition analyze_with_ai (output : Output) (reviews : list Review)
           (analysis : Analysis) : AiResult * Analysis :=
  match output with
  | OutFailure e =>
      (mkAiResult false None None,
       update_analysis_status analysis "failed" None None
                              (Some ("AI 분석 오류: " ++ str e)%string) None)
  | OutSuccess ai_result =>
      let '(v, c) :=
        match ai_result with
        | Analysed r => (AiAnalyzer.verdict r, AiAnalyzer.confidence r)
        | ErrorVerdict _ => ("error"%string, 0%Q)
        end in
      (mkAiResult true (Some v) (Some c),
       update_analysis_status analysis "completed" (Some v) (Some c) None
                              (Some (PyNum.len reviews)))
  end.

End Service.

End AnalysisService.

(* ================================================================== *)
(** ** scripts/train_model.py *)

Module TrainModel.

(** The texts the script stores in [error_message]; the numbers are the
    ones interpolated into the message. *)
Inductive Message : Type :=
| InsufficientData (total : Z)
    (* "전체 데이터 부족: {total}개 (최소 100개 필요)" *)
| LabelTooFew (label_1_count label_0_count : Z)
    (* "한쪽 라벨이 너무 적음: label=1 {..}개, label=0 {..}개" *)
| NoActiveModel
    (* "활성 모델 없음" *)
| ExceptionText (e : PyExc).
    (* str(e) *)

(** A row of table [ai_jobs], without its timestamps and its free-text
    log trail. *)
Record AIJob : Type := mkAIJob {
  job_id : Z;
  job_type : string;
  status : string;
  submitted_at : Z;
  error_message : option Message
}.

(** A row of table [ai_models]. *)
Record AIModel : Type := mkAIModel {
  model_id : Z;
  model_name : string;
  version : string;
  artifact_url : string;
  accuracy : Q;
  active : bool
}.

(** The tables the script works on and the files it has written.  A
    write to the file system and a commit are taken to succeed: a run in
    which one of them raises is outside the model. *)
Record State : Type := mkState {
  jobs : list AIJob;
  models : list AIModel;
  feedbacks : list Feedback.FeedbackRow;
  files : list string
}.

(** A data frame with columns [text], [label]; and one with the added
    column [source]. *)
Definition DataFrame := list (pystr * Z).
Definition Combined := list (pystr * Z * string).

Definition label_of (row : pystr * Z * string) : Z := snd (fst row).

(** [(df['label'] == l).sum()]. *)
Definition count_label (l : Z) (df : Combined) : Z :=
  PyNum.len (filter (fun row => label_of row =? l) df).

Record Metrics : Type := mkMetrics {
  train_accuracy : Q;
  val_accuracy : Q;
  cv_accuracy : Q
}.

Inductive TrainResult : Type :=
| TrainSuccess (accuracy cv_accuracy : Q)
| TrainFailure (error : Message).

Definition succeeded (r : TrainResult) : bool :=
  match r with TrainSuccess _ _ => true | TrainFailure _ => false end.

Definition load_feedback_data (feedbacks : list Feedback.FeedbackRow)
  : option DataFrame :=
  match feedbacks with
  | [] => None
  | _ :: _ =>
      Some (map (fun f => (Feedback.review_text f, Feedback.tags f))
                feedbacks)
  end.

Definition tag_source (source : string) (df : DataFrame) : Combined :=
  map (fun row => (row, source)) df.

(** [if df is not None and len(df) > 0: datasets.append(df + source)]. *)
Definition append_dataset (df : option DataFrame) (source : string)
           (datasets : list Combined) : list Combined :=
  match df with
  | Some (row :: rows) => datasets ++ [tag_source source (row :: rows)]
  | _ => datasets
  end.

Definition combine_data (original_df feedback_df : option DataFrame)
  : Result Combined :=
  let datasets := append_dataset original_df "original" [] in
  let datasets := append_dataset feedback_df "feedback" datasets in
  match datasets with
  | [] => Raise (ValueError "병합할 데이터가 없습니다!")
  | _ :: _ => Ok (List.concat datasets)
  end.

(** [db.query(AIJob).filter(AIJob.job_id == id).first()]. *)
Definition query_job (id : Z) (js : list AIJob) : option AIJob :=
  find (fun j => job_id j =? id) js.

(** Assignments to the attributes of the row [query_job] returns. *)
Fixpoint update_job (id : Z) (f : AIJob -> AIJob) (js : list AIJob)
  : list AIJob :=
  match js with
  | [] => []
  | j :: js' =>
      if job_id j =? id then f j :: js' else j :: update_job id f js'
  end.

Definition set_status (new_status : string) (error : option Message)
           (j : AIJob) : AIJob :=
  mkAIJob (job_id j) (job_type j) new_status (submitted_at j)
          (match error with Some _ => error | None => error_message j end).

Definition with_jobs (st : State) (js : list AIJob) : State :=
  mkState js (models st) (feedbacks st) (files st).

(** Mark the job failed with a message and commit. *)
Definition fail_job (id : Z) (error : Message) (st : State) : State :=
  with_jobs st (update_job id (set_status "failed" (Some error)) (jobs st)).

(** [db.query(AIModel).filter(AIModel.active == True).first()]. *)
Definition query_active (ms : list AIModel) : option AIModel :=
  find active ms.

Definition fresh_model_id (ms : list AIModel) : Z :=
  1 + fold_right Z.max 0 (map model_id ms).

Fixpoint deactivate (id : Z) (ms : list AIModel) : list AIModel :=
  match ms with
  | [] => []
  | m :: ms' =>
      if model_id m =? id then
        mkAIModel (model_id m) (model_name m) (version m) (artifact_url m)
                  (accuracy m) false :: ms'
      else m :: deactivate id ms'
  end.

(** [order_by(AIJob.submitted_at)]: a stable insertion sort, so that jobs
    submitted at the same time keep the order of the table. *)
Fixpoint insert_by_time (j : AIJob) (sorted : list AIJob) : list AIJob :=
  match sorted with
  | [] => [j]
  | k :: rest =>
      if submitted_at j <=? submitted_at k then j :: sorted
      else k :: insert_by_time j rest
  end.

Definition order_by_submitted_at (js : list AIJob) : list AIJob :=
  fold_right insert_by_time [] js.

Definition pending_training_jobs (js : list AIJob) : list AIJob :=
  order_by_submitted_at
    (filter (fun j => String.eqb (job_type j) "training"
                      && String.eqb (status j) "pending") js).

Section Retraining.

(** [load_original_data()]: the CSV of the original training set, or
    [None] when it is missing or unreadable. *)
Variable original_data : option DataFrame.

(** Feature extraction, the stratified split, the fit of the random
    forest and its evaluation (steps 3 to 6). *)
Variable fit_and_evaluate : Combined -> Result Metrics.

(** The new version string, [f"v{major}.{int(minor) + 1}"], when the
    old one has the form [vMAJOR.MINOR]. *)
Variable next_version : string -> Result string.

(** The time-stamped directory a job writes its model to. *)
Variable output_dir_of : AIJob -> string.

(** The [except Exception] handler of [train_random_forest]. *)
Definition training_failed (id : Z) (e : PyExc) (st : State)
  : TrainResult * State :=
  (TrainFailure (ExceptionText e),
   match query_job id (jobs st) with
   | Some _ => fail_job id (ExceptionText e) st
   | None => st
   end).

Definition train_random_forest (id : Z) (output_dir : string) (st : State)
  : TrainResult * State :=
  match query_job id (jobs st) with
  | None => training_failed id AttributeError st
  | Some _ =>
      let st := with_jobs st
                  (update_job id (set_status "running" None) (jobs st)) in
      let feedback_df := load_feedback_data (feedbacks st) in
      match combine_data original_data feedback_df with
      | Raise e => training_failed id e st
      | Ok combined_df =>
          if PyNum.len combined_df <? 100 then
            let error_msg := InsufficientData (PyNum.len combined_df) in
            (TrainFailure error_msg, fail_job id error_msg st)
          else
            let label_1_count := count_label 1 combined_df in
            let label_0_count := count_label 0 combined_df in
            if (label_1_count <? 5) || (label_0_count <? 5) then
              let error_msg := LabelTooFew label_1_count label_0_count in
              (TrainFailure error_msg, fail_job id error_msg st)
            else
              match fit_and_evaluate combined_df with
              | Raise e => training_failed id e st
              | Ok m =>
                  let written :=
                    [(output_dir ++ "/random_forest_model.pkl")%string;
                     (output_dir ++ "/metadata.json")%string] in
                  let st := mkState (jobs st) (models st) (feedbacks st)
                                    (files st ++ written) in
                  (TrainSuccess (val_accuracy m) (cv_accuracy m),
                   with_jobs st
                     (update_job id (set_status "completed" None)
                                 (jobs st)))
              end
      end
  end.

(** Registers the new version, activates it and deactivates the old
    one; on an exception the transaction is rolled back and the
    exception propagates. *)
Definition create_new_model_version (old_model : AIModel) (acc : Q)
           (output_dir : string) (st : State) : Result State :=
  match next_version (version old_model) with
  | Raise e => Raise e
  | Ok new_version =>
      let new_model :=
        mkAIModel (fresh_model_id (models st))
                  "RandomForest-review-scorer" new_version output_dir
                  acc true in
      Ok (mkState (jobs st)
                  (deactivate (model_id old_model)
                              (models st ++ [new_model]))
                  (feedbacks st) (files st))
  end.

(** The body of [for job in pending_jobs]: the state it leaves, and
    the exception that escapes it, if any. *)
Definition process_job (job : AIJob) (st : State)
  : State * option PyExc :=
  match query_active (models st) with
  | None => (fail_job (job_id job) NoActiveModel st, None)
  | Some current_model =>
      let output_dir := output_dir_of job in
      let '(result, st) :=
        train_random_forest (job_id job) output_dir st in
      match result with
      | TrainSuccess acc _ =>
          match create_new_model_version current_model acc output_dir st
          with
          | Ok st' => (st', None)
          | Raise e => (st, Some e)
          end
      | TrainFailure _ => (st, None)
      end
  end.

(** The loop; an exception leaves it, and the outer handler of
    [check_and_process_jobs] only logs it. *)
Fixpoint process_jobs (pending_jobs : list AIJob) (st : State) : State :=
  match pending_jobs with
  | [] => st
  | job :: rest =>
      match process_job job st with
      | (st', None) => process_jobs rest st'
      | (st', Some _) => st'
      end
  end.

Definition check_and_process_jobs (st : State) : State :=
  process_jobs (pending_training_jobs (jobs st)) st.

End Retraining.

End TrainModel.

(* ================================================================== *)
(** ** The scoring rules as the specification words them *)

Module Spec.

(** [length_signal = min(character_length, 100) / 100]. *)
Definition length_signal (character_length : Z) : Q :=
  (inject_Z (Z.min character_length 100) / 100)%Q.

(** [length_bonus = min(character_length, 50) / 50]. *)
Definition length_bonus (character_length : Z) : Q :=
  (inject_Z (Z.min character_length 50) / 50)%Q.

(** The rule overrides, in priority order, first match wins. *)
Definition final_score (raw : Q)
           (has_product_keyword has_delivery_keyword : bool)
           (character_length : Z) : Q :=
  if negb has_product_keyword then (raw * 0.25)%Q
  else if has_delivery_keyword
          && PyNum.ltb (length_signal character_length) 0.2 then
    (raw * 0.1)%Q
  else (raw * 0.85 + raw * 0.15 * length_bonus character_length)%Q.

(** A keyword flag as a feature: 1 or 0. *)
Definition flag (b : bool) : Q := inject_Z (if b then 1 else 0).

(** The feature vector of a text with embedding [emb]: the embedding
    followed by the three scalar signals. *)
Definition features_of (emb : list Q) (t : pystr) : list Q :=
  emb ++ [length_signal (PyNum.len t);
          flag (ReviewScorer.any_keyword ReviewScorer.PRODUCT_KEYWORDS t);
          flag (ReviewScorer.any_keyword ReviewScorer.DELIVERY_KEYWORDS t)].

(** [avg = mean(scores)], with the analyzer's value 0 for an empty
    batch. *)
Definition batch_average (final_scores : list Q) : Q :=
  match final_scores with
  | [] => 0%Q
  | _ :: _ => PyNum.mean final_scores
  end.

(** The propagation policy as the specification words it: when scoring
    one review of a batch fails, the batch result is still produced, with
    a score for every review, the failing one scored zero. *)
Definition survives_scoring_failure
           (bert_model : pystr -> Result (list Q))
           (predict_proba : list Q -> Result (list Q))
           (reviews : list Review) : Prop :=
  forall failing e,
    In failing reviews ->
    ReviewScorer.outcome
      (AiAnalyzer.score_review bert_model predict_proba failing) = Raise e ->
    exists result,
      ReviewScorer.outcome
        (AiAnalyzer.analyze_reviews bert_model predict_proba reviews)
        = Ok result /\
      List.length (AiAnalyzer.enriched_reviews result)
        = List.length reviews.

(** Table [feedbacks] restricted to one batch, and to the others. *)
Definition rows_of (id : Z) (table : list Feedback.FeedbackRow)
  : list Feedback.FeedbackRow :=
  filter (fun row => Feedback.fb_analysis_id row =? id) table.

Definition other_rows (id : Z) (table : list Feedback.FeedbackRow)
  : list Feedback.FeedbackRow :=
  filter (fun row => negb (Feedback.fb_analysis_id row =? id)) table.

(** The row a submission stores for one review: none when the review has
    no text or the strategy excludes it. *)
Definition labeled_rows (request : Feedback.FeedbackRequest)
           (avg_score : Q) (user_satisfaction : Z) (review : Review)
  : list Feedback.FeedbackRow :=
  let review_text :=
    or_str (get_str (content review)) (get_str (text review)) in
  let score := get_score review in
  if negb (truthy review_text) then []
  else
    match Feedback.apply_strategy (Feedback.strategy request) score
                                  avg_score user_satisfaction with
    | None => []
    | Some l =>
        [Feedback.mkFeedbackRow
           (Feedback.req_analysis_id request) review_text score l
           score (Feedback.strategy request)
           (Feedback.calculate_label_confidence score l)]
    end.

(** The feedback set of one submission: the rows of the reviews of the
    batch, in the order of the reviews. *)
Definition feedback_set (analysis : Feedback.Analysis)
           (request : Feedback.FeedbackRequest)
  : list Feedback.FeedbackRow :=
  let all_reviews := Feedback.collect_reviews analysis in
  let avg_score := PyNum.mean (map get_score all_reviews) in
  let user_satisfaction := if Feedback.is_helpful request then 1 else 0 in
  flat_map (labeled_rows request avg_score user_satisfaction) all_reviews.

(** A stored row without the name of the strategy that labeled it. *)
Definition without_strategy (row : Feedback.FeedbackRow)
  : Z * pystr * Q * Z * Q * Q :=
  (Feedback.fb_analysis_id row, Feedback.review_text row,
   Feedback.confidence row, Feedback.tags row,
   Feedback.original_score row, Feedback.label_confidence row).

(** Two answers of the feedback endpoint that differ at most in the
    strategy name they echo. *)
Definition same_answer (r1 r2 : Result Feedback.FeedbackResponse) : Prop :=
  match r1, r2 with
  | Ok a, Ok b =>
      Feedback.success a = Feedback.success b /\
      Feedback.feedback_count a = Feedback.feedback_count b /\
      let i := Feedback.strategy_info a in
      let j := Feedback.strategy_info b in
      Feedback.total_reviews i = Feedback.total_reviews j /\
      Feedback.saved i = Feedback.saved j /\
      Feedback.skipped i = Feedback.skipped j /\
      Feedback.label_0 i = Feedback.label_0 j /\
      Feedback.label_1 i = Feedback.label_1 j /\
      Feedback.average_score i = Feedback.average_score j
  | Raise e1, Raise e2 => e1 = e2
  | _, _ => False
  end.

(** Two states of the labeling loop that agree on everything but the
    strategy names in the rows. *)
Definition alike (a b : Feedback.Locals) : Prop :=
  map without_strategy (Feedback.pending (Feedback.db a))
    = map without_strategy (Feedback.pending (Feedback.db b)) /\
  map without_strategy (Feedback.committed (Feedback.db a))
    = map without_strategy (Feedback.committed (Feedback.db b)) /\
  Feedback.saved_count a = Feedback.saved_count b /\
  Feedback.skipped_count a = Feedback.skipped_count b /\
  Feedback.stats_0 a = Feedback.stats_0 b /\
  Feedback.stats_1 a = Feedback.stats_1 b /\
  Feedback.label a = Feedback.label b.

Definition alike_results (x y : Result Feedback.Locals) : Prop :=
  match x, y with
  | Ok a, Ok b => alike a b
  | Raise e1, Raise e2 => True
  | _, _ => False
  end.

(** The job is marked failed with the given reason. *)
Definition marked_failed (id : Z) (reason : TrainModel.Message)
           (st : TrainModel.State) : Prop :=
  exists job,
    TrainModel.query_job id (TrainModel.jobs st) = Some job /\
    TrainModel.status job = "failed"%string /\
    TrainModel.error_message job = Some reason.

(** A data gate fails: too few examples, or too few of one class. *)
Definition gate_closed (combined : TrainModel.Combined) : Prop :=
  PyNum.len combined < 100
  \/ TrainModel.count_label 1 combined < 5
  \/ TrainModel.count_label 0 combined < 5.

(** A classifier whose positive-class output is a probability. *)
Definition probabilistic (predict_proba : list Q -> Result (list Q))
  : Prop :=
  forall features probs p,
    predict_proba features = Ok probs ->
    nth_error probs 1 = Some p -> (0 <= p <= 1)%Q.

(** External models that answer every call, the classifier with both
    class probabilities. *)
Definition responsive (bert_model : pystr -> Result (list Q))
           (predict_proba : list Q -> Result (list Q)) : Prop :=
  (forall t, exists emb, bert_model t = Ok emb) /\
  (forall features, exists probs p,
      predict_proba features = Ok probs /\ nth_error probs 1 = Some p).

End Spec.

(* ================================================================== *)
(** ** Concrete inputs *)

Module Examples.

(** An embedding model that answers every text. *)
Definition bert (t : pystr) : Result (list Q) := Ok [1 # 2].

(** An embedding model that fails on texts of fewer than three code
    points. *)
Definition flaky_bert (t : pystr) : Result (list Q) :=
  if PyNum.len t <? 3 then Raise (ExternalError "embedding")
  else Ok [1 # 2].

(** A classifier that gives the positive class probability 0.7. *)
Definition forest (features : list Q) : Result (list Q) :=
  Ok [3 # 10; 7 # 10].

(** The text of the exceptions the examples raise. *)
Definition text_of (e : PyExc) : string :=
  match e with
  | ExternalError what => what
  | ValueError msg => msg
  | KeyError key => "'" ++ key ++ "'"
  | _ => ""
  end.

Definition review_of (t : string) : Review :=
  mkReview (Some (u t)) None None None None.

Definition scored (t : string) (score : Q) : Review :=
  mkReview None (Some (u t)) (Some score) None None.

(** A batch whose second review makes [flaky_bert] fail. *)
Definition batch : list Review :=
  [review_of "사이즈가 딱 맞아요"; review_of "굿"; review_of "배송 빨라요"].

(** A completed analysis of three reviews with scores 90, 10 and 50. *)
Definition analysis7 : Feedback.Analysis :=
  Feedback.mkAnalysis 7 "completed"
    (Some [scored "핏이 좋아요" 90; scored "별로예요" 10])
    (Some [scored "그냥 그래요" 50]).

(** A table that holds one row of another batch and one of batch 7. *)
Definition old_table : list Feedback.FeedbackRow :=
  [Feedback.mkFeedbackRow 3 (u "재질이 좋아요") 80 1 80 "hybrid" 0.8;
   Feedback.mkFeedbackRow 7 (u "핏이 좋아요") 90 0 90 "weak" 0.1].

Definition request (helpful : bool) (strategy : string)
  : Feedback.FeedbackRequest :=
  Feedback.mkFeedbackRequest 7 helpful strategy.

(** An original training set of [negatives] examples labeled 0 and
    [positives] examples labeled 1. *)
Definition training_set (negatives positives : nat)
  : option TrainModel.DataFrame :=
  Some (repeat (u "별로예요", 0) negatives
        ++ repeat (u "핏이 좋아요", 1) positives).

(** The merged dataset when that training set is all there is. *)
Definition merged (negatives positives : nat) : TrainModel.Combined :=
  TrainModel.tag_source "original"
    (repeat (u "별로예요", 0) negatives ++ repeat (u "핏이 좋아요", 1) positives).

Definition fit (df : TrainModel.Combined) : Result TrainModel.Metrics :=
  Ok (TrainModel.mkMetrics 0.95 0.9 0.88).

Definition bump (v : string) : Result string := Ok "v1.1"%string.

Definition dir_of (job : TrainModel.AIJob) : string :=
  "rf_models_retrained/model_20250101_000000".

(** One pending training job, one active model, no feedback yet. *)
Definition world : TrainModel.State :=
  TrainModel.mkState
    [TrainModel.mkAIJob 1 "training" "pending" 0 None]
    [TrainModel.mkAIModel 1 "RandomForest-review-scorer" "v1.0"
                          "ai_models/final_perfect_scorer.pkl" 0.9 true]
    [] [].

End Examples.

(* ================================================================== *)
(** ** scripts/train_model.py: the feature extractor of retraining *)

Module FeatureExtractor.

Import ReviewScorer.

Definition PRODUCT_KEYWORDS : list pystr := Eval vm_compute in map u [
  "두께"; "두껍"; "얇"; "시보리"; "지퍼"; "마감"; "박음질"; "실밥"; "손상";
  "보들"; "부드럽"; "거칠"; "까끌"; "탄탄"; "짱짱"; "퀄리"; "재질";
  "소재"; "원단"; "털"; "보풀"; "비침"; "안감"; "주머니"; "단추"; "버튼";
  "신축성"; "스판"; "구김"; "물빠짐"; "세탁"; "건조"; "냄새"; "향"; "오염";
  "핏"; "기장"; "소매"; "허리"; "어깨"; "가슴"; "품"; "통";
  "오버"; "루즈"; "슬림"; "타이트"; "넉넉"; "작아"; "커요"; "길어"; "짧아";
  "넓어"; "좁아"; "딱 맞"; "헐렁"; "쪼이"; "작네"; "크네"; "길네"; "짧네"; "맞네";
  "사이즈"; "크기"; "cm"; "kg"; "키"; "몸무게"; "평소"; "크네요"; "커서"; "작네요";
  "불편"; "편안"; "아프"; "따뜻"; "시원"; "여름"; "겨울"; "가을"; "봄"; "계절";
  "입어보"; "신어보"; "써보"; "사용해"; "착용"; "따뜻";
  "발볼"; "발등"; "굽"; "무게"; "가볍"; "무겁"; "소음"; "소리"; "조립"; "설치"; "신발끈";
  "색감"; "색상"; "실물"; "퀄리티"; "실제"
]%string.

Definition DELIVERY_KEYWORDS : list pystr := Eval vm_compute in map u [
  "배송"; "택배"; "기사"; "박스"; "포장"; "주문"; "도착"; "배송비"; "칼배송"
]%string.

Section Extractor.

(** The tokenizer followed by KcELECTRA, as in the scorer. *)
Variable bert_model : pystr -> Result (list Q).

(** [FeatureExtractor.extract_features]: the embedding followed by the
    three scalar features. *)
Definition extract_features (text : pystr) : Traced (list Q) :=
  emb <- external (CallEmbedding text) (bert_model text) ;;
  let length_val := (inject_Z (Z.min (PyNum.len text) 100) / 100)%Q in
  let has_product :=
    if existsb (fun k => contains k text) PRODUCT_KEYWORDS then 1 else 0 in
  let has_delivery :=
    if existsb (fun k => contains k text) DELIVERY_KEYWORDS then 1 else 0 in
  ret (emb ++ [length_val; inject_Z has_product; inject_Z has_delivery]).

End Extractor.

End FeatureExtractor.

(* ================================================================== *)
(** ** services/auth_service.py *)

Module AuthService.

(** [s.split(sep)] for a separator of one character: the pieces between
    the occurrences of [sep], empty pieces included. *)
Fixpoint split (sep : N) (s : pystr) : list pystr :=
  match s with
  | [] => [[]]
  | c :: s' =>
      if (c =? sep)%N then [] :: split sep s'
      else
        match split sep s' with
        | [] => [[c]]
        | piece :: pieces => (c :: piece) :: pieces
        end
  end.

Definition space : N := 32%N.

(** [extract_token_from_header]; [authorization] is [None] when the header
    is absent.  An [IndexError] of the indexing would be caught and give
    [None]. *)
Definition extract_token_from_header (authorization : option pystr)
  : option pystr :=
  match authorization with
  | None => None
  | Some header =>
      if negb (truthy header) || negb (startswith header (u "Bearer "))
      then None
      else nth_error (split space header) 1
  end.

End AuthService.

(* ================================================================== *)
(** ** routers/feedback.py: statistics *)

Module FeedbackStats.

Import Feedback.

(** The body of the answer of [GET /users/feedback/stats]. *)
Record Stats : Type := mkStats {
  total : Z;
  helpful : Z;
  unhelpful : Z
}.

(** [db.query(Feedback).filter(Feedback.tags == t).count()]. *)
Definition count_tags (t : Z) (table : list FeedbackRow) : Z :=
  PyNum.len (filter (fun row => tags row =? t) table).

Definition get_feedback_stats (table : list FeedbackRow) : Stats :=
  mkStats (PyNum.len table) (count_tags 1 table) (count_tags 0 table).

End FeedbackStats.

(* ================================================================== *)
(** ** Vocabulary of the further properties *)

Module Facts.

(** [k] occurs in [text] as a substring. *)
Definition occurs (k text : pystr) : Prop :=
  exists before after, text = before ++ k ++ after.

(** The text the feedback endpoint reads from a review. *)
Definition feedback_text (review : Review) : pystr :=
  or_str (get_str (content review)) (get_str (text review)).

(** The text the analyzer reads from a review. *)
Definition analysis_text (review : Review) : pystr :=
  or_str (get_str (text review)) (get_str (content review)).

(** Every stored label is 0 or 1. *)
Definition binary_tags (table : list Feedback.FeedbackRow) : Prop :=
  Forall (fun row => Feedback.tags row = 0 \/ Feedback.tags row = 1) table.

(** The reviews of a batch the feedback endpoint finds a text in. *)
Definition with_text (reviews : list Review) : list Review :=
  filter (fun review => truthy (feedback_text review)) reviews.

(** The rows of a data frame that may be missing. *)
Definition frame (df : option TrainModel.DataFrame) : TrainModel.DataFrame :=
  match df with Some rows => rows | None => [] end.

(** The number of examples of a data frame that carry label [l]. *)
Definition count_in (l : Z) (df : TrainModel.DataFrame) : Z :=
  PyNum.len (filter (fun row => snd row =? l) df).

(** A job after it was failed for want of an active model version. *)
Definition fail_for_no_model (j : TrainModel.AIJob) : TrainModel.AIJob :=
  TrainModel.set_status "failed" (Some TrainModel.NoActiveModel) j.

(** The prefix of an authorization header, ["Bearer "]. *)
Definition bearer : pystr := Eval vm_compute in u "Bearer ".


End Facts.

(** Further concrete inputs. *)

Module Samples.

(** A completed analysis whose only review has neither text nor
    content. *)
Definition textless7 : Feedback.Analysis :=
  Feedback.mkAnalysis 7 "completed"
    (Some [mkReview None None (Some 80%Q) None None]) None.

(** A feedback row of an earlier run, as a training example source. *)
Definition stored : list Feedback.FeedbackRow :=
  [Feedback.mkFeedbackRow 3 (u "재질이 좋아요") 80 1 80 "hybrid" 0.8].

(** Two pending training jobs and a finished one; no model version. *)
Definition orphaned : TrainModel.State :=
  TrainModel.mkState
    [TrainModel.mkAIJob 1 "training" "pending" 20 None;
     TrainModel.mkAIJob 2 "training" "completed" 5 None;
     TrainModel.mkAIJob 3 "training" "pending" 10 None]
    [] [] [].

End Samples.

(* ================================================================== *)
(** ** Binary64

    IEEE 754 double precision, the arithmetic of Python's [float] and of
    NumPy's [float64]: the operations of [SpecFloat] with 53 bits of
    precision, rounding to nearest, ties to even. *)

Module Binary64.

Definition float : Type := spec_float.

Definition prec : Z := 53.
Definition emax : Z := 1024.

(** [float(n)] for an integer [n]. *)
Definition of_int (n : Z) : float := binary_normalize prec emax n 0 false.

Definition add : float -> float -> float := SFadd prec emax.
Definition mul : float -> float -> float := SFmul prec emax.
Definition div : float -> float -> float := SFdiv prec emax.

(** [x < y], [x <= y], [x > y], [x >= y]; all false when an operand is
    NaN. *)
Definition ltb (x y : float) : bool := SFltb x y.
Definition leb (x y : float) : bool := SFleb x y.
Definition gtb (x y : float) : bool := ltb y x.
Definition geb (x y : float) : bool := leb y x.

Definition lt (x y : float) : Prop := ltb x y = true.
Definition le (x y : float) : Prop := leb x y = true.

(** The decimal literal [n / d], [d] a power of ten: the double nearest
    to it.  [0.25] is [decimal 25 100]. *)
Definition decimal (n d : Z) : float := div (of_int n) (of_int d).

(** [sum(xs)]: from the integer 0, adding left to right. *)
Definition sum (xs : list float) : float := fold_left add xs (of_int 0).

(** The exact value of a finite float. *)
Definition to_Q (x : float) : Q :=
  match x with
  | S754_finite s m e =>
      let v := (inject_Z (Zpos m) * Qpower 2 e)%Q in
      if s then (- v)%Q else v
  | _ => 0%Q
  end.

(** [round(x, ndigits)] on a Python [float], for [ndigits >= 0] and the
    magnitudes of scores: the double nearest to the decimal with
    [ndigits] digits that is nearest to the exact value of [x], ties to
    even. *)
Definition round_float (x : float) (ndigits : Z) : float :=
  match x with
  | S754_finite s _ _ =>
      let scale := 10 ^ ndigits in
      let r :=
        decimal (PyNum.round_half_even (Qabs (to_Q x) * inject_Z scale))
                scale in
      if s then SFopp r else r
  | _ => x
  end.

End Binary64.

(* ================================================================== *)
(** ** services/review_scorer.py in binary64

    The scorer once more, with the arithmetic the code runs.  Which
    rounding function [round(final_score, 1)] dispatches to depends on
    the type of the number the classifier returns, which the source does
    not fix; it is a parameter here. *)

Module FloatScorer.

Import Binary64.

Section Scorer.

(** The tokenizer followed by KcELECTRA: the [CLS] embedding of a
    text. *)
Variable bert_model : pystr -> Result (list float).

(** [rf_model.predict_proba(features)[0]]. *)
Variable predict_proba : list float -> Result (list float).

(** [round(x, ndigits)]. *)
Variable round : float -> Z -> float.

Definition _extract_features (text : pystr)
  : Result (list float * float * Z * Z) :=
  match bert_model text with
  | Raise e => Raise e
  | Ok emb =>
      let length_val := div (of_int (Z.min (PyNum.len text) 100))
                            (of_int 100) in
      let has_product :=
        if ReviewScorer.any_keyword ReviewScorer.PRODUCT_KEYWORDS text
        then 1 else 0 in
      let has_delivery :=
        if ReviewScorer.any_keyword ReviewScorer.DELIVERY_KEYWORDS text
        then 1 else 0 in
      Ok (emb ++ [length_val; of_int has_product; of_int has_delivery],
          length_val, has_product, has_delivery)
  end.

Definition predict (text : pystr) : Result float :=
  if negb (truthy text) then Ok (of_int 0) else
  match _extract_features text with
  | Raise e => Raise e
  | Ok (features, length_val, has_product, has_delivery) =>
      match predict_proba features with
      | Raise e => Raise e
      | Ok probs =>
          match nth_error probs 1 with
          | None => Raise IndexError
          | Some p1 =>
              let raw_score := mul p1 (of_int 100) in
              let final_score := raw_score in
              let final_score :=
                if has_product =? 0 then mul raw_score (decimal 25 100)
                else if (has_delivery =? 1)
                        && ltb length_val (decimal 2 10) then
                  mul final_score (decimal 1 10)
                else
                  let length_bonus :=
                    div (of_int (Z.min (PyNum.len text) 50)) (of_int 50) in
                  add (mul final_score (decimal 85 100))
                      (mul (mul final_score (decimal 15 100)) length_bonus)
              in
              Ok (round final_score 1)
          end
      end
  end.

End Scorer.

End FloatScorer.

(* ================================================================== *)
(** ** services/ai_analyzer.py in binary64 *)

Module FloatAnalyzer.

Import Binary64.

(** A review after step 2 of [analyze_reviews]: the review object with
    the keys [reliability_score], [analysis_label] and [color_class]
    set. *)
Record Scored : Type := mkScored {
  review : Review;
  reliability_score : float;
  analysis_label : string;
  color_class : string
}.

Record Details : Type := mkDetails {
  avg_trust_score : float;
  avg_score : float;
  total_reviews : Z
}.

Record AnalysisResult : Type := mkAnalysisResult {
  verdict : string;
  verdict_kr : string;
  confidence : float;
  enriched_reviews : list Scored;
  details : Details
}.

Definition label_and_color (score : float) : string * string :=
  if geb score (of_int 76) then ("매우 도움됨", "status-green")%string
  else if geb score (of_int 36) then
    ("부분적으로 도움됨", "status-orange")%string
  else ("도움 안됨", "status-red")%string.

Definition verdict_of (avg_trust : float) : string * string :=
  if gtb avg_trust (decimal 7 10) then ("safe", "신뢰할 만함")%string
  else if geb avg_trust (decimal 3 10) then
    ("suspicious", "의심스러움")%string
  else ("malicious", "신뢰하기 어려움")%string.

Definition enrich (r : Review) (score : float) : Scored :=
  let '(lbl, color) := label_and_color score in
  mkScored r score lbl color.

(** [for i, review in enumerate(reviews): score = final_scores[i]]. *)
Fixpoint enrich_all (reviews : list Review) (final_scores : list float)
  : Result (list Scored) :=
  match reviews, final_scores with
  | [], _ => Ok []
  | _ :: _, [] => Raise IndexError
  | r :: reviews', score :: scores' =>
      match enrich_all reviews' scores' with
      | Ok rest => Ok (enrich r score :: rest)
      | Raise e => Raise e
      end
  end.

Section Analyzer.

(** [self.scorer.predict]. *)
Variable predict : pystr -> Result float.

(** [round(x, ndigits)]. *)
Variable round : float -> Z -> float.

Definition score_review (r : Review) : Result float :=
  match text r with
  | Some t => predict t
  | None => Raise (KeyError "text")
  end.

(** Step 1: the scores of the reviews, in order; the first exception
    ends the loop. *)
Fixpoint score_all (reviews : list Review) : Result (list float) :=
  match reviews with
  | [] => Ok []
  | r :: reviews' =>
      match score_review r with
      | Raise e => Raise e
      | Ok score =>
          match score_all reviews' with
          | Raise e => Raise e
          | Ok scores => Ok (score :: scores)
          end
      end
  end.

Definition analyze_reviews (reviews : list Review) : Result AnalysisResult :=
  match score_all reviews with
  | Raise e => Raise e
  | Ok final_scores =>
      match enrich_all reviews final_scores with
      | Raise e => Raise e
      | Ok enriched =>
          let avg_score :=
            match final_scores with
            | [] => of_int 0
            | _ :: _ =>
                div (sum final_scores) (of_int (PyNum.len final_scores))
            end in
          let avg_trust := div avg_score (of_int 100) in
          let '(verdict, verdict_kr) := verdict_of avg_trust in
          let confidence := round avg_score 2 in
          Ok (mkAnalysisResult verdict verdict_kr confidence enriched
                (mkDetails (round avg_trust 4) (round avg_score 2)
                           (PyNum.len reviews)))
      end
  end.

End Analyzer.

End FloatAnalyzer.

(* ================================================================== *)
(** ** Vocabulary of the binary64 properties *)

Module FloatSpec.

Import Binary64.

(** [length_signal = min(character_length, 100) / 100]. *)
Definition length_signal (character_length : Z) : float :=
  div (of_int (Z.min character_length 100)) (of_int 100).

(** [length_bonus = min(character_length, 50) / 50]. *)
Definition length_bonus (character_length : Z) : float :=
  div (of_int (Z.min character_length 50)) (of_int 50).

(** One of the keywords occurs in the text. *)
Definition mentions (keywords : list pystr) (t : pystr) : Prop :=
  exists k, In k keywords /\ Facts.occurs k t.

(** The feature vector of a text with embedding [emb]. *)
Definition features_of (emb : list float) (t : pystr) : list float :=
  emb ++ [length_signal (PyNum.len t);
          of_int (if ReviewScorer.any_keyword
                       ReviewScorer.PRODUCT_KEYWORDS t then 1 else 0);
          of_int (if ReviewScorer.any_keyword
                       ReviewScorer.DELIVERY_KEYWORDS t then 1 else 0)].

(** [avg = mean(scores)] as the analyzer computes it: the sum from left
    to right divided by the count, and 0 for an empty batch. *)
Definition batch_average (final_scores : list float) : float :=
  match final_scores with
  | [] => of_int 0
  | _ :: _ => div (sum final_scores) (of_int (PyNum.len final_scores))
  end.

(** The display band of one score, as the enriched review shows it. *)
Definition banded (enriched : FloatAnalyzer.Scored) (s : float) : Prop :=
  FloatAnalyzer.reliability_score enriched = s /\
  (le (of_int 76) s ->
   FloatAnalyzer.analysis_label enriched = "매우 도움됨"%string /\
   FloatAnalyzer.color_class enriched = "status-green"%string) /\
  (le (of_int 36) s /\ lt s (of_int 76) ->
   FloatAnalyzer.analysis_label enriched = "부분적으로 도움됨"%string /\
   FloatAnalyzer.color_class enriched = "status-orange"%string) /\
  (~ le (of_int 76) s -> ~ (le (of_int 36) s /\ lt s (of_int 76)) ->
   FloatAnalyzer.analysis_label enriched = "도움 안됨"%string /\
   FloatAnalyzer.color_class enriched = "status-red"%string).

End FloatSpec.

Module FloatExamples.

Import Binary64.

(** An embedding model that answers every text. *)
Definition bert (t : pystr) : Result (list float) := Ok [decimal 1 2].

(** A classifier that gives the positive class probability 0.7, and one
    that gives it 0.022. *)
Definition forest (features : list float) : Result (list float) :=
  Ok [decimal 3 10; decimal 7 10].

Definition doubtful_forest (features : list float) : Result (list float) :=
  Ok [decimal 978 1000; decimal 22 1000].

(** A scorer that scores a text by its length: 83.9 for one character,
    70.7 for two, 55.4 for any other text. *)
Definition scorer (t : pystr) : Result float :=
  match t with
  | [_] => Ok (decimal 839 10)
  | [_; _] => Ok (decimal 707 10)
  | _ => Ok (decimal 554 10)
  end.

Definition batch : list Review :=
  [Examples.review_of "굿"; Examples.review_of "좋아";
   Examples.review_of "별로예요"].

End FloatExamples.

(* ================================================================== *)
(** * Properties *)

(** ** Comparisons and rounding *)

Section NumFacts.

Local Open Scope Q_scope.

Lemma leb_spec (x y : Q) : PyNum.leb x y = true <-> x <= y.
Proof. apply Qle_bool_iff. Qed.

Lemma geb_spec (x y : Q) : PyNum.geb x y = true <-> y <= x.
Proof. apply Qle_bool_iff. Qed.

Lemma ltb_spec (x y : Q) : PyNum.ltb x y = true <-> x < y.
Proof.
  unfold PyNum.ltb. rewrite negb_true_iff.
  split; intro H.
  - apply Qnot_le_lt. intro L. apply Qle_bool_iff in L. congruence.
  - destruct (Qle_bool y x) eqn:E; [|reflexivity].
    apply Qle_bool_iff in E. exfalso. exact (Qlt_not_le _ _ H E).
Qed.

Lemma gtb_spec (x y : Q) : PyNum.gtb x y = true <-> y < x.
Proof. exact (ltb_spec y x). Qed.

Lemma leb_false (x y : Q) : PyNum.leb x y = false <-> y < x.
Proof.
  rewrite <- (ltb_spec y x). unfold PyNum.ltb, PyNum.leb.
  destruct (Qle_bool x y); simpl; intuition congruence.
Qed.

Lemma geb_false (x y : Q) : PyNum.geb x y = false <-> x < y.
Proof. exact (leb_false y x). Qed.

Lemma ltb_false (x y : Q) : PyNum.ltb x y = false <-> y <= x.
Proof.
  rewrite <- (leb_spec y x). unfold PyNum.ltb, PyNum.leb.
  destruct (Qle_bool y x); simpl; intuition congruence.
Qed.

Lemma gtb_false (x y : Q) : PyNum.gtb x y = false <-> x <= y.
Proof. exact (ltb_false y x). Qed.

(** Rounding to the nearest integer stays between integer bounds. *)
Lemma round_half_even_bounds (x : Q) (a b : Z) :
  inject_Z a <= x -> x <= inject_Z b ->
  (a <= PyNum.round_half_even x <= b)%Z.
Proof.
  intros Ha Hb.
  assert (Fa : (a <= Qfloor x)%Z).
  { rewrite <- (Qfloor_Z a). now apply Qfloor_resp_le. }
  assert (Fb : (Qfloor x <= b)%Z).
  { rewrite <- (Qfloor_Z b). now apply Qfloor_resp_le. }
  unfold PyNum.round_half_even.
  destruct (Z.eq_dec (Qfloor x) b) as [E|E].
  - assert (X : x - inject_Z (Qfloor x) <= 0).
    { rewrite E. lra. }
    destruct (Qcompare_spec (x - inject_Z (Qfloor x)) (1 # 2)) as [C|C|C].
    + rewrite C in X. exfalso. revert X. apply Qlt_not_le. reflexivity.
    + lia.
    + exfalso. apply (Qlt_not_le _ _ C). apply (Qle_trans _ 0); [exact X|].
      discriminate.
  - destruct (Qcompare (x - inject_Z (Qfloor x)) (1 # 2));
      try destruct (Z.even (Qfloor x)); lia.
Qed.

Lemma py_round_decimals (x : Q) (n : nat) :
  (0 < n)%nat -> PyNum.has_decimals n (PyNum.py_round x n).
Proof.
  intros Hn. destruct n as [|n]; [lia|].
  unfold PyNum.has_decimals, PyNum.py_round. eexists. reflexivity.
Qed.

(** [round(x, 1)] keeps a score inside [0, 100]. *)
Lemma py_round1_range (x : Q) :
  0 <= x <= 100 -> 0 <= PyNum.py_round x 1 <= 100.
Proof.
  intros [H0 H1]. unfold PyNum.py_round. cbn [Pos.of_nat Pos.pow].
  change (10 ^ 1)%positive with 10%positive.
  destruct (round_half_even_bounds (x * inject_Z 10) 0 1000) as [L U].
  - change (inject_Z 0) with 0. change (inject_Z 10) with 10. lra.
  - change (inject_Z 1000) with 1000. change (inject_Z 10) with 10. lra.
  - unfold Qle. simpl. lia.
Qed.

End NumFacts.

(* ================================================================== *)
(** ** Smart labeling *)

Section Labeling.

Import Feedback.
Local Open Scope Q_scope.

(** Split on every comparison in the goal and turn the outcomes into
    facts about the order of [Q]. *)
Ltac by_cases_on_comparisons :=
  repeat match goal with
    | |- context [PyNum.geb ?a ?b] => destruct (PyNum.geb a b) eqn:?
    | |- context [PyNum.leb ?a ?b] => destruct (PyNum.leb a b) eqn:?
    | |- context [PyNum.gtb ?a ?b] => destruct (PyNum.gtb a b) eqn:?
    | |- context [PyNum.ltb ?a ?b] => destruct (PyNum.ltb a b) eqn:?
    end;
  repeat match goal with
    | H : PyNum.geb _ _ = true |- _ => apply geb_spec in H
    | H : PyNum.geb _ _ = false |- _ => apply geb_false in H
    | H : PyNum.leb _ _ = true |- _ => apply leb_spec in H
    | H : PyNum.leb _ _ = false |- _ => apply leb_false in H
    | H : PyNum.gtb _ _ = true |- _ => apply gtb_spec in H
    | H : PyNum.gtb _ _ = false |- _ => apply gtb_false in H
    | H : PyNum.ltb _ _ = true |- _ => apply ltb_spec in H
    | H : PyNum.ltb _ _ = false |- _ => apply ltb_false in H
    end.

Ltac settle :=
  first [ reflexivity | congruence | assumption | lra | exfalso; lra
        | split; intros; first [ reflexivity | congruence | assumption
                               | lra | exfalso; lra ] ].

Lemma hybrid_satisfied (score avg_score : Q) :
  smart_label_hybrid score avg_score 1 =
    if PyNum.geb score 85 then Some 1%Z
    else if PyNum.leb score 35 then Some 0%Z
    else Some (if PyNum.gtb score avg_score then 1%Z else 0%Z).
Proof. reflexivity. Qed.

Lemma hybrid_unsatisfied (score avg_score : Q) (user_satisfaction : Z) :
  user_satisfaction <> 1%Z ->
  smart_label_hybrid score avg_score user_satisfaction =
    if PyNum.leb score 35 then Some 0%Z
    else if PyNum.geb score 85 then Some 1%Z
    else Some (if PyNum.ltb score avg_score then 0%Z else 1%Z).
Proof.
  intros H. unfold smart_label_hybrid.
  destruct (Z.eqb_spec user_satisfaction 1); [contradiction|reflexivity].
Qed.

Lemma extreme_satisfied (score : Q) :
  smart_label_extreme score 1 =
    if PyNum.geb score 80 then Some 1%Z
    else if PyNum.leb score 40 then Some 0%Z else None.
Proof. reflexivity. Qed.

Lemma extreme_unsatisfied (score : Q) (user_satisfaction : Z) :
  user_satisfaction <> 1%Z ->
  smart_label_extreme score user_satisfaction =
    if PyNum.leb score 40 then Some 0%Z
    else if PyNum.geb score 80 then Some 1%Z else None.
Proof.
  intros H. unfold smart_label_extreme.
  destruct (Z.eqb_spec user_satisfaction 1); [contradiction|reflexivity].
Qed.

(** The two branches of the extreme strategy are the same function of
    the score. *)
Lemma extreme_branches_agree (score : Q) :
  (if PyNum.leb score 40 then Some 0%Z
   else if PyNum.geb score 80 then Some 1%Z else None) =
  (if PyNum.geb score 80 then Some 1%Z
   else if PyNum.leb score 40 then Some 0%Z else @None Z).
Proof. by_cases_on_comparisons; settle. Qed.

Lemma extreme_any (score : Q) (user_satisfaction : Z) :
  smart_label_extreme score user_satisfaction =
    if PyNum.geb score 80 then Some 1%Z
    else if PyNum.leb score 40 then Some 0%Z else None.
Proof.
  destruct (Z.eq_dec user_satisfaction 1) as [->|N].
  - apply extreme_satisfied.
  - rewrite (extreme_unsatisfied _ _ N). apply extreme_branches_agree.
Qed.

(** C2.  The hybrid strategy always returns a label, 0 or 1.  For a
    satisfied user ([user_satisfaction = 1]) a score of at least 85 gives
    1, a score of at most 35 gives 0, and a score strictly between gives
    1 exactly when it is above the batch average.  For an unsatisfied
    user a score of at most 35 gives 0, a score of at least 85 gives 1,
    and a score strictly between gives 0 exactly when it is below the
    batch average.  With a satisfied user, score 90 against average 50
    gives 1, score 20 gives 0 and score 60 against average 65 gives 0. *)
Theorem smart_label_hybrid_bands
        (score avg_score : Q) (user_satisfaction : Z) :
  let l := smart_label_hybrid score avg_score user_satisfaction in
  (l = Some 0%Z \/ l = Some 1%Z) /\
  (user_satisfaction = 1%Z ->
     (85 <= score -> l = Some 1%Z) /\
     (score <= 35 -> l = Some 0%Z) /\
     (35 < score < 85 -> (l = Some 1%Z <-> avg_score < score))) /\
  (user_satisfaction <> 1%Z ->
     (score <= 35 -> l = Some 0%Z) /\
     (85 <= score -> l = Some 1%Z) /\
     (35 < score < 85 -> (l = Some 0%Z <-> score < avg_score))) /\
  smart_label_hybrid 90 50 1 = Some 1%Z /\
  smart_label_hybrid 20 avg_score 1 = Some 0%Z /\
  smart_label_hybrid 60 65 1 = Some 0%Z.
Proof.
  cbv zeta. split; [|split; [|split; [|split; [|split]]]].
  - destruct (Z.eq_dec user_satisfaction 1) as [->|N].
    + rewrite hybrid_satisfied. by_cases_on_comparisons; auto.
    + rewrite (hybrid_unsatisfied _ _ _ N). by_cases_on_comparisons; auto.
  - intros ->. rewrite hybrid_satisfied.
    by_cases_on_comparisons; repeat split; intros; settle.
  - intros N. rewrite (hybrid_unsatisfied _ _ _ N).
    by_cases_on_comparisons; repeat split; intros; settle.
  - reflexivity.
  - reflexivity.
  - reflexivity.
Qed.

Lemma smart_label_hybrid_bands_witness :
  smart_label_hybrid 60 65 0 = Some 0%Z.
Proof.
  apply (proj2 (proj2 (proj1 (proj2 (proj2
           (smart_label_hybrid_bands 60 65 0))) ltac:(discriminate)))).
  - split; reflexivity.
  - reflexivity.
Defined.

(** C7.  Whatever the satisfaction value, the extreme strategy returns 1
    for a score of at least 80, 0 for a score of at most 40, and [None]
    exactly for a score strictly between 40 and 80; an unsatisfied user
    with score 50 gives [None]. *)
Theorem smart_label_extreme_bands (score : Q) (user_satisfaction : Z) :
  let l := smart_label_extreme score user_satisfaction in
  (80 <= score -> l = Some 1%Z) /\
  (score <= 40 -> l = Some 0%Z) /\
  (l = None <-> 40 < score < 80) /\
  smart_label_extreme 50 0 = None.
Proof.
  cbv zeta. rewrite extreme_any.
  by_cases_on_comparisons; repeat split; intros; settle.
Qed.

Lemma smart_label_extreme_bands_witness :
  smart_label_extreme 80 0 = Some 1%Z /\
  smart_label_extreme 40 1 = Some 0%Z /\
  smart_label_extreme 79.9 1 = None.
Proof.
  split; [|split].
  - apply (proj1 (smart_label_extreme_bands 80 0)). discriminate.
  - apply (proj1 (proj2 (smart_label_extreme_bands 40 1))). discriminate.
  - apply (proj1 (proj2 (proj2 (smart_label_extreme_bands 79.9 1)))).
    split; reflexivity.
Defined.

(** C9.  The extreme strategy does not depend on the satisfaction value:
    for every score and any two satisfaction values the label is the
    same. *)
Theorem smart_label_extreme_ignores_satisfaction (score : Q) (a b : Z) :
  smart_label_extreme score a = smart_label_extreme score b.
Proof. now rewrite !extreme_any. Qed.

End Labeling.

(* ================================================================== *)
(** ** The scorer *)

Section ScorerFacts.

Import ReviewScorer.
Local Open Scope Q_scope.

Variable bert_model : pystr -> Result (list Q).
Variable predict_proba : list Q -> Result (list Q).

(** [predict], call by call. *)
Lemma predict_unfolded (t : pystr) :
  predict bert_model predict_proba t =
    match t with
    | [] => mkTraced (Ok 0) []
    | _ :: _ =>
        match bert_model t with
        | Raise e => mkTraced (Raise e) [CallEmbedding t]
        | Ok emb =>
            let called :=
              [CallEmbedding t; CallPredictProba (Spec.features_of emb t)] in
            match predict_proba (Spec.features_of emb t) with
            | Raise e => mkTraced (Raise e) called
            | Ok probs =>
                match nth_error probs 1 with
                | None => mkTraced (Raise IndexError) called
                | Some p =>
                    mkTraced
                      (Ok (PyNum.py_round
                             (Spec.final_score (p * 100)
                                (any_keyword PRODUCT_KEYWORDS t)
                                (any_keyword DELIVERY_KEYWORDS t)
                                (PyNum.len t)) 1))
                      called
                end
            end
        end
    end.
Proof.
  destruct t as [|c t']; [reflexivity|].
  set (t := c :: t').
  unfold predict, _extract_features, Spec.features_of, Spec.flag,
    Spec.final_score,
    Spec.length_signal, Spec.length_bonus.
  change (negb (truthy t)) with false. cbv iota.
  generalize (any_keyword PRODUCT_KEYWORDS t) as product.
  generalize (any_keyword DELIVERY_KEYWORDS t) as delivery.
  intros delivery product.
  unfold bind, external, index1, ret, raise. cbn [outcome calls].
  destruct (bert_model t) as [emb|e]; cbn [outcome calls app]; [|reflexivity].
  destruct (predict_proba _) as [probs|e]; cbn [outcome calls app];
    [|reflexivity].
  destruct (nth_error probs 1) as [p|]; cbn [outcome calls app];
    [|reflexivity].
  destruct product, delivery; reflexivity.
Qed.

Lemma Ok_inj {A} (a b : A) : Ok a = Ok b -> a = b.
Proof. now intros [= ->]. Qed.

Lemma final_score_range (raw : Q) (product delivery : bool) (n : Z) :
  0 <= raw <= 100 -> (0 <= n)%Z ->
  0 <= Spec.final_score raw product delivery n <= 100.
Proof.
  intros Hraw Hn. unfold Spec.final_score.
  destruct (negb product); [lra|].
  destruct (delivery && _); [lra|].
  assert (B : 0 <= Spec.length_bonus n <= 1).
  { unfold Spec.length_bonus.
    assert (L : 0 <= inject_Z (Z.min n 50) <= 50).
    { split.
      - change 0 with (inject_Z 0). rewrite <- Zle_Qle. lia.
      - change 50 with (inject_Z 50). rewrite <- Zle_Qle. lia. }
    split.
    - apply Qle_shift_div_l; [reflexivity|lra].
    - apply Qle_shift_div_r; [reflexivity|lra]. }
  split; nra.
Qed.

Lemma round_half_even_comp (x y : Q) :
  x == y -> PyNum.round_half_even x = PyNum.round_half_even y.
Proof.
  intros E. unfold PyNum.round_half_even.
  rewrite (Qfloor_comp _ _ E).
  assert (E' : x - inject_Z (Qfloor y) == y - inject_Z (Qfloor y))
    by (rewrite E; reflexivity).
  now rewrite (Qcompare_comp _ _ E' _ _ (Qeq_refl (1 # 2))).
Qed.

Lemma py_round_comp (x y : Q) (n : nat) :
  x == y -> PyNum.py_round x n = PyNum.py_round y n.
Proof.
  intros E. unfold PyNum.py_round. destruct n.
  - now rewrite (round_half_even_comp _ _ E).
  - f_equal. apply round_half_even_comp. now rewrite E.
Qed.

(** C8.  On the empty text [predict] returns exactly 0.0 and calls
    neither the embedding model nor the classifier.  With a classifier
    whose output is a probability, every score [predict] returns lies in
    [0, 100] and has one decimal; and when the external models answer,
    [predict] returns a score for every text. *)
Theorem predict_score_range :
  predict bert_model predict_proba [] = mkTraced (Ok 0) [] /\
  (Spec.probabilistic predict_proba ->
   forall t s,
     outcome (predict bert_model predict_proba t) = Ok s ->
     0 <= s <= 100 /\ PyNum.has_decimals 1 s) /\
  (Spec.responsive bert_model predict_proba ->
   forall t, exists s,
     outcome (predict bert_model predict_proba t) = Ok s).
Proof.
  split; [reflexivity|split].
  - intros P t s. rewrite predict_unfolded.
    destruct t as [|c t'].
    + cbn [outcome]. intros [= <-]. split; [split; discriminate|].
      exists 0%Z. reflexivity.
    + set (t := c :: t').
      destruct (bert_model t) as [emb|e]; [|discriminate].
      cbv zeta.
      destruct (predict_proba _) as [probs|e] eqn:Hp; [|discriminate].
      destruct (nth_error probs 1) as [p|] eqn:Hn; [|discriminate].
      intros E. apply Ok_inj in E. subst s.
      split; [|apply py_round_decimals; lia].
      apply py_round1_range, final_score_range.
      * pose proof (P _ _ _ Hp Hn). lra.
      * unfold PyNum.len. lia.
  - intros [B C] t. rewrite predict_unfolded.
    destruct t as [|c t']; [eexists; reflexivity|].
    set (t := c :: t').
    destruct (B t) as [emb ->]. cbv zeta.
    destruct (C (Spec.features_of emb t)) as (probs & p & -> & ->).
    eexists. reflexivity.
Qed.

End ScorerFacts.

(* ================================================================== *)
(** ** Batch analysis *)

Section AnalyzerFacts.

Import ReviewScorer AiAnalyzer.
Local Open Scope Q_scope.

Lemma outcome_bind {A B} (m : Traced A) (k : A -> Traced B) :
  outcome (bind m k) =
    match outcome m with
    | Ok a => outcome (k a)
    | Raise e => Raise e
    end.
Proof. unfold bind. now destruct (outcome m). Qed.

Lemma mapM_cons {A B} (f : A -> Traced B) (x : A) (xs : list A) :
  outcome (mapM f (x :: xs)) =
    match outcome (f x) with
    | Raise e => Raise e
    | Ok y =>
        match outcome (mapM f xs) with
        | Ok ys => Ok (y :: ys)
        | Raise e => Raise e
        end
    end.
Proof.
  cbn [mapM]. rewrite outcome_bind. destruct (outcome (f x)); [|reflexivity].
  rewrite outcome_bind. now destruct (outcome (mapM f xs)).
Qed.

(** The loop over the reviews returns exactly when every call does. *)
Lemma mapM_ok {A B} (f : A -> Traced B) (xs : list A) (ys : list B) :
  outcome (mapM f xs) = Ok ys <->
  Forall2 (fun x y => outcome (f x) = Ok y) xs ys.
Proof.
  revert ys. induction xs as [|x xs IH]; intros ys.
  - cbn. split.
    + intros [= <-]. constructor.
    + intros H. inversion H. reflexivity.
  - rewrite mapM_cons. split.
    + destruct (outcome (f x)) as [y|e] eqn:Ex; [|discriminate].
      destruct (outcome (mapM f xs)) as [ys'|e] eqn:Es; [|discriminate].
      intros [= <-]. constructor; [exact Ex|]. now apply IH.
    + intros H. inversion H as [|? y ? ys' Hx Hxs]; subst.
      rewrite Hx. apply IH in Hxs. now rewrite Hxs.
Qed.

(** One failing call makes the loop raise. *)
Lemma mapM_raises {A B} (f : A -> Traced B) (xs : list A) :
  (exists x, In x xs /\ exists e, outcome (f x) = Raise e) ->
  exists e, outcome (mapM f xs) = Raise e.
Proof.
  induction xs as [|x xs IH]; intros (x0 & Hin & e0 & He0).
  - destruct Hin.
  - rewrite mapM_cons.
    destruct (outcome (f x)) as [y|e] eqn:Ex; [|now exists e].
    destruct Hin as [->|Hin]; [congruence|].
    destruct IH as [e He]; [now exists x0; split; [|exists e0]|].
    rewrite He. now exists e.
Qed.

Lemma enrich_all_ok (reviews : list Review) (scores : list Q) :
  List.length scores = List.length reviews ->
  enrich_all reviews scores = Ok (map (fun rs => enrich (fst rs) (snd rs))
                                      (combine reviews scores)).
Proof.
  revert scores. induction reviews as [|r rs IH]; intros [|s ss] L;
    try discriminate; [reflexivity|].
  cbn [enrich_all combine map fst snd]. rewrite IH; [reflexivity|].
  now injection L.
Qed.

Variable bert_model : pystr -> Result (list Q).
Variable predict_proba : list Q -> Result (list Q).

(** [str(e)], the text of an exception. *)
Variable str : PyExc -> string.

Local Abbreviation score_review :=
  (AiAnalyzer.score_review bert_model predict_proba).
Local Abbreviation analyze_reviews :=
  (AiAnalyzer.analyze_reviews bert_model predict_proba).

Lemma analyze_reviews_raises (reviews : list Review) (e : PyExc) :
  outcome (mapM score_review reviews) = Raise e ->
  outcome (analyze_reviews reviews) = Raise e.
Proof.
  intros H. unfold AiAnalyzer.analyze_reviews.
  now rewrite outcome_bind, H.
Qed.

Lemma analyze_reviews_returns (reviews : list Review) (scores : list Q) :
  outcome (mapM score_review reviews) = Ok scores ->
  outcome (analyze_reviews reviews) =
    Ok (mkAnalysisResult
          (fst (verdict_of (Spec.batch_average scores / 100)))
          (snd (verdict_of (Spec.batch_average scores / 100)))
          (PyNum.py_round (Spec.batch_average scores) 2)
          (map (fun rs => enrich (fst rs) (snd rs)) (combine reviews scores))
          (mkDetails (PyNum.py_round (Spec.batch_average scores / 100) 4)
                     (PyNum.py_round (Spec.batch_average scores) 2)
                     (PyNum.len reviews))).
Proof.
  intros H. unfold AiAnalyzer.analyze_reviews.
  rewrite outcome_bind, H, outcome_bind. unfold lift. cbn [outcome].
  rewrite enrich_all_ok.
  - unfold Spec.batch_average, PyNum.mean.
    destruct scores; destruct (verdict_of _); reflexivity.
  - apply mapM_ok in H. symmetry. exact (Forall2_length H).
Qed.

Lemma mapM_returns {A B} (f : A -> Traced B) (xs : list A) :
  (forall x, In x xs -> exists y, outcome (f x) = Ok y) ->
  exists ys, outcome (mapM f xs) = Ok ys.
Proof.
  induction xs as [|x xs IH]; intros H.
  - now exists [].
  - rewrite mapM_cons. destruct (H x) as [y ->]; [now left|].
    destruct IH as [ys ->]; [intros; apply H; now right|].
    now exists (y :: ys).
Qed.

Local Abbreviation run := (AiAnalyzer.run bert_model predict_proba).
Local Abbreviation main := (AiAnalyzer.main bert_model predict_proba).
Local Abbreviation preprocess_reviews :=
  (AiAnalyzer.preprocess_reviews).

Lemma run_loaded (reviews : list Review) :
  preprocess_reviews reviews <> [] ->
  outcome (run true reviews) =
    match outcome (analyze_reviews (preprocess_reviews reviews)) with
    | Ok result => Ok (Analysed result)
    | Raise e => Raise e
    end.
Proof.
  intros N. unfold AiAnalyzer.run. cbn [negb].
  destruct (preprocess_reviews reviews); [contradiction|].
  rewrite outcome_bind. now destruct (outcome _).
Qed.

(** C4, as the code has it.  With the scorer loaded, if scoring any
    review of the preprocessed batch raises, [analyze_reviews] raises
    too: no review of the batch gets a score, [main] prints a failure
    and [analyze_with_ai] marks the analysis failed, with the text of
    the exception as its error message.  The batch result
    is produced, with a score for every review, when every review scores
    without an exception. *)
Theorem scoring_failure_fails_batch (reviews : list Review) :
  let processed := preprocess_reviews reviews in
  ((exists failing e,
       In failing processed /\ outcome (score_review failing) = Raise e) ->
   exists e,
     outcome (analyze_reviews processed) = Raise e /\
     main true reviews = OutFailure e /\
     forall analysis,
       let after :=
         AnalysisService.analyze_with_ai str (main true reviews) reviews
                                         analysis in
       AnalysisService.success (fst after) = false /\
       AnalysisService.status (snd after) = "failed"%string /\
       AnalysisService.error_message (snd after)
       = Some ("AI 분석 오류: " ++ str e)%string) /\
  (processed <> [] ->
   (forall review, In review processed ->
                   exists s, outcome (score_review review) = Ok s) ->
   exists result,
     main true reviews = OutSuccess (Analysed result) /\
     Forall2 (fun review enriched =>
                exists s, outcome (score_review review) = Ok s /\
                          reliability_score enriched = Some s)
             processed (enriched_reviews result)).
Proof.
  intros processed. split.
  - intros (failing & e0 & Hin & He0).
    assert (N : processed <> []) by (intros E; rewrite E in Hin; destruct Hin).
    destruct (mapM_raises score_review processed) as [e He].
    { exists failing. split; [exact Hin|now exists e0]. }
    apply analyze_reviews_raises in He.
    assert (M : main true reviews = OutFailure e).
    { unfold AiAnalyzer.main. rewrite (run_loaded _ N).
      fold processed. now rewrite He. }
    exists e. repeat split; try assumption; rewrite M; reflexivity.
  - intros N H. destruct (mapM_returns score_review processed H) as [ss E].
    pose proof (analyze_reviews_returns _ _ E) as R.
    eexists. split.
    + unfold AiAnalyzer.main. rewrite (run_loaded _ N). fold processed.
      rewrite R. reflexivity.
    + cbn [enriched_reviews]. apply mapM_ok in E.
      clear R H N. induction E as [|r s rs ss' Hr _ IH];
        cbn [combine map fst snd]; constructor; [|exact IH].
      exists s. split; [exact Hr|]. unfold enrich.
      now destruct (label_and_color s).
Qed.

End AnalyzerFacts.

(** *** The scorer and the analyzer on concrete batches *)

Section PipelineExamples.

Import ReviewScorer AiAnalyzer Examples.
Local Open Scope Q_scope.

Lemma forest_probabilistic : Spec.probabilistic forest.
Proof.
  intros features probs p [= <-] [= <-]. split; discriminate.
Defined.

Lemma models_responsive : Spec.responsive bert forest.
Proof.
  split.
  - intros t. exists [1 # 2]. reflexivity.
  - intros features. exists [3 # 10; 7 # 10], (7 # 10).
    split; reflexivity.
Defined.

Lemma predict_score_range_witness :
  exists s,
    outcome (predict bert forest (u "사이즈가 딱 맞아요")) = Ok s /\
    0 <= s <= 100 /\ PyNum.has_decimals 1 s.
Proof.
  destruct (predict_score_range bert forest) as (_ & R & T).
  destruct (T models_responsive (u "사이즈가 딱 맞아요")) as [s Hs].
  exists s. split; [exact Hs|].
  exact (R forest_probabilistic _ _ Hs).
Defined.

(** C4 as stated fails: [flaky_bert] raises on the second review of
    [batch], and then the analysis of the whole batch raises, [main]
    prints a failure and the analysis is marked failed. *)
Lemma batch_does_not_survive_failure :
  ~ Spec.survives_scoring_failure flaky_bert forest batch /\
  outcome (analyze_reviews flaky_bert forest batch)
    = Raise (ExternalError "embedding") /\
  main flaky_bert forest true batch
    = OutFailure (ExternalError "embedding") /\
  forall analysis,
    let after :=
      AnalysisService.analyze_with_ai
        text_of (main flaky_bert forest true batch) batch analysis in
    AnalysisService.status (snd after) = "failed"%string /\
    AnalysisService.error_message (snd after)
    = Some "AI 분석 오류: embedding"%string.
Proof.
  split; [|split; [|split]].
  - intros H.
    destruct (H (review_of "굿") (ExternalError "embedding"))
      as (result & R & _).
    + right. left. reflexivity.
    + vm_compute. reflexivity.
    + vm_compute in R. discriminate.
  - vm_compute. reflexivity.
  - vm_compute. reflexivity.
  - intros analysis. split; vm_compute; reflexivity.
Qed.

(** The three rules on three reviews, with raw score 70: a review about
    the product, one about the delivery only, and a short one about both. *)
Example predict_on_three_reviews :
  map (fun t => outcome (predict bert forest (u t)))
      ["사이즈가 딱 맞아요"; "배송 빨라요"; "배송 빨라요 사이즈"]%string
  = [Ok 61.6; Ok 17.5; Ok 7.0].
Proof. vm_compute. reflexivity. Qed.

(** Scores 90, 10 and 50 average to 50: the batch is suspicious. *)
Example verdict_of_mixed_batch :
  fst (verdict_of (Spec.batch_average [90; 10; 50] / 100))
  = "suspicious"%string.
Proof. vm_compute. reflexivity. Qed.

Lemma scoring_failure_fails_batch_witness :
  exists e,
    outcome (analyze_reviews flaky_bert forest (preprocess_reviews batch))
      = Raise e /\
    main flaky_bert forest true batch = OutFailure e /\
    forall analysis,
      let after :=
        AnalysisService.analyze_with_ai
          text_of (main flaky_bert forest true batch) batch analysis in
      AnalysisService.success (fst after) = false /\
      AnalysisService.status (snd after) = "failed"%string /\
      AnalysisService.error_message (snd after)
      = Some ("AI 분석 오류: " ++ text_of e)%string.
Proof.
  apply (proj1 (scoring_failure_fails_batch flaky_bert forest text_of
                  batch)).
  exists (review_of "굿"), (ExternalError "embedding"). split.
  - vm_compute. right. left. reflexivity.
  - vm_compute. reflexivity.
Defined.

End PipelineExamples.

(* ================================================================== *)
(** ** Feedback submission *)

Section FeedbackFacts.

Import Feedback.

Lemma apply_strategy_binary (s : string) (score avg : Q) (us l : Z) :
  us = 0 \/ us = 1 ->
  apply_strategy s score avg us = Some l -> l = 0 \/ l = 1.
Proof.
  intros Hus. unfold apply_strategy, smart_label_hybrid,
    smart_label_extreme, smart_label_relative.
  repeat match goal with
    | |- context [if ?c then _ else _] => destruct c
    end; intros [= <-]; auto.
Qed.

Lemma label_review_ok (request : FeedbackRequest) (avg : Q) (us : Z)
      (review : Review) (st : Locals) :
  us = 0 \/ us = 1 ->
  exists st',
    label_review request avg us review st = Ok st' /\
    pending (db st') =
      pending (db st) ++ Spec.labeled_rows request avg us review /\
    committed (db st') = committed (db st).
Proof.
  intros Hus. unfold label_review, Spec.labeled_rows.
  destruct (negb (truthy _)).
  - exists st. now rewrite app_nil_r.
  - destruct (apply_strategy _ _ _ _) as [l|] eqn:E.
    + destruct (apply_strategy_binary _ _ _ _ _ Hus E) as [->| ->];
        eexists; (split; [reflexivity|]); split; reflexivity.
    + eexists. split; [reflexivity|]. cbn [db pending committed].
      now rewrite app_nil_r.
Qed.

Lemma label_loop_ok (request : FeedbackRequest) (avg : Q) (us : Z)
      (all_reviews : list Review) (st : Locals) :
  us = 0 \/ us = 1 ->
  exists st',
    label_loop request avg us all_reviews st = Ok st' /\
    pending (db st') =
      pending (db st)
      ++ flat_map (Spec.labeled_rows request avg us) all_reviews /\
    committed (db st') = committed (db st).
Proof.
  intros Hus. revert st.
  induction all_reviews as [|review rest IH]; intros st.
  - exists st. cbn. now rewrite app_nil_r.
  - destruct (label_review_ok request avg us review st Hus)
      as (st1 & E1 & P1 & C1).
    destruct (IH st1) as (st2 & E2 & P2 & C2).
    exists st2. cbn [label_loop flat_map]. rewrite E1.
    split; [exact E2|]. split; [|congruence].
    now rewrite P2, P1, app_assoc.
Qed.

(** A submission for a completed analysis with reviews: the table it
    leaves is the old table without the rows of the batch, followed by
    the new feedback set. *)
Lemma submit_feedback_table (analyses : list Analysis)
      (table : list FeedbackRow) (request : FeedbackRequest)
      (analysis : Analysis) :
  query_analysis analyses (req_analysis_id request) = Some analysis ->
  status analysis = "completed"%string ->
  collect_reviews analysis <> [] ->
  snd (submit_feedback analyses table request) =
    Spec.other_rows (req_analysis_id request) table
    ++ Spec.feedback_set analysis request.
Proof.
  intros HQ HS HR. unfold submit_feedback. rewrite HQ, HS.
  change (negb ("completed" =? "completed")%string) with false.
  cbv iota. unfold Spec.feedback_set.
  destruct (collect_reviews analysis) as [|r rs] eqn:EC; [contradiction|].
  set (avg := PyNum.mean _).
  set (us := if is_helpful request then 1 else 0).
  assert (Hus : us = 0 \/ us = 1)
    by (subst us; destruct (is_helpful request); auto).
  destruct (label_loop_ok request avg us (r :: rs)
              (mkLocals (delete_feedback (req_analysis_id request)
                                         (open_session table)) 0 0 0 0 None)
              Hus) as (st & E & P & C).
  rewrite E. cbn [db pending committed delete_feedback open_session] in P.
  destruct (label st); cbn [snd internal_error rollback commit committed];
    exact P.
Qed.

Lemma feedback_set_batch (analysis : Analysis) (request : FeedbackRequest) :
  Forall (fun row => fb_analysis_id row = req_analysis_id request)
         (Spec.feedback_set analysis request).
Proof.
  unfold Spec.feedback_set. apply Forall_flat_map, Forall_forall.
  intros review _. unfold Spec.labeled_rows.
  destruct (negb _); [constructor|].
  destruct (apply_strategy _ _ _ _); repeat constructor.
Qed.

Lemma filter_all {A} (p : A -> bool) (xs : list A) :
  Forall (fun x => p x = true) xs -> filter p xs = xs.
Proof.
  induction 1 as [|x xs Hx _ IH]; [reflexivity|].
  cbn. now rewrite Hx, IH.
Qed.

Lemma filter_none {A} (p : A -> bool) (xs : list A) :
  Forall (fun x => p x = false) xs -> filter p xs = [].
Proof.
  induction 1 as [|x xs Hx _ IH]; [reflexivity|].
  cbn. now rewrite Hx, IH.
Qed.

Lemma rows_of_replaced (id : Z) (table fresh : list FeedbackRow) :
  Forall (fun row => fb_analysis_id row = id) fresh ->
  Spec.rows_of id (Spec.other_rows id table ++ fresh) = fresh /\
  Spec.other_rows id (Spec.other_rows id table ++ fresh)
    = Spec.other_rows id table.
Proof.
  intros F. unfold Spec.rows_of, Spec.other_rows.
  rewrite !filter_app. split.
  - rewrite (filter_all _ fresh), (filter_none _ (filter _ table));
      [reflexivity| |].
    + apply Forall_forall. intros row Hin. apply filter_In in Hin.
      destruct Hin as [_ Hin]. now apply negb_true_iff in Hin.
    + eapply Forall_impl; [|exact F]. intros row ->. apply Z.eqb_refl.
  - rewrite (filter_none _ fresh), (filter_all _ (filter _ table));
      [apply app_nil_r| |].
    + apply Forall_forall. intros row Hin. apply filter_In in Hin.
      tauto.
    + eapply Forall_impl; [|exact F]. intros row ->.
      now rewrite Z.eqb_refl.
Qed.

Lemma submit_all_snoc (analyses : list Analysis) (table : list FeedbackRow)
      (earlier : list FeedbackRequest) (latest : FeedbackRequest) :
  submit_all analyses table (earlier ++ [latest]) =
    snd (submit_feedback analyses (submit_all analyses table earlier) latest).
Proof. unfold submit_all. now rewrite fold_left_app. Qed.

Lemma submit_all_other_rows (analyses : list Analysis) (analysis : Analysis)
      (id : Z) (requests : list FeedbackRequest) :
  query_analysis analyses id = Some analysis ->
  status analysis = "completed"%string ->
  collect_reviews analysis <> [] ->
  Forall (fun r => req_analysis_id r = id) requests ->
  forall table,
    Spec.other_rows id (submit_all analyses table requests)
      = Spec.other_rows id table.
Proof.
  intros HQ HS HR. induction 1 as [|r rs Hr _ IH]; intros table.
  - reflexivity.
  - change (submit_all analyses table (r :: rs))
      with (submit_all analyses (snd (submit_feedback analyses table r)) rs).
    rewrite IH. subst id.
    rewrite (submit_feedback_table _ _ _ _ HQ HS HR).
    apply rows_of_replaced, feedback_set_batch.
Qed.

(** C6.  For a completed analysis with reviews, a submission leaves the
    table without the rows the batch had before, followed by the new
    feedback set, both committed at once.  So after any sequence of
    submissions for the batch its rows are exactly the feedback set of
    the latest one, and the rows of the other batches are untouched. *)
Theorem resubmission_replaces_feedback
        (analyses : list Analysis) (analysis : Analysis) (id : Z)
        (table : list FeedbackRow)
        (earlier : list FeedbackRequest) (latest : FeedbackRequest) :
  query_analysis analyses id = Some analysis ->
  status analysis = "completed"%string ->
  collect_reviews analysis <> [] ->
  Forall (fun r => req_analysis_id r = id) earlier ->
  req_analysis_id latest = id ->
  snd (submit_feedback analyses table latest)
    = Spec.other_rows id table ++ Spec.feedback_set analysis latest /\
  let table' := submit_all analyses table (earlier ++ [latest]) in
  Spec.rows_of id table' = Spec.feedback_set analysis latest /\
  Spec.other_rows id table' = Spec.other_rows id table.
Proof.
  intros HQ HS HR HE HL. subst id. split.
  - apply (submit_feedback_table _ _ _ _ HQ HS HR).
  - cbv zeta. rewrite submit_all_snoc.
    rewrite (submit_feedback_table _ _ _ _ HQ HS HR).
    destruct (rows_of_replaced (req_analysis_id latest)
                (submit_all analyses table earlier)
                (Spec.feedback_set analysis latest)
                (feedback_set_batch analysis latest)) as [R O].
    split; [exact R|]. rewrite O.
    apply (submit_all_other_rows _ _ _ _ HQ HS HR HE).
Qed.

(** *** Strategies outside the documented four *)

Lemma apply_strategy_unknown (s : string) :
  s <> "weak"%string -> s <> "hybrid"%string ->
  s <> "extreme"%string -> s <> "relative"%string ->
  forall score avg us,
    apply_strategy s score avg us = smart_label_hybrid score avg us.
Proof.
  intros W H E R score avg us. unfold apply_strategy.
  destruct (String.eqb_spec s "weak"); [contradiction|].
  destruct (String.eqb_spec s "hybrid"); [contradiction|].
  destruct (String.eqb_spec s "extreme"); [contradiction|].
  destruct (String.eqb_spec s "relative"); [contradiction|reflexivity].
Qed.

Lemma alike_refl (st : Locals) : Spec.alike st st.
Proof. repeat split. Qed.

Section SameLabels.

Variables r1 r2 : FeedbackRequest.
Hypothesis same_batch : req_analysis_id r1 = req_analysis_id r2.
Hypothesis same_flag : is_helpful r1 = is_helpful r2.
Hypothesis same_labels :
  forall score avg us,
    apply_strategy (strategy r1) score avg us
    = apply_strategy (strategy r2) score avg us.

Lemma label_review_alike (avg : Q) (us : Z) (review : Review)
      (a b : Locals) :
  Spec.alike a b ->
  Spec.alike_results (label_review r1 avg us review a)
          (label_review r2 avg us review b).
Proof.
  intros (P & C & S & K & Z0 & Z1 & L).
  unfold label_review. rewrite same_labels, same_batch.
  destruct (negb (truthy _)); [repeat split; assumption|].
  destruct (apply_strategy _ _ _ _) as [l|].
  - unfold bump_stats. cbn [db saved_count skipped_count stats_0 stats_1
                              label].
    destruct (l =? 0); [|destruct (l =? 1)]; cbn [Spec.alike_results]; [| |exact I];
      unfold Spec.alike, add;
      cbn [db pending committed saved_count skipped_count stats_0
             stats_1 label];
      rewrite !map_app, P, C, S, K, Z0, Z1; repeat split.
  - unfold Spec.alike_results, Spec.alike.
    cbn [db pending committed saved_count skipped_count stats_0 stats_1
           label].
    rewrite P, C, S, K, Z0, Z1. repeat split.
Qed.

Lemma label_loop_alike (avg : Q) (us : Z) (all_reviews : list Review) :
  forall a b,
    Spec.alike a b ->
    Spec.alike_results (label_loop r1 avg us all_reviews a)
            (label_loop r2 avg us all_reviews b).
Proof.
  induction all_reviews as [|review rest IH]; intros a b H.
  - exact H.
  - cbn [label_loop].
    pose proof (label_review_alike avg us review a b H) as S.
    destruct (label_review r1 avg us review a) as [a'|e1],
             (label_review r2 avg us review b) as [b'|e2];
      try contradiction; [now apply IH|exact I].
Qed.

Lemma submit_feedback_alike (analyses : list Analysis)
      (table : list FeedbackRow) :
  Spec.same_answer (fst (submit_feedback analyses table r1))
                   (fst (submit_feedback analyses table r2)) /\
  map Spec.without_strategy (snd (submit_feedback analyses table r1))
  = map Spec.without_strategy (snd (submit_feedback analyses table r2)).
Proof.
  unfold submit_feedback. rewrite same_batch, same_flag.
  destruct (query_analysis analyses (req_analysis_id r2)) as [analysis|];
    [|split; reflexivity].
  destruct (negb (status analysis =? "completed")%string);
    [split; reflexivity|].
  destruct (collect_reviews analysis) as [|r rs]; [split; reflexivity|].
  set (avg := PyNum.mean _).
  set (us := if is_helpful r2 then 1 else 0).
  set (s0 := delete_feedback (req_analysis_id r2) (open_session table)).
  pose proof (label_loop_alike avg us (r :: rs) _ _
                (alike_refl (mkLocals s0 0 0 0 0 None))) as S.
  destruct (label_loop r1 avg us (r :: rs) _) as [a|e1],
           (label_loop r2 avg us (r :: rs) _) as [b|e2];
    try contradiction.
  - destruct S as (P & C & S & K & Z0 & Z1 & L). rewrite L.
    destruct (label b);
      cbn [fst snd internal_error rollback commit committed
             Spec.same_answer success feedback_count strategy_info
             total_reviews saved skipped label_0 label_1 average_score];
      rewrite ?S, ?K, ?Z0, ?Z1; repeat split; exact P.
  - split; reflexivity.
Qed.

End SameLabels.

End FeedbackFacts.

(** *** Feedback on a concrete batch *)

Section FeedbackExamples.

Import Feedback Examples.

Lemma resubmission_replaces_feedback_witness :
  let table' :=
    submit_all [analysis7] old_table
               ([request false "weak"] ++ [request true "hybrid"]) in
  Spec.rows_of 7 table' = Spec.feedback_set analysis7 (request true "hybrid")
  /\ Spec.other_rows 7 table' = Spec.other_rows 7 old_table.
Proof.
  refine (proj2 (resubmission_replaces_feedback
                   [analysis7] analysis7 7 old_table
                   [request false "weak"] (request true "hybrid")
                   eq_refl eq_refl _ _ eq_refl)).
  - vm_compute. discriminate.
  - repeat constructor.
Defined.

(** The batch with scores 90, 10 and 50, a satisfied user and the hybrid
    strategy: labels 1, 0 and 0 (50 is not above the average 50), stored
    once however often feedback was submitted before. *)
Example hybrid_labels_after_resubmission :
  map tags
      (Spec.rows_of 7
         (submit_all [analysis7] old_table
                     [request false "weak"; request true "extreme";
                      request true "hybrid"]))
  = [1; 0; 0].
Proof. vm_compute. reflexivity. Qed.

End FeedbackExamples.

(* ================================================================== *)
(** ** Retraining gates *)

Section RetrainingFacts.

Import TrainModel.

Variable original_data : option DataFrame.
Variable fit_and_evaluate : Combined -> Result Metrics.
Variable next_version : string -> Result string.
Variable output_dir_of : AIJob -> string.

Local Abbreviation train :=
  (train_random_forest original_data fit_and_evaluate).
Local Abbreviation process_job :=
  (TrainModel.process_job original_data fit_and_evaluate next_version
                          output_dir_of).
Local Abbreviation process_jobs :=
  (TrainModel.process_jobs original_data fit_and_evaluate next_version
                           output_dir_of).

Lemma query_update_job (id : Z) (f : AIJob -> AIJob) (js : list AIJob)
      (j : AIJob) :
  query_job id js = Some j ->
  job_id (f j) = job_id j ->
  query_job id (update_job id f js) = Some (f j).
Proof.
  unfold query_job. intros Q F.
  induction js as [|k js IH]; [discriminate|].
  cbn [find update_job] in *.
  destruct (job_id k =? id) eqn:E.
  - injection Q as ->. cbn [find]. now rewrite F, E.
  - cbn [find]. rewrite E. now apply IH.
Qed.

Lemma fail_job_marks (id : Z) (reason : Message) (st : State) (j : AIJob) :
  query_job id (jobs st) = Some j ->
  Spec.marked_failed id reason (fail_job id reason st).
Proof.
  intros Q. exists (set_status "failed" (Some reason) j).
  split; [|split; reflexivity].
  unfold fail_job, with_jobs. cbn [jobs].
  now apply query_update_job.
Qed.

(** Training never touches the model versions or the feedback. *)
Lemma train_keeps_models (id : Z) (output_dir : string) (st : State) :
  models (snd (train id output_dir st)) = models st /\
  feedbacks (snd (train id output_dir st)) = feedbacks st.
Proof.
  unfold train_random_forest, training_failed, fail_job, with_jobs.
  repeat match goal with
    | |- context [match ?x with _ => _ end] => destruct x
    end; split; reflexivity.
Qed.

(** A failed training run writes no file. *)
Lemma failed_train_writes_nothing (id : Z) (output_dir : string)
      (st : State) :
  succeeded (fst (train id output_dir st)) = false ->
  files (snd (train id output_dir st)) = files st.
Proof.
  unfold train_random_forest, training_failed, fail_job, with_jobs.
  repeat match goal with
    | |- context [match ?x with _ => _ end] => destruct x
    end; cbn; intros; try reflexivity; discriminate.
Qed.

Lemma gated_train_fails (id : Z) (output_dir : string) (st : State)
      (combined : Combined) :
  combine_data original_data (load_feedback_data (feedbacks st))
    = Ok combined ->
  Spec.gate_closed combined ->
  succeeded (fst (train id output_dir st)) = false.
Proof.
  intros C G. unfold train_random_forest, training_failed.
  destruct (query_job id (jobs st)); [|reflexivity].
  cbn [feedbacks with_jobs]. rewrite C.
  destruct (PyNum.len combined <? 100) eqn:E; [reflexivity|].
  destruct ((count_label 1 combined <? 5) || (count_label 0 combined <? 5))
    eqn:E2; [reflexivity|].
  exfalso. apply orb_false_iff in E2. destruct E2 as [E1 E0].
  unfold Spec.gate_closed in G. lia.
Qed.

Lemma gated_process_job (job : AIJob) (st : State) (combined : Combined) :
  combine_data original_data (load_feedback_data (feedbacks st))
    = Ok combined ->
  Spec.gate_closed combined ->
  snd (process_job job st) = None /\
  models (fst (process_job job st)) = models st /\
  files (fst (process_job job st)) = files st /\
  feedbacks (fst (process_job job st)) = feedbacks st.
Proof.
  intros C G. unfold TrainModel.process_job.
  destruct (query_active (models st)); [|repeat split].
  pose proof (gated_train_fails (job_id job) (output_dir_of job) st _ C G)
    as F.
  pose proof (failed_train_writes_nothing _ _ _ F) as W.
  destruct (train_keeps_models (job_id job) (output_dir_of job) st)
    as [M B].
  destruct (train (job_id job) (output_dir_of job) st) as [result st'].
  cbn [fst snd] in *. destruct result; [discriminate|].
  repeat split; assumption.
Qed.

Lemma gated_process_jobs (pending_jobs : list AIJob) (combined : Combined) :
  Spec.gate_closed combined ->
  forall st,
    combine_data original_data (load_feedback_data (feedbacks st))
      = Ok combined ->
    models (process_jobs pending_jobs st) = models st /\
    files (process_jobs pending_jobs st) = files st.
Proof.
  intros G. induction pending_jobs as [|job rest IH]; intros st C.
  - split; reflexivity.
  - cbn [TrainModel.process_jobs].
    destruct (gated_process_job job st combined C G) as (N & M & F & B).
    destruct (process_job job st) as [st' exn]. cbn [fst snd] in *.
    subst exn. rewrite <- B in C. destruct (IH st' C) as [M' F'].
    split; congruence.
Qed.

(** The model versions change only after a successful training run. *)
Lemma models_change_only_on_success (job : AIJob) (st : State) :
  models (fst (process_job job st)) <> models st ->
  succeeded (fst (train (job_id job) (output_dir_of job) st)) = true.
Proof.
  unfold TrainModel.process_job.
  destruct (query_active (models st)); [|intros N; now contradiction N].
  destruct (train_keeps_models (job_id job) (output_dir_of job) st)
    as [M _].
  destruct (train (job_id job) (output_dir_of job) st) as [result st'].
  cbn [fst snd] in *. destruct result; [reflexivity|].
  cbn [fst]. intros N. now contradiction N.
Qed.

(** C3.  Retraining aborts without publishing a model when a data gate
    fails.  For a job of the table and the merged dataset it trains on,
    the gates being tested in the order of the code: with fewer than 100
    examples the job is marked failed for insufficient data; past that
    gate, with fewer than 5 examples of either class it is marked failed
    for class imbalance.  In both cases the run fails, registers no model
    version and leaves the active version (and the model files) as they
    are, and the same holds for the whole pass over the pending jobs.
    The model versions change only after a training run that
    succeeded. *)
Theorem retraining_gates_abort
        (id : Z) (output_dir : string) (st : State) (job : AIJob)
        (combined : Combined) :
  query_job id (jobs st) = Some job ->
  combine_data original_data (load_feedback_data (feedbacks st))
    = Ok combined ->
  let n := PyNum.len combined in
  let c1 := count_label 1 combined in
  let c0 := count_label 0 combined in
  let result := fst (train id output_dir st) in
  let st' := snd (train id output_dir st) in
  (n < 100 ->
   result = TrainFailure (InsufficientData n) /\
   Spec.marked_failed id (InsufficientData n) st') /\
  (100 <= n -> c1 < 5 \/ c0 < 5 ->
   result = TrainFailure (LabelTooFew c1 c0) /\
   Spec.marked_failed id (LabelTooFew c1 c0) st') /\
  (Spec.gate_closed combined ->
   succeeded result = false /\
   models st' = models st /\ files st' = files st /\
   let final :=
     check_and_process_jobs original_data fit_and_evaluate next_version
                            output_dir_of st in
   models final = models st /\ files final = files st) /\
  (forall pending_job,
      models (fst (process_job pending_job st)) <> models st ->
      succeeded (fst (train (job_id pending_job)
                            (output_dir_of pending_job) st)) = true).
Proof.
  intros Q C n c1 c0 result st'.
  assert (R : query_job id
                (jobs (with_jobs st
                         (update_job id (set_status "running" None)
                                     (jobs st))))
              = Some (set_status "running" None job)).
  { cbn [jobs with_jobs]. now apply query_update_job. }
  split; [|split; [|split]].
  - intros Hn. subst result st'. unfold train_random_forest.
    rewrite Q. cbn [feedbacks with_jobs]. rewrite C.
    fold n. destruct (Z.ltb_spec n 100) as [_|]; [|lia].
    cbn [fst snd]. split; [reflexivity|].
    eapply fail_job_marks. exact R.
  - intros Hn Hc. subst result st'. unfold train_random_forest.
    rewrite Q. cbn [feedbacks with_jobs]. rewrite C.
    fold n c1 c0. destruct (Z.ltb_spec n 100) as [|_]; [lia|].
    assert (E : (c1 <? 5) || (c0 <? 5) = true).
    { apply orb_true_iff. destruct Hc; [left|right]; now apply Z.ltb_lt. }
    rewrite E. cbn [fst snd]. split; [reflexivity|].
    eapply fail_job_marks. exact R.
  - intros G. subst result st'.
    pose proof (gated_train_fails id output_dir st _ C G) as F.
    split; [exact F|]. split; [apply train_keeps_models|].
    split; [now apply failed_train_writes_nothing|].
    cbv zeta. unfold check_and_process_jobs.
    now apply (gated_process_jobs _ combined).
  - intros pending_job. apply models_change_only_on_success.
Qed.

End RetrainingFacts.

(** *** The gates on concrete datasets *)

Section RetrainingExamples.

Import TrainModel Examples.

(** 200 examples, 3 of them positive: class imbalance. *)
Lemma retraining_gates_abort_witness :
  let run := train_random_forest (training_set 197 3) fit 1 "out" world in
  fst run = TrainFailure (LabelTooFew 3 197) /\
  Spec.marked_failed 1 (LabelTooFew 3 197) (snd run).
Proof.
  refine (proj1 (proj2 (retraining_gates_abort
                          (training_set 197 3) fit bump dir_of 1 "out"
                          world (mkAIJob 1 "training" "pending" 0 None)
                          (merged 197 3) eq_refl _)) _ _).
  - vm_compute. reflexivity.
  - vm_compute. discriminate.
  - left. vm_compute. reflexivity.
Defined.

(** The size gate is tested first: on 60 examples, 3 of them positive,
    the reason recorded is the size of the dataset. *)
Example small_imbalanced_dataset_reports_size :
  Spec.marked_failed 1 (InsufficientData 60)
    (snd (train_random_forest (training_set 57 3) fit 1 "out" world)).
Proof.
  eexists. split; [vm_compute; reflexivity|]. split; reflexivity.
Qed.

(** With 200 balanced examples the run succeeds, and only then is a new
    version registered and the old one deactivated. *)
Example balanced_dataset_publishes :
  map (fun m => (version m, active m))
      (models (check_and_process_jobs (training_set 100 100) fit bump
                                      dir_of world))
  = [("v1.0"%string, false); ("v1.1"%string, true)].
Proof. vm_compute. reflexivity. Qed.

End RetrainingExamples.

(* ================================================================== *)
(** * Further properties of the code *)

(** ** Keywords and features *)

Section KeywordFacts.

Import ReviewScorer.

Lemma startswith_prefix (text k : pystr) :
  startswith text k = true <-> exists after, text = k ++ after.
Proof.
  revert text. induction k as [|a k IH]; intros text.
  - split; [intros _; now exists text|intros _; now destruct text].
  - destruct text as [|b text]; cbn [startswith].
    + split; [discriminate|intros [after H]; discriminate].
    + unfold code_eqb. rewrite andb_true_iff, N.eqb_eq, IH. split.
      * intros [-> [after ->]]. now exists after.
      * intros [after H]. injection H as -> ->. split; [reflexivity|].
        now exists after.
Qed.

Lemma contains_occurs (k text : pystr) :
  contains k text = true <-> Facts.occurs k text.
Proof.
  unfold Facts.occurs. induction text as [|c text IH].
  - cbn [contains]. rewrite orb_false_r, startswith_prefix. split.
    + intros [after H]. now exists [], after.
    + intros (before & after & H). destruct before; [now exists after|].
      discriminate.
  - cbn [contains]. rewrite orb_true_iff, startswith_prefix, IH. split.
    + intros [[after H]|(before & after & H)].
      * now exists [], after.
      * exists (c :: before), after. now rewrite H.
    + intros (before & after & H). destruct before as [|b before].
      * left. now exists after.
      * right. injection H as -> H. now exists before, after.
Qed.

Lemma occurs_inside (k text before after : pystr) :
  Facts.occurs k text -> Facts.occurs k (before ++ text ++ after).
Proof.
  intros (b & a & ->). exists (before ++ b), (a ++ after).
  now rewrite <- !app_assoc.
Qed.

(** X1.  A keyword flag is set exactly when one of the keywords occurs in
    the text as a substring; so a text that has a keyword keeps it when
    text is put before or after it. *)
Theorem any_keyword_occurs (keywords : list pystr) (t : pystr) :
  (any_keyword keywords t = true <->
   exists k, In k keywords /\ Facts.occurs k t) /\
  (forall before after,
      any_keyword keywords t = true ->
      any_keyword keywords (before ++ t ++ after) = true).
Proof.
  assert (E : forall t',
             any_keyword keywords t' = true <->
             exists k, In k keywords /\ Facts.occurs k t').
  { intros t'. unfold any_keyword. rewrite existsb_exists.
    split; intros (k & Hin & H); exists k; (split; [exact Hin|]);
      now apply contains_occurs. }
  split; [apply E|].
  intros before after H. apply E in H. destruct H as (k & Hin & H).
  apply E. exists k. split; [exact Hin|]. now apply occurs_inside.
Qed.

Lemma any_keyword_occurs_witness :
  any_keyword PRODUCT_KEYWORDS (u "배송은 느린데 " ++ u "핏이 좋아요" ++ u "!")
  = true.
Proof.
  apply (proj2 (any_keyword_occurs PRODUCT_KEYWORDS (u "핏이 좋아요"))).
  vm_compute. reflexivity.
Defined.

Variable bert_model : pystr -> Result (list Q).

Lemma keyword_tables_agree :
  FeatureExtractor.PRODUCT_KEYWORDS = PRODUCT_KEYWORDS /\
  FeatureExtractor.DELIVERY_KEYWORDS = DELIVERY_KEYWORDS.
Proof. split; reflexivity. Qed.

(** X2.  Retraining and scoring see the same features: on every text the
    extractor of the training script makes the same call to the embedding
    model as the scorer and returns the scorer's feature vector, the
    embedding followed by three scalars; it fails exactly when the
    embedding model fails. *)
Theorem training_features_match_scoring (t : pystr) :
  calls (FeatureExtractor.extract_features bert_model t)
  = calls (_extract_features bert_model t) /\
  outcome (FeatureExtractor.extract_features bert_model t)
  = match outcome (_extract_features bert_model t) with
    | Ok (features, _, _, _) => Ok features
    | Raise e => Raise e
    end /\
  match bert_model t with
  | Ok emb =>
      outcome (FeatureExtractor.extract_features bert_model t)
      = Ok (Spec.features_of emb t) /\
      List.length (Spec.features_of emb t) = (List.length emb + 3)%nat
  | Raise e =>
      outcome (FeatureExtractor.extract_features bert_model t) = Raise e
  end.
Proof.
  destruct keyword_tables_agree as [P D].
  unfold FeatureExtractor.extract_features, _extract_features,
    Spec.features_of, Spec.flag, Spec.length_signal, any_keyword.
  rewrite P, D.
  generalize (existsb (fun k => contains k t) PRODUCT_KEYWORDS) as product.
  generalize (existsb (fun k => contains k t) DELIVERY_KEYWORDS) as delivery.
  intros delivery product.
  unfold bind, external, ret. cbn [outcome calls].
  destruct (bert_model t) as [emb|e]; cbn [outcome calls].
  - repeat split. rewrite length_app. reflexivity.
  - repeat split.
Qed.

End KeywordFacts.

(** ** What the rules do to a score *)

Section ScoreFacts.

Import ReviewScorer.
Local Open Scope Q_scope.

Lemma round_half_even_near (x : Q) :
  PyNum.round_half_even x = Qfloor x \/
  PyNum.round_half_even x = (Qfloor x + 1)%Z.
Proof.
  unfold PyNum.round_half_even.
  destruct (Qcompare _ _); try destruct (Z.even _); auto.
Qed.

(** Rounding keeps the order. *)
Lemma round_half_even_mono (x y : Q) :
  x <= y -> (PyNum.round_half_even x <= PyNum.round_half_even y)%Z.
Proof.
  intros L. pose proof (Qfloor_resp_le _ _ L) as F.
  destruct (Z.eq_dec (Qfloor x) (Qfloor y)) as [E|N].
  - unfold PyNum.round_half_even. rewrite <- E.
    destruct (Qcompare_spec (x - inject_Z (Qfloor x)) (1 # 2)) as [X|X|X];
      destruct (Qcompare_spec (y - inject_Z (Qfloor x)) (1 # 2)) as [Y|Y|Y];
      try destruct (Z.even (Qfloor x)); try lia; exfalso; lra.
  - destruct (round_half_even_near x) as [-> | ->],
             (round_half_even_near y) as [-> | ->]; lia.
Qed.

Lemma py_round1_mono (x y : Q) :
  x <= y -> PyNum.py_round x 1 <= PyNum.py_round y 1.
Proof.
  intros L. unfold PyNum.py_round. cbn [Pos.of_nat].
  change (10 ^ 1)%positive with 10%positive.
  unfold Qle. cbn [Qnum Qden].
  apply Z.mul_le_mono_nonneg_r; [lia|].
  apply round_half_even_mono. change (inject_Z 10) with 10. lra.
Qed.

Lemma py_round1_tenths (k : Z) :
  PyNum.py_round (inject_Z k / 10) 1 == inject_Z k / 10.
Proof.
  unfold PyNum.py_round. cbn [Pos.of_nat].
  change (10 ^ 1)%positive with 10%positive.
  assert (E : inject_Z k / 10 * inject_Z 10 == inject_Z k)
    by (change (inject_Z 10) with 10; field).
  rewrite (round_half_even_comp _ _ E).
  assert (R : PyNum.round_half_even (inject_Z k) = k).
  { unfold PyNum.round_half_even. rewrite Qfloor_Z.
    destruct (Qcompare_spec (inject_Z k - inject_Z k) (1 # 2)) as [X|X|X];
      [exfalso|reflexivity|exfalso]; revert X;
      setoid_replace (inject_Z k - inject_Z k) with 0 by ring;
      [discriminate|apply Qle_not_lt; discriminate]. }
  rewrite R. unfold Qeq, Qdiv, Qmult, Qinv, inject_Z. cbn. lia.
Qed.

Lemma py_round1_cap (k : Z) (x : Q) :
  x <= inject_Z k / 10 -> PyNum.py_round x 1 <= inject_Z k / 10.
Proof.
  intros L. apply Qle_trans with (PyNum.py_round (inject_Z k / 10) 1).
  - now apply py_round1_mono.
  - rewrite py_round1_tenths. apply Qle_refl.
Qed.

Variable bert_model : pystr -> Result (list Q).
Variable predict_proba : list Q -> Result (list Q).

(** X3.  With a classifier that outputs a probability, a text without a
    product keyword never scores above 25, and a text of fewer than 20
    characters that names the product and the delivery never scores above
    10. *)
Theorem predict_penalty_caps (t : pystr) (s : Q) :
  Spec.probabilistic predict_proba ->
  outcome (predict bert_model predict_proba t) = Ok s ->
  (any_keyword PRODUCT_KEYWORDS t = false -> s <= 25) /\
  (any_keyword PRODUCT_KEYWORDS t = true ->
   any_keyword DELIVERY_KEYWORDS t = true ->
   (PyNum.len t < 20)%Z -> s <= 10).
Proof.
  intros P. rewrite predict_unfolded.
  destruct t as [|c t'].
  - intros E. apply Ok_inj in E. subst s. split; intros; discriminate.
  - set (t := c :: t').
    destruct (bert_model t) as [emb|e]; [|discriminate]. cbv zeta.
    destruct (predict_proba _) as [probs|e] eqn:Hp; [|discriminate].
    destruct (nth_error probs 1) as [p|] eqn:Hn; [|discriminate].
    intros E. apply Ok_inj in E. subst s.
    pose proof (P _ _ _ Hp Hn) as [P0 P1].
    unfold Spec.final_score. split.
    + intros ->. cbn [negb].
      apply Qle_trans with (inject_Z 250 / 10); [|discriminate].
      apply py_round1_cap. apply Qle_shift_div_l; [reflexivity|].
      change (inject_Z 250) with 250. lra.
    + intros -> -> L. cbn [negb andb].
      assert (S : PyNum.ltb (Spec.length_signal (PyNum.len t)) 0.2 = true).
      { apply ltb_spec. unfold Spec.length_signal.
        rewrite Z.min_l by lia. apply Qlt_shift_div_r; [reflexivity|].
        apply Qlt_le_trans with (inject_Z 20); [now rewrite <- Zlt_Qlt|].
        discriminate. }
      rewrite S. apply Qle_trans with (inject_Z 100 / 10); [|discriminate].
      apply py_round1_cap. apply Qle_shift_div_l; [reflexivity|].
      change (inject_Z 100) with 100. lra.
Qed.

End ScoreFacts.

Section ScoreExamples.

Import ReviewScorer Examples.
Local Open Scope Q_scope.

Lemma predict_penalty_caps_witness :
  exists s,
    outcome (predict bert forest (u "배송 빨라요")) = Ok s /\ s <= 25.
Proof.
  eexists. split.
  - vm_compute. reflexivity.
  - apply (proj1 (predict_penalty_caps bert forest (u "배송 빨라요") _
                    forest_probabilistic eq_refl)).
    vm_compute. reflexivity.
Defined.

End ScoreExamples.

(** ** The analyzer: preprocessing, blank reviews, failures *)

Section BatchFacts.

Import ReviewScorer AiAnalyzer.
Local Open Scope Q_scope.

Lemma calls_bind {A B} (m : Traced A) (k : A -> Traced B) :
  calls (bind m k) =
    calls m ++ match outcome m with
               | Ok a => calls (k a)
               | Raise _ => []
               end.
Proof.
  unfold bind. destruct (outcome m); cbn [calls]; [reflexivity|].
  now rewrite app_nil_r.
Qed.

Lemma mapM_app_raise {A B} (f : A -> Traced B) (before after : list A)
      (failing : A) (e : PyExc) :
  Forall (fun x => exists y, outcome (f x) = Ok y) before ->
  outcome (f failing) = Raise e ->
  outcome (mapM f (before ++ failing :: after)) = Raise e /\
  calls (mapM f (before ++ failing :: after))
  = flat_map (fun x => calls (f x)) (before ++ [failing]).
Proof.
  intros HB HF. induction HB as [|x xs [y Hx] _ [IHo IHc]].
  - cbn [app mapM flat_map]. rewrite outcome_bind, calls_bind, HF.
    now rewrite !app_nil_r.
  - cbn [app mapM flat_map]. rewrite outcome_bind, calls_bind, Hx.
    rewrite outcome_bind, calls_bind, IHo, IHc.
    split; [reflexivity|]. now rewrite app_nil_r.
Qed.

Lemma lstrip_snoc (s : pystr) (c : N) :
  isspace c = false -> lstrip (s ++ [c]) = lstrip s ++ [c].
Proof.
  intros H. induction s as [|d s IH]; cbn [app lstrip].
  - now rewrite H.
  - destruct (isspace d); [exact IH|reflexivity].
Qed.

Lemma lstrip_head (s : pystr) (c : N) (rest : pystr) :
  lstrip s = c :: rest -> isspace c = false.
Proof.
  induction s as [|d s IH]; cbn [lstrip]; [discriminate|].
  destruct (isspace d) eqn:E; [exact IH|]. now intros [= <- _].
Qed.

Lemma lstrip_blank (s : pystr) :
  Forall (fun c => isspace c = true) s -> lstrip s = [].
Proof.
  induction 1 as [|c s Hc _ IH]; [reflexivity|].
  cbn [lstrip]. now rewrite Hc.
Qed.

(** [strip] leaves no white space at either end. *)
Lemma strip_ends (s : pystr) :
  (forall c rest, strip s = c :: rest -> isspace c = false) /\
  (forall c front, strip s = front ++ [c] -> isspace c = false).
Proof.
  unfold strip. split.
  - intros c rest H.
    destruct (lstrip s) as [|d s'] eqn:E; [discriminate|].
    pose proof (lstrip_head _ _ _ E) as Hd.
    cbn [rev] in H. rewrite (lstrip_snoc _ _ Hd), rev_app_distr in H.
    cbn [rev app] in H. now injection H as <- _.
  - intros c front H. apply (f_equal (@rev N)) in H.
    rewrite rev_involutive, rev_app_distr in H. cbn [rev app] in H.
    exact (lstrip_head _ _ _ H).
Qed.

Lemma strip_blank (s : pystr) :
  Forall (fun c => isspace c = true) s -> strip s = [].
Proof. intros H. unfold strip. now rewrite (lstrip_blank _ H). Qed.

Variable bert_model : pystr -> Result (list Q).
Variable predict_proba : list Q -> Result (list Q).

(** [str(e)], the text of an exception. *)
Variable str : PyExc -> string.

Local Abbreviation score_review :=
  (AiAnalyzer.score_review bert_model predict_proba).
Local Abbreviation analyze_reviews :=
  (AiAnalyzer.analyze_reviews bert_model predict_proba).
Local Abbreviation run := (AiAnalyzer.run bert_model predict_proba).
Local Abbreviation main := (AiAnalyzer.main bert_model predict_proba).

(** X5.  The analysis stops at the first review that fails: when the
    reviews before it score and it raises [e], [analyze_reviews] raises
    the same [e], and the external models have been called for the reviews
    up to the failing one and for none after it. *)
Theorem analysis_stops_at_first_failure
        (before after : list Review) (failing : Review) (e : PyExc) :
  Forall (fun review => exists s, outcome (score_review review) = Ok s)
         before ->
  outcome (score_review failing) = Raise e ->
  outcome (analyze_reviews (before ++ failing :: after)) = Raise e /\
  calls (analyze_reviews (before ++ failing :: after))
  = flat_map (fun review => calls (score_review review))
             (before ++ [failing]).
Proof.
  intros HB HF.
  destruct (mapM_app_raise score_review before after failing e HB HF)
    as [O C].
  unfold AiAnalyzer.analyze_reviews.
  rewrite outcome_bind, calls_bind, O, C. split; [reflexivity|].
  apply app_nil_r.
Qed.

(** X6.  Preprocessing keeps, in order, the reviews that have a text (or,
    failing that, a content), and gives each of them a [text] key holding
    that text without white space at either end; so scoring a
    preprocessed review never fails for a missing key. *)
Theorem preprocess_reviews_keeps_texts (reviews : list Review) :
  preprocess_reviews reviews
  = map (fun review =>
           mkReview (Some (strip (Facts.analysis_text review)))
                    (content review) (reliability_score review)
                    (analysis_label review) (color_class review))
        (filter (fun review => truthy (Facts.analysis_text review)) reviews)
  /\
  forall review,
    In review (preprocess_reviews reviews) ->
    exists t,
      text review = Some t /\
      (forall c rest, t = c :: rest -> isspace c = false) /\
      (forall c front, t = front ++ [c] -> isspace c = false) /\
      score_review review = predict bert_model predict_proba t.
Proof.
  assert (E : preprocess_reviews reviews
              = map (fun review =>
                       mkReview (Some (strip (Facts.analysis_text review)))
                                (content review) (reliability_score review)
                                (analysis_label review) (color_class review))
                    (filter (fun review => truthy (Facts.analysis_text review))
                            reviews)).
  { unfold preprocess_reviews, Facts.analysis_text.
    induction reviews as [|r rs IH]; [reflexivity|].
    cbn [flat_map filter]. rewrite IH.
    now destruct (truthy (or_str (get_str (text r)) (get_str (content r)))). }
  split; [exact E|].
  intros review Hin. rewrite E in Hin. apply in_map_iff in Hin.
  destruct Hin as (orig & <- & _).
  exists (strip (Facts.analysis_text orig)).
  destruct (strip_ends (Facts.analysis_text orig)) as [L R].
  repeat split; assumption.
Qed.

(** X7.  A review whose text is nothing but white space is kept by the
    preprocessing with an empty text, is scored 0 without any call to the
    models and shown as not helpful; a batch of only such a review is
    analysed as malicious with confidence 0. *)
Theorem blank_review_scores_zero (review : Review) (t : pystr) :
  text review = Some t ->
  t <> [] ->
  Forall (fun c => isspace c = true) t ->
  let kept := mkReview (Some []) (content review) (reliability_score review)
                       (analysis_label review) (color_class review) in
  preprocess_reviews [review] = [kept] /\
  score_review kept = mkTraced (Ok 0) [] /\
  exists result,
    run true [review] = mkTraced (Ok (Analysed result)) [] /\
    verdict result = "malicious"%string /\
    confidence result == 0 /\
    exists enriched,
      enriched_reviews result = [enriched] /\
      reliability_score enriched = Some 0 /\
      analysis_label enriched = Some "도움 안됨"%string /\
      color_class enriched = Some "status-red"%string.
Proof.
  intros Ht Hne Hblank kept.
  assert (P : preprocess_reviews [review] = [kept]).
  { unfold preprocess_reviews, or_str. cbn [flat_map]. rewrite Ht.
    cbn [get_str]. destruct t as [|c t']; [contradiction|].
    cbn [truthy negb]. rewrite (strip_blank _ Hblank). reflexivity. }
  split; [exact P|]. split; [reflexivity|].
  unfold AiAnalyzer.run. cbn [negb]. rewrite P.
  eexists. split; [reflexivity|].
  cbn [verdict confidence enriched_reviews].
  split; [reflexivity|]. split; [reflexivity|].
  eexists. split; [reflexivity|]. repeat split.
Qed.

(** X8.  When the scorer cannot be loaded, or no review of the batch has a
    text, [run] makes no call to the models and returns an error verdict
    instead of raising; [main] then prints a success, and
    [analyze_with_ai] records the analysis as completed, with verdict
    "error" and confidence 0, not as failed. *)
Theorem empty_batch_completes_with_error
        (model_loads : bool) (reviews : list Review) :
  model_loads = false \/ preprocess_reviews reviews = [] ->
  calls (run model_loads reviews) = [] /\
  exists msg,
    main model_loads reviews = OutSuccess (ErrorVerdict msg) /\
    forall analysis,
      let after :=
        AnalysisService.analyze_with_ai str (main model_loads reviews)
                                        reviews analysis in
      AnalysisService.success (fst after) = true /\
      AnalysisService.status (snd after) = "completed"%string /\
      AnalysisService.verdict (snd after) = Some "error"%string /\
      AnalysisService.confidence (snd after) = Some 0.
Proof.
  intros H.
  assert (R : exists msg,
             run model_loads reviews = mkTraced (Ok (ErrorVerdict msg)) []).
  { unfold AiAnalyzer.run. destruct model_loads; cbn [negb].
    - destruct H as [H|H]; [discriminate|]. rewrite H. now eexists.
    - now eexists. }
  destruct R as [msg R]. split; [now rewrite R|].
  exists msg. unfold AiAnalyzer.main. rewrite R. cbn [outcome].
  split; [reflexivity|]. intros analysis. repeat split.
Qed.

End BatchFacts.

Section BatchExamples.

Import ReviewScorer AiAnalyzer Examples.

Lemma analysis_stops_at_first_failure_witness :
  outcome (analyze_reviews flaky_bert forest
             ([review_of "사이즈가 딱 맞아요"] ++
              review_of "굿" :: [review_of "배송 빨라요"]))
  = Raise (ExternalError "embedding") /\
  calls (analyze_reviews flaky_bert forest
           ([review_of "사이즈가 딱 맞아요"] ++
            review_of "굿" :: [review_of "배송 빨라요"]))
  = flat_map (fun review => calls (score_review flaky_bert forest review))
             ([review_of "사이즈가 딱 맞아요"] ++ [review_of "굿"]).
Proof.
  apply analysis_stops_at_first_failure.
  - constructor; [|constructor]. eexists. vm_compute. reflexivity.
  - vm_compute. reflexivity.
Defined.

Lemma preprocess_reviews_keeps_texts_witness :
  exists t,
    text (review_of "굿") = Some t /\
    (forall c rest, t = c :: rest -> isspace c = false) /\
    (forall c front, t = front ++ [c] -> isspace c = false) /\
    score_review bert forest (review_of "굿") = predict bert forest t.
Proof.
  apply (proj2 (preprocess_reviews_keeps_texts bert forest batch)).
  vm_compute. right. left. reflexivity.
Defined.

Lemma blank_review_scores_zero_witness :
  preprocess_reviews [review_of "   "]
  = [mkReview (Some []) None None None None].
Proof.
  refine (proj1 (blank_review_scores_zero bert forest (review_of "   ")
                   (u "   ") eq_refl _ _)).
  - vm_compute. discriminate.
  - vm_compute. repeat constructor.
Defined.

Lemma empty_batch_completes_with_error_witness :
  main bert forest true [mkReview None None None None None]
  = OutSuccess (ErrorVerdict "분석할 리뷰 없음").
Proof.
  destruct (empty_batch_completes_with_error bert forest text_of true
              [mkReview None None None None None])
    as (_ & msg & M & _).
  - right. reflexivity.
  - reflexivity.
Defined.

End BatchExamples.

(** ** Ranges of what the analysis reports *)

Section RangeFacts.

Import ReviewScorer AiAnalyzer.
Local Open Scope Q_scope.

Lemma fold_sum_bounds (xs : list Q) (a : Q) :
  Forall (fun s => 0 <= s <= 100) xs ->
  a <= fold_left Qplus xs a <= a + 100 * inject_Z (PyNum.len xs).
Proof.
  intros H. revert a. induction H as [|x xs [X0 X1] _ IH]; intros a.
  - cbn [fold_left]. change (inject_Z (PyNum.len (@nil Q))) with 0. lra.
  - cbn [fold_left]. destruct (IH (a + x)) as [L U].
    assert (N : inject_Z (PyNum.len (x :: xs))
                == inject_Z (PyNum.len xs) + 1).
    { unfold PyNum.len. cbn [List.length].
      rewrite Nat2Z.inj_succ, <- Z.add_1_r, inject_Z_plus. reflexivity. }
    rewrite N. split; lra.
Qed.

Lemma batch_average_range (scores : list Q) :
  Forall (fun s => 0 <= s <= 100) scores ->
  0 <= Spec.batch_average scores <= 100.
Proof.
  intros H. unfold Spec.batch_average.
  destruct scores as [|s ss]; [split; discriminate|].
  unfold PyNum.mean, PyNum.sum.
  destruct (fold_sum_bounds (s :: ss) 0 H) as [L U].
  assert (P : 0 < inject_Z (PyNum.len (s :: ss))).
  { change 0 with (inject_Z 0). rewrite <- Zlt_Qlt.
    unfold PyNum.len. cbn [List.length]. lia. }
  split.
  - apply Qle_shift_div_l; [exact P|]. lra.
  - apply Qle_shift_div_r; [exact P|]. lra.
Qed.

Lemma py_round2_range (x : Q) :
  0 <= x <= 100 -> 0 <= PyNum.py_round x 2 <= 100.
Proof.
  intros [H0 H1]. unfold PyNum.py_round. cbn [Pos.of_nat Pos.succ].
  change (10 ^ 2)%positive with 100%positive.
  destruct (round_half_even_bounds (x * inject_Z 100) 0 10000) as [L U].
  - change (inject_Z 0) with 0. change (inject_Z 100) with 100. lra.
  - change (inject_Z 10000) with 10000. change (inject_Z 100) with 100. lra.
  - unfold Qle. simpl. lia.
Qed.

Variable bert_model : pystr -> Result (list Q).
Variable predict_proba : list Q -> Result (list Q).

Local Abbreviation score_review :=
  (AiAnalyzer.score_review bert_model predict_proba).
Local Abbreviation analyze_reviews :=
  (AiAnalyzer.analyze_reviews bert_model predict_proba).

Lemma scored_in_range (review : Review) (s : Q) :
  Spec.probabilistic predict_proba ->
  outcome (score_review review) = Ok s -> 0 <= s <= 100.
Proof.
  intros P. unfold AiAnalyzer.score_review.
  destruct (text review) as [t|]; [|discriminate].
  rewrite predict_unfolded. destruct t as [|c t'].
  - intros E. apply Ok_inj in E. subst s. split; discriminate.
  - set (t := c :: t').
    destruct (bert_model t) as [emb|e]; [|discriminate]. cbv zeta.
    destruct (predict_proba _) as [probs|e] eqn:Hp; [|discriminate].
    destruct (nth_error probs 1) as [p|] eqn:Hn; [|discriminate].
    intros E. apply Ok_inj in E. subst s.
    apply py_round1_range, final_score_range.
    + pose proof (P _ _ _ Hp Hn). lra.
    + unfold PyNum.len. lia.
Qed.

(** X9.  With a classifier that outputs a probability, whatever
    [analyze_reviews] returns is in range: one enriched review per review
    of the batch, each with a score in [0, 100], a confidence in [0, 100]
    with two decimals, the number of reviews as [total_reviews], and one
    of the three verdicts. *)
Theorem analysis_result_in_range
        (reviews : list Review) (result : AnalysisResult) :
  Spec.probabilistic predict_proba ->
  outcome (analyze_reviews reviews) = Ok result ->
  List.length (enriched_reviews result) = List.length reviews /\
  total_reviews (details result) = PyNum.len reviews /\
  Forall (fun enriched =>
            exists s, reliability_score enriched = Some s /\ 0 <= s <= 100)
         (enriched_reviews result) /\
  0 <= confidence result <= 100 /\
  PyNum.has_decimals 2 (confidence result) /\
  (verdict result = "safe" \/ verdict result = "suspicious"
   \/ verdict result = "malicious")%string.
Proof.
  intros P H.
  destruct (outcome (mapM score_review reviews)) as [scores|e] eqn:E.
  2: { rewrite (analyze_reviews_raises _ _ _ _ E) in H. discriminate. }
  rewrite (analyze_reviews_returns _ _ _ _ E) in H. apply Ok_inj in H.
  subst result. cbn [enriched_reviews details total_reviews confidence verdict].
  apply mapM_ok in E.
  assert (R : Forall (fun s => 0 <= s <= 100) scores).
  { clear -E P. induction E as [|r s rs ss Hr _ IH]; constructor;
      [exact (scored_in_range _ _ P Hr)|exact IH]. }
  pose proof (Forall2_length E) as L.
  split; [|split; [reflexivity|split; [|split; [|split]]]].
  - rewrite length_map, length_combine, L. apply Nat.min_id.
  - clear L. induction E as [|r s rs ss Hr _ IH];
      cbn [combine map fst snd]; constructor.
    + exists s. split; [|now inversion R]. unfold enrich.
      now destruct (label_and_color s).
    + apply IH. now inversion R.
  - apply py_round2_range, batch_average_range, R.
  - apply py_round_decimals. lia.
  - unfold verdict_of. destruct (PyNum.gtb _ _); [now left|].
    destruct (PyNum.geb _ _); [right; now left|right; now right].
Qed.

End RangeFacts.

Section RangeExamples.

Import ReviewScorer AiAnalyzer Examples.
Local Open Scope Q_scope.

Lemma analysis_result_in_range_witness :
  exists result,
    outcome (analyze_reviews bert forest batch) = Ok result /\
    0 <= confidence result <= 100.
Proof.
  eexists. split.
  - vm_compute. reflexivity.
  - refine (proj1 (proj2 (proj2 (proj2
             (analysis_result_in_range bert forest batch _
                forest_probabilistic _))))).
    vm_compute. reflexivity.
Defined.

End RangeExamples.

(** ** Labels as functions of the score *)

Section LabelFacts.

Import Feedback.
Local Open Scope Q_scope.

Ltac compare_all :=
  repeat match goal with
    | |- context [PyNum.geb ?a ?b] => destruct (PyNum.geb a b) eqn:?
    | |- context [PyNum.leb ?a ?b] => destruct (PyNum.leb a b) eqn:?
    | |- context [PyNum.gtb ?a ?b] => destruct (PyNum.gtb a b) eqn:?
    | |- context [PyNum.ltb ?a ?b] => destruct (PyNum.ltb a b) eqn:?
    end;
  repeat match goal with
    | H : PyNum.geb _ _ = true |- _ => apply geb_spec in H
    | H : PyNum.geb _ _ = false |- _ => apply geb_false in H
    | H : PyNum.leb _ _ = true |- _ => apply leb_spec in H
    | H : PyNum.leb _ _ = false |- _ => apply leb_false in H
    | H : PyNum.gtb _ _ = true |- _ => apply gtb_spec in H
    | H : PyNum.gtb _ _ = false |- _ => apply gtb_false in H
    | H : PyNum.ltb _ _ = true |- _ => apply ltb_spec in H
    | H : PyNum.ltb _ _ = false |- _ => apply ltb_false in H
    end.

(** X10.  The label confidence never exceeds 1 and follows the score: it
    does not fall when the score rises under label 1, and does not rise
    under label 0.  For a score in [0, 100] it is in [0, 1]; outside, it
    is cut at 1 only: label 0 with a score above 100, and label 1 with a
    score below 0, get a negative confidence. *)
Theorem label_confidence_range (score : Q) (label : Z) :
  calculate_label_confidence score label <= 1 /\
  (forall higher,
      score <= higher ->
      calculate_label_confidence score 1
      <= calculate_label_confidence higher 1 /\
      calculate_label_confidence higher 0
      <= calculate_label_confidence score 0) /\
  (0 <= score <= 100 -> 0 <= calculate_label_confidence score label) /\
  (100 < score -> calculate_label_confidence score 0 < 0) /\
  (score < 0 -> calculate_label_confidence score 1 < 0).
Proof.
  unfold calculate_label_confidence. cbn [Z.eqb Pos.eqb].
  split; [|split; [|split; [|split]]].
  - destruct (label =? 1)%Z; apply Q.le_min_r.
  - intros higher H.
    assert (A : score / 100 <= higher / 100).
    { apply Qle_shift_div_l; [reflexivity|]. field_simplify. lra. }
    assert (B : (100 - higher) / 100 <= (100 - score) / 100).
    { apply Qle_shift_div_l; [reflexivity|]. field_simplify. lra. }
    split; apply Q.min_le_compat_r; assumption.
  - intros [H0 H1].
    assert (A : 0 <= score / 100)
      by (apply Qle_shift_div_l; [reflexivity|lra]).
    assert (B : 0 <= (100 - score) / 100)
      by (apply Qle_shift_div_l; [reflexivity|lra]).
    destruct (label =? 1)%Z; apply Q.min_glb; try assumption; discriminate.
  - intros H. apply Qle_lt_trans with ((100 - score) / 100);
      [apply Q.le_min_l|].
    apply Qlt_shift_div_r; [reflexivity|lra].
  - intros H. apply Qle_lt_trans with (score / 100); [apply Q.le_min_l|].
    apply Qlt_shift_div_r; [reflexivity|lra].
Qed.

Lemma label_confidence_range_witness :
  calculate_label_confidence 120 0 < 0.
Proof.
  apply (proj1 (proj2 (proj2 (proj2 (label_confidence_range 120 0))))).
  reflexivity.
Defined.

(** X11.  Under the hybrid and the relative strategy the user's
    satisfaction matters only on a tie: for a score different from the
    batch average both satisfaction values give the same label; at the
    average the relative strategy labels 0 for a satisfied user and 1
    otherwise. *)
Theorem satisfaction_only_breaks_ties (score avg_score : Q) (a b : Z) :
  (~ score == avg_score ->
   smart_label_hybrid score avg_score a = smart_label_hybrid score avg_score b
   /\ smart_label_relative score avg_score a
      = smart_label_relative score avg_score b) /\
  (score == avg_score ->
   smart_label_relative score avg_score 1 = 0%Z /\
   (a <> 1%Z -> smart_label_relative score avg_score a = 1%Z)).
Proof.
  unfold smart_label_hybrid, smart_label_relative. split.
  - intros N.
    assert (D : score < avg_score \/ avg_score < score).
    { destruct (Q_dec score avg_score) as [[L|G]|E]; tauto. }
    destruct (a =? 1)%Z, (b =? 1)%Z; compare_all;
      split; try reflexivity; exfalso; lra.
  - intros E. cbn [Z.eqb Pos.eqb]. split.
    + compare_all; [exfalso; lra|reflexivity].
    + intros N. destruct (Z.eqb_spec a 1); [contradiction|].
      compare_all; [exfalso; lra|reflexivity].
Qed.

Lemma satisfaction_only_breaks_ties_witness :
  smart_label_hybrid 60 65 1 = smart_label_hybrid 60 65 0 /\
  smart_label_relative 50 50 1 = 0%Z.
Proof.
  split.
  - apply (proj1 (satisfaction_only_breaks_ties 60 65 1 0)). discriminate.
  - apply (proj2 (satisfaction_only_breaks_ties 50 50 1 0)). reflexivity.
Defined.

(** X12.  Every strategy is monotone in the score: within a batch, for the
    same satisfaction, a review with a higher score never gets a lower
    label than one with a lower score. *)
Theorem labels_monotone_in_score
        (strategy : string) (avg_score : Q) (user_satisfaction : Z)
        (low high : Q) (l1 l2 : Z) :
  low <= high ->
  apply_strategy strategy low avg_score user_satisfaction = Some l1 ->
  apply_strategy strategy high avg_score user_satisfaction = Some l2 ->
  (l1 <= l2)%Z.
Proof.
  intros L. unfold apply_strategy, smart_label_hybrid, smart_label_extreme,
    smart_label_relative.
  destruct (strategy =? "weak")%string; [intros [= <-] [= <-]; lia|].
  destruct (strategy =? "hybrid")%string;
    [|destruct (strategy =? "extreme")%string;
      [|destruct (strategy =? "relative")%string]];
    destruct (user_satisfaction =? 1)%Z; compare_all;
    intros E1 E2; try discriminate;
    apply Ok_inj in E1 || injection E1 as <-;
    injection E2 as <-; try lia; exfalso; lra.
Qed.

Lemma labels_monotone_in_score_witness :
  apply_strategy "hybrid" 20 50 1 = Some 0%Z /\
  apply_strategy "hybrid" 90 50 1 = Some 1%Z /\
  (0 <= 1)%Z.
Proof.
  split; [reflexivity|split; [reflexivity|]].
  apply (labels_monotone_in_score "hybrid" 50 1 20 90 0 1).
  - discriminate.
  - reflexivity.
  - reflexivity.
Defined.

End LabelFacts.

(** ** The feedback endpoint: answers and counts *)

Section EndpointFacts.

Import Feedback FeedbackStats.

Lemma len_app {A} (xs ys : list A) :
  PyNum.len (xs ++ ys) = PyNum.len xs + PyNum.len ys.
Proof. unfold PyNum.len. rewrite length_app. lia. Qed.

Lemma count_tags_app (t : Z) (xs ys : list FeedbackRow) :
  count_tags t (xs ++ ys) = count_tags t xs + count_tags t ys.
Proof. unfold count_tags. now rewrite filter_app, len_app. Qed.

(** One turn of the labeling loop, counter by counter. *)
Lemma label_review_counts (request : FeedbackRequest) (avg : Q) (us : Z)
      (review : Review) (st st' : Locals) :
  us = 0 \/ us = 1 ->
  label_review request avg us review st = Ok st' ->
  let rows := Spec.labeled_rows request avg us review in
  saved_count st' = saved_count st + PyNum.len rows /\
  skipped_count st' + PyNum.len rows
    = skipped_count st + PyNum.len (Facts.with_text [review]) /\
  stats_1 st' = stats_1 st + count_tags 1 rows /\
  stats_0 st' = stats_0 st + count_tags 0 rows /\
  (label st' = None <->
   label st = None /\ Facts.with_text [review] = []).
Proof.
  intros Hus. unfold label_review, Spec.labeled_rows, Facts.with_text,
    Facts.feedback_text. cbn [filter].
  destruct (truthy _); cbn [negb].
  - destruct (apply_strategy _ _ _ _) as [l|] eqn:E.
    + destruct (apply_strategy_binary _ _ _ _ _ Hus E) as [->| ->];
        intros [= <-];
        cbn [saved_count skipped_count stats_0 stats_1 label];
        unfold count_tags, PyNum.len; cbn; repeat split; try lia;
        try discriminate; intros [_ Hnil]; discriminate.
    + intros [= <-].
      cbn [saved_count skipped_count stats_0 stats_1 label].
      unfold count_tags, PyNum.len. cbn. repeat split; try lia;
        try discriminate; intros [_ Hnil]; discriminate.
  - intros [= <-]. unfold count_tags, PyNum.len. cbn.
    repeat split; try lia; tauto.
Qed.

Lemma with_text_cons (review : Review) (rest : list Review) :
  Facts.with_text (review :: rest)
  = Facts.with_text [review] ++ Facts.with_text rest.
Proof.
  unfold Facts.with_text. cbn [filter]. now destruct (truthy _).
Qed.

Lemma label_loop_counts (request : FeedbackRequest) (avg : Q) (us : Z)
      (all_reviews : list Review) :
  us = 0 \/ us = 1 ->
  forall st st',
    label_loop request avg us all_reviews st = Ok st' ->
    let rows := flat_map (Spec.labeled_rows request avg us) all_reviews in
    saved_count st' = saved_count st + PyNum.len rows /\
    skipped_count st' + PyNum.len rows
      = skipped_count st + PyNum.len (Facts.with_text all_reviews) /\
    stats_1 st' = stats_1 st + count_tags 1 rows /\
    stats_0 st' = stats_0 st + count_tags 0 rows /\
    (label st' = None <->
     label st = None /\ Facts.with_text all_reviews = []).
Proof.
  intros Hus. induction all_reviews as [|review rest IH]; intros st st'.
  - intros [= <-]. unfold count_tags, PyNum.len. cbn.
    repeat split; try lia; tauto.
  - cbn [label_loop flat_map].
    destruct (label_review request avg us review st) as [st1|e] eqn:E1;
      [|discriminate].
    intros E2.
    destruct (label_review_counts _ _ _ _ _ _ Hus E1)
      as (S1 & K1 & A1 & B1 & L1).
    destruct (IH _ _ E2) as (S2 & K2 & A2 & B2 & L2).
    cbv zeta. rewrite with_text_cons, !len_app, !count_tags_app.
    split; [lia|]. split; [lia|]. split; [lia|]. split; [lia|]. split.
    + intros N. apply L2 in N. destruct N as [N1 T]. apply L1 in N1.
      destruct N1 as [N0 T1]. split; [exact N0|]. now rewrite T1, T.
    + intros [N0 T]. apply app_eq_nil in T. destruct T as [T1 T].
      apply L2. split; [|exact T]. apply L1. now split.
Qed.

(** The answer of the endpoint for a completed analysis with reviews. *)
Lemma submit_feedback_answer (analyses : list Analysis)
      (table : list FeedbackRow) (request : FeedbackRequest)
      (analysis : Analysis) :
  query_analysis analyses (req_analysis_id request) = Some analysis ->
  status analysis = "completed"%string ->
  collect_reviews analysis <> [] ->
  let all_reviews := collect_reviews analysis in
  let rows := Spec.feedback_set analysis request in
  match fst (submit_feedback analyses table request) with
  | Ok response =>
      Facts.with_text all_reviews <> [] /\
      success response = true /\
      feedback_count response = PyNum.len rows /\
      let info := strategy_info response in
      info_strategy info = strategy request /\
      total_reviews info = PyNum.len all_reviews /\
      saved info = PyNum.len rows /\
      saved info + skipped info = PyNum.len (Facts.with_text all_reviews) /\
      label_1 info = count_tags 1 rows /\
      label_0 info = count_tags 0 rows
  | Raise e =>
      Facts.with_text all_reviews = [] /\
      e = HTTPException 500 "피드백 저장 중 오류"
  end.
Proof.
  intros HQ HS HR. unfold submit_feedback. rewrite HQ, HS.
  change (negb ("completed" =? "completed")%string) with false.
  cbv iota zeta. unfold Spec.feedback_set.
  destruct (collect_reviews analysis) as [|r rs] eqn:EC; [contradiction|].
  set (avg := PyNum.mean _).
  set (us := if is_helpful request then 1 else 0).
  assert (Hus : us = 0 \/ us = 1)
    by (subst us; destruct (is_helpful request); auto).
  set (st0 := mkLocals _ 0 0 0 0 None).
  destruct (label_loop_ok request avg us (r :: rs) st0 Hus)
    as (st & E & _ & _).
  rewrite E.
  destruct (label_loop_counts request avg us (r :: rs) Hus _ _ E)
    as (S & K & A & B & L).
  cbn [saved_count skipped_count stats_0 stats_1 label st0] in S, K, A, B, L.
  destruct (label st) eqn:EL; cbn [fst internal_error].
  - cbn [success feedback_count strategy_info info_strategy total_reviews
           saved skipped label_0 label_1].
    repeat split; try lia.
    intros T. assert (N : @None (option Z) = None /\ Facts.with_text (r :: rs) = [])
      by now split.
    apply L in N. discriminate.
  - split; [|reflexivity]. now apply L.
Qed.

Lemma feedback_set_binary (analysis : Analysis) (request : FeedbackRequest) :
  Facts.binary_tags (Spec.feedback_set analysis request).
Proof.
  unfold Facts.binary_tags, Spec.feedback_set.
  apply Forall_flat_map, Forall_forall. intros review _.
  unfold Spec.labeled_rows. destruct (negb _); [constructor|].
  destruct (apply_strategy _ _ _ _) as [l|] eqn:E; [|constructor].
  constructor; [|constructor]. cbn [tags].
  eapply apply_strategy_binary; [|exact E].
  destruct (is_helpful request); auto.
Qed.

(** In a table of binary labels every row is helpful or unhelpful. *)
Lemma binary_tags_counted (rows : list FeedbackRow) :
  Facts.binary_tags rows ->
  count_tags 0 rows + count_tags 1 rows = PyNum.len rows.
Proof.
  unfold Facts.binary_tags, count_tags, PyNum.len.
  induction 1 as [|row rows [H|H] _ IH]; [reflexivity| |];
    cbn [filter List.length]; rewrite H;
    cbn [Z.eqb Pos.eqb filter List.length]; lia.
Qed.

(** X13.  A submission answered with a 4xx error stores and deletes
    nothing: that is the answer when the analysis does not exist (404),
    is not completed (400) or has no reviews (400), and in each case the
    table is left as it was. *)
Theorem rejected_submission_changes_nothing
        (analyses : list Analysis) (table : list FeedbackRow)
        (request : FeedbackRequest) :
  let id := req_analysis_id request in
  let answer := submit_feedback analyses table request in
  (query_analysis analyses id = None ->
   answer = (Raise (HTTPException 404 "분석 결과를 찾을 수 없습니다."), table))
  /\
  (forall analysis,
      query_analysis analyses id = Some analysis ->
      status analysis <> "completed"%string ->
      answer = (Raise (HTTPException 400 "완료되지 않은 분석입니다."), table))
  /\
  (forall analysis,
      query_analysis analyses id = Some analysis ->
      status analysis = "completed"%string ->
      collect_reviews analysis = [] ->
      answer = (Raise (HTTPException 400 "리뷰 데이터가 없습니다."), table))
  /\
  (forall code detail,
      fst answer = Raise (HTTPException code detail) ->
      code <> 500 -> snd answer = table).
Proof.
  cbv zeta. unfold submit_feedback. repeat split.
  - now intros ->.
  - intros analysis -> N.
    destruct (String.eqb_spec (status analysis) "completed");
      [contradiction|reflexivity].
  - intros analysis -> -> ->. reflexivity.
  - intros code detail.
    destruct (query_analysis _ _) as [analysis|]; [|reflexivity].
    destruct (negb _); [reflexivity|].
    destruct (collect_reviews analysis) as [|r rs]; [reflexivity|].
    destruct (label_loop _ _ _ _ _) as [st|e].
    + destruct (label st); cbn [fst internal_error];
        [discriminate|intros [= <- _] N; now contradiction N].
    + cbn [fst internal_error]. intros [= <- _] N. now contradiction N.
Qed.

(** X14.  When the endpoint answers, its counts describe what it stored:
    [feedback_count] and [saved] are the number of rows the batch now has
    in the table, [label_1] and [label_0] count those rows by label and
    add up to [saved], [saved + skipped] is the number of reviews with a
    text, and [total_reviews] the number of all reviews. *)
Theorem feedback_counts_match_table
        (analyses : list Analysis) (table : list FeedbackRow)
        (request : FeedbackRequest) (analysis : Analysis)
        (response : FeedbackResponse) :
  query_analysis analyses (req_analysis_id request) = Some analysis ->
  fst (submit_feedback analyses table request) = Ok response ->
  let stored :=
    Spec.rows_of (req_analysis_id request)
                 (snd (submit_feedback analyses table request)) in
  let info := strategy_info response in
  feedback_count response = PyNum.len stored /\
  saved info = PyNum.len stored /\
  label_1 info = count_tags 1 stored /\
  label_0 info = count_tags 0 stored /\
  label_0 info + label_1 info = saved info /\
  saved info + skipped info
    = PyNum.len (Facts.with_text (collect_reviews analysis)) /\
  total_reviews info = PyNum.len (collect_reviews analysis).
Proof.
  intros HQ HOk.
  assert (V : status analysis = "completed"%string
              /\ collect_reviews analysis <> []).
  { revert HOk. unfold submit_feedback. rewrite HQ.
    destruct (String.eqb_spec (status analysis) "completed") as [E|N];
      cbn [negb]; [|discriminate].
    destruct (collect_reviews analysis); [discriminate|].
    intros _. split; [exact E|discriminate]. }
  destruct V as [HS HR].
  pose proof (submit_feedback_answer _ table _ _ HQ HS HR) as A.
  rewrite HOk in A. cbv zeta in A.
  destruct A as (_ & _ & C & _ & T & S & K & L1 & L0).
  cbv zeta. rewrite (submit_feedback_table _ _ _ _ HQ HS HR).
  destruct (rows_of_replaced (req_analysis_id request) table
              (Spec.feedback_set analysis request)
              (feedback_set_batch analysis request)) as [R _].
  rewrite R.
  pose proof (binary_tags_counted _ (feedback_set_binary analysis request))
    as B.
  repeat split; try assumption; lia.
Qed.

End EndpointFacts.

Section EndpointEdges.

Import Feedback FeedbackStats.

Lemma textless_rows (request : FeedbackRequest) (avg : Q) (us : Z)
      (reviews : list Review) :
  Facts.with_text reviews = [] ->
  flat_map (Spec.labeled_rows request avg us) reviews = [].
Proof.
  unfold Facts.with_text, Facts.feedback_text.
  induction reviews as [|r rs IH]; [reflexivity|].
  cbn [filter flat_map]. unfold Spec.labeled_rows at 1.
  destruct (truthy _); [discriminate|]. exact IH.
Qed.

(** X15.  For a completed analysis none of whose reviews has a text, the
    endpoint answers 500, yet the rows the batch had in the table are
    gone: the deletion was committed before the failure.  With a review
    that has a text the endpoint never answers an error. *)
Theorem textless_batch_loses_its_feedback
        (analyses : list Analysis) (table : list FeedbackRow)
        (request : FeedbackRequest) (analysis : Analysis) :
  query_analysis analyses (req_analysis_id request) = Some analysis ->
  status analysis = "completed"%string ->
  collect_reviews analysis <> [] ->
  (Facts.with_text (collect_reviews analysis) = [] ->
   submit_feedback analyses table request
   = (Raise (HTTPException 500 "피드백 저장 중 오류"),
      Spec.other_rows (req_analysis_id request) table)) /\
  (Facts.with_text (collect_reviews analysis) <> [] ->
   exists response,
     fst (submit_feedback analyses table request) = Ok response).
Proof.
  intros HQ HS HR.
  pose proof (submit_feedback_answer _ table _ _ HQ HS HR) as A.
  pose proof (submit_feedback_table _ table _ _ HQ HS HR) as T.
  cbv zeta in A.
  destruct (submit_feedback analyses table request) as [answer table'].
  cbn [fst snd] in *. split.
  - intros N. destruct answer as [response|e].
    + destruct A as [A _]. contradiction.
    + destruct A as [_ ->]. rewrite T. unfold Spec.feedback_set.
      rewrite (textless_rows _ _ _ _ N). now rewrite app_nil_r.
  - intros N. destruct answer as [response|e]; [now exists response|].
    destruct A as [A _]. contradiction.
Qed.

(** What a submission can do to the table. *)
Lemma submit_feedback_cases (analyses : list Analysis)
      (table : list FeedbackRow) (request : FeedbackRequest) :
  snd (submit_feedback analyses table request) = table \/
  exists analysis,
    snd (submit_feedback analyses table request)
    = Spec.other_rows (req_analysis_id request) table
      ++ Spec.feedback_set analysis request.
Proof.
  destruct (query_analysis analyses (req_analysis_id request))
    as [analysis|] eqn:HQ.
  2: { left. unfold submit_feedback. now rewrite HQ. }
  destruct (String.eqb_spec (status analysis) "completed") as [HS|HS].
  2: { left. unfold submit_feedback. rewrite HQ.
       destruct (String.eqb_spec (status analysis) "completed");
         [contradiction|reflexivity]. }
  destruct (collect_reviews analysis) as [|r rs] eqn:HR.
  { left. unfold submit_feedback. rewrite HQ, HS, HR. reflexivity. }
  right. exists analysis. apply submit_feedback_table; try assumption.
  rewrite HR. discriminate.
Qed.

Lemma submit_feedback_binary (analyses : list Analysis)
      (table : list FeedbackRow) (request : FeedbackRequest) :
  Facts.binary_tags table ->
  Facts.binary_tags (snd (submit_feedback analyses table request)).
Proof.
  intros B.
  destruct (submit_feedback_cases analyses table request) as [->|[a ->]];
    [exact B|].
  apply Forall_app. split; [|apply feedback_set_binary].
  unfold Spec.other_rows. apply Forall_forall. intros row Hin.
  apply filter_In in Hin. destruct Hin as [Hin _].
  exact (proj1 (Forall_forall _ _) B row Hin).
Qed.

(** X16.  Submissions keep the labels binary, so the statistics add up:
    starting from a table whose labels are all 0 or 1, after any sequence
    of feedback requests every label is 0 or 1 and [total] is
    [helpful + unhelpful]. *)
Theorem feedback_stats_add_up
        (analyses : list Analysis) (table : list FeedbackRow)
        (requests : list FeedbackRequest) :
  Facts.binary_tags table ->
  let table' := submit_all analyses table requests in
  Facts.binary_tags table' /\
  total (get_feedback_stats table')
  = helpful (get_feedback_stats table')
    + unhelpful (get_feedback_stats table').
Proof.
  intros B. cbv zeta.
  assert (B' : Facts.binary_tags (submit_all analyses table requests)).
  { unfold submit_all. revert table B.
    induction requests as [|r rs IH]; intros table B; [exact B|].
    cbn [fold_left]. apply IH. now apply submit_feedback_binary. }
  split; [exact B'|].
  cbn [get_feedback_stats total helpful unhelpful].
  pose proof (binary_tags_counted _ B'). lia.
Qed.

Lemma labeled_rows_of_text (request : FeedbackRequest) (avg : Q) (us : Z)
      (reviews : list Review) :
  (forall score,
      apply_strategy (strategy request) score avg us <> None) ->
  PyNum.len (flat_map (Spec.labeled_rows request avg us) reviews)
  = PyNum.len (Facts.with_text reviews).
Proof.
  intros T. unfold Facts.with_text, Facts.feedback_text.
  induction reviews as [|r rs IH]; [reflexivity|].
  cbn [flat_map filter]. rewrite len_app, IH.
  unfold Spec.labeled_rows at 1.
  destruct (truthy _); cbn [negb]; [|reflexivity].
  destruct (apply_strategy _ _ _ _) eqn:E; [|now apply T in E].
  unfold PyNum.len. cbn [List.length]. lia.
Qed.

(** X17.  Only the extreme strategy leaves reviews out: under any other
    strategy string an answered submission skips no review and stores one
    row for every review that has a text. *)
Theorem only_extreme_skips
        (analyses : list Analysis) (table : list FeedbackRow)
        (request : FeedbackRequest) (analysis : Analysis)
        (response : FeedbackResponse) :
  strategy request <> "extreme"%string ->
  query_analysis analyses (req_analysis_id request) = Some analysis ->
  fst (submit_feedback analyses table request) = Ok response ->
  skipped (strategy_info response) = 0 /\
  saved (strategy_info response)
  = PyNum.len (Facts.with_text (collect_reviews analysis)) /\
  PyNum.len (Spec.rows_of (req_analysis_id request)
               (snd (submit_feedback analyses table request)))
  = PyNum.len (Facts.with_text (collect_reviews analysis)).
Proof.
  intros NE HQ HOk.
  assert (V : status analysis = "completed"%string
              /\ collect_reviews analysis <> []).
  { revert HOk. unfold submit_feedback. rewrite HQ.
    destruct (String.eqb_spec (status analysis) "completed") as [E|N];
      cbn [negb]; [|discriminate].
    destruct (collect_reviews analysis); [discriminate|].
    intros _. split; [exact E|discriminate]. }
  destruct V as [HS HR].
  pose proof (submit_feedback_answer _ table _ _ HQ HS HR) as A.
  rewrite HOk in A. cbv zeta in A.
  destruct A as (_ & _ & _ & _ & _ & S & K & _ & _).
  rewrite (submit_feedback_table _ _ _ _ HQ HS HR).
  destruct (rows_of_replaced (req_analysis_id request) table
              (Spec.feedback_set analysis request)
              (feedback_set_batch analysis request)) as [R _].
  rewrite R.
  assert (L : PyNum.len (Spec.feedback_set analysis request)
              = PyNum.len (Facts.with_text (collect_reviews analysis))).
  { unfold Spec.feedback_set. apply labeled_rows_of_text.
    intros score. unfold apply_strategy, smart_label_hybrid.
    destruct (strategy request =? "weak")%string; [discriminate|].
    destruct (strategy request =? "hybrid")%string.
    { repeat match goal with
        | |- context [if ?c then _ else _] => destruct c
        end; discriminate. }
    destruct (String.eqb_spec (strategy request) "extreme");
      [contradiction|].
    destruct (strategy request =? "relative")%string; [discriminate|].
    repeat match goal with
      | |- context [if ?c then _ else _] => destruct c
      end; discriminate. }
  repeat split; lia.
Qed.

End EndpointEdges.

(** ** Strategies outside the documented four, at the endpoint *)

Section UnknownStrategy.

Import Feedback FeedbackStats.

Lemma smart_label_hybrid_some (score avg : Q) (us : Z) :
  exists l, smart_label_hybrid score avg us = Some l.
Proof.
  unfold smart_label_hybrid.
  repeat match goal with
    | |- context [if ?c then _ else _] => destruct c
    end; eexists; reflexivity.
Qed.

(** The row stored for a review under a strategy that labels as the
    hybrid one does. *)
Lemma labeled_rows_hybrid (request : FeedbackRequest) (avg : Q) (us : Z)
      (reviews : list Review) :
  (forall score,
      apply_strategy (strategy request) score avg us
      = smart_label_hybrid score avg us) ->
  Forall2 (fun review row =>
             review_text row = Facts.feedback_text review /\
             original_score row = get_score review /\
             labeling_strategy row = strategy request /\
             Some (tags row) = smart_label_hybrid (get_score review) avg us)
          (Facts.with_text reviews)
          (flat_map (Spec.labeled_rows request avg us) reviews).
Proof.
  intros U. unfold Facts.with_text.
  induction reviews as [|r rs IH]; [constructor|].
  cbn [flat_map filter]. unfold Spec.labeled_rows at 1.
  fold (Facts.feedback_text r).
  destruct (truthy (Facts.feedback_text r)); cbn [negb]; [|exact IH].
  rewrite U. destruct (smart_label_hybrid_some (get_score r) avg us)
    as [l E].
  rewrite E. cbn [app]. constructor; [|exact IH].
  cbn [review_text original_score labeling_strategy tags].
  repeat split. now rewrite E.
Qed.

(** The average the endpoint reports is the one it labeled with. *)
Lemma submit_feedback_average (analyses : list Analysis)
      (table : list FeedbackRow) (request : FeedbackRequest)
      (analysis : Analysis) (response : FeedbackResponse) :
  query_analysis analyses (req_analysis_id request) = Some analysis ->
  fst (submit_feedback analyses table request) = Ok response ->
  average_score (strategy_info response)
  = PyNum.mean (map get_score (collect_reviews analysis)).
Proof.
  intros HQ. unfold submit_feedback. rewrite HQ.
  destruct (negb _); [discriminate|].
  destruct (collect_reviews analysis) as [|r rs]; [discriminate|].
  destruct (label_loop _ _ _ _ _) as [st|e]; [|discriminate].
  destruct (label st); [|discriminate].
  cbn [fst]. intros [= <-]. reflexivity.
Qed.

(** C10.  A strategy string other than "weak", "hybrid", "extreme" and
    "relative" is accepted and labeled by [smart_label_hybrid].  For
    every request with such a string: the request is answered as the
    same request with strategy "hybrid" is, an error only where that one
    is an error, and it leaves the rows the hybrid request leaves, up to
    the strategy name recorded in them.  And for a completed analysis
    with a review that has a text: the request is answered without an
    error, no review is skipped, the rows of other batches are kept, and
    the batch gets one row for every review with a text, recording the
    string as sent and carrying the label [smart_label_hybrid] gives the
    review's score at the average the endpoint reports. *)
Theorem unknown_strategy_labels_as_hybrid
        (analyses : list Analysis) (table : list FeedbackRow)
        (request : FeedbackRequest) :
  strategy request <> "weak"%string ->
  strategy request <> "hybrid"%string ->
  strategy request <> "extreme"%string ->
  strategy request <> "relative"%string ->
  let hybrid_request :=
    mkFeedbackRequest (req_analysis_id request) (is_helpful request)
                      "hybrid" in
  let answer := submit_feedback analyses table request in
  let hybrid_answer := submit_feedback analyses table hybrid_request in
  let user_satisfaction := if is_helpful request then 1 else 0 in
  (forall score avg us,
      apply_strategy (strategy request) score avg us
      = smart_label_hybrid score avg us) /\
  Spec.same_answer (fst answer) (fst hybrid_answer) /\
  map Spec.without_strategy (snd answer)
  = map Spec.without_strategy (snd hybrid_answer) /\
  map tags (snd answer) = map tags (snd hybrid_answer) /\
  forall analysis,
    query_analysis analyses (req_analysis_id request) = Some analysis ->
    status analysis = "completed"%string ->
    Facts.with_text (collect_reviews analysis) <> [] ->
    exists response,
      fst answer = Ok response /\
      success response = true /\
      info_strategy (strategy_info response) = strategy request /\
      skipped (strategy_info response) = 0 /\
      saved (strategy_info response)
      = PyNum.len (Facts.with_text (collect_reviews analysis)) /\
      Spec.other_rows (req_analysis_id request) (snd answer)
      = Spec.other_rows (req_analysis_id request) table /\
      Forall2 (fun review row =>
                 review_text row = Facts.feedback_text review /\
                 original_score row = get_score review /\
                 labeling_strategy row = strategy request /\
                 Some (tags row)
                 = smart_label_hybrid
                     (get_score review)
                     (average_score (strategy_info response))
                     user_satisfaction)
              (Facts.with_text (collect_reviews analysis))
              (Spec.rows_of (req_analysis_id request) (snd answer)).
Proof.
  intros W H E R hybrid_request answer hybrid_answer user_satisfaction.
  pose proof (apply_strategy_unknown _ W H E R) as U.
  split; [exact U|].
  destruct (submit_feedback_alike request hybrid_request
              eq_refl eq_refl (fun score avg us => U score avg us)
              analyses table) as [A T].
  split; [exact A|]. split; [exact T|]. split.
  { fold answer hybrid_answer in T.
    assert (G : forall rows,
               map tags rows
               = map (fun t => snd (fst (fst t)))
                     (map Spec.without_strategy rows)).
    { intros rows. rewrite map_map. reflexivity. }
    now rewrite (G (snd answer)), (G (snd hybrid_answer)), T. }
  intros analysis HQ HS HT.
  assert (HR : collect_reviews analysis <> []).
  { intros N. rewrite N in HT. now apply HT. }
  pose proof (submit_feedback_answer _ table _ _ HQ HS HR) as SA.
  pose proof (submit_feedback_table _ table _ _ HQ HS HR) as ST.
  fold answer in SA, ST.
  destruct (fst answer) as [response|e] eqn:EA;
    [|now destruct SA as [N _]].
  cbv zeta in SA. destruct SA as (_ & S & _ & I & _ & SV & SK & _ & _).
  pose proof (submit_feedback_average _ table _ _ _ HQ EA) as AV.
  destruct (rows_of_replaced (req_analysis_id request) table
              (Spec.feedback_set analysis request)
              (feedback_set_batch analysis request)) as [RO OT].
  pose proof (labeled_rows_hybrid request
                (PyNum.mean (map get_score (collect_reviews analysis)))
                user_satisfaction (collect_reviews analysis)
                (fun score => U score _ _)) as F.
  fold (Spec.feedback_set analysis request) in F.
  assert (L : PyNum.len (Spec.feedback_set analysis request)
              = PyNum.len (Facts.with_text (collect_reviews analysis))).
  { unfold PyNum.len. now rewrite (Forall2_length F). }
  exists response. split; [reflexivity|]. split; [exact S|].
  split; [exact I|]. split; [lia|]. split; [lia|].
  rewrite ST, RO, OT, AV. split; [reflexivity|exact F].
Qed.

End UnknownStrategy.

Section EndpointExamples.

Import Feedback FeedbackStats Examples Samples.

Lemma rejected_submission_changes_nothing_witness :
  submit_feedback [] old_table (request true "hybrid")
  = (Raise (HTTPException 404 "분석 결과를 찾을 수 없습니다."), old_table).
Proof.
  apply (proj1 (rejected_submission_changes_nothing
                  [] old_table (request true "hybrid"))).
  reflexivity.
Defined.

Lemma feedback_counts_match_table_witness :
  exists response,
    fst (submit_feedback [analysis7] old_table (request true "extreme"))
    = Ok response /\
    feedback_count response
    = PyNum.len (Spec.rows_of 7
                   (snd (submit_feedback [analysis7] old_table
                                         (request true "extreme")))).
Proof.
  eexists. split.
  - vm_compute. reflexivity.
  - refine (proj1 (feedback_counts_match_table
                     [analysis7] old_table (request true "extreme")
                     analysis7 _ eq_refl _)).
    vm_compute. reflexivity.
Defined.

Lemma textless_batch_loses_its_feedback_witness :
  submit_feedback [textless7] old_table (request true "hybrid")
  = (Raise (HTTPException 500 "피드백 저장 중 오류"),
     Spec.other_rows 7 old_table).
Proof.
  refine (proj1 (textless_batch_loses_its_feedback
                   [textless7] old_table (request true "hybrid") textless7
                   eq_refl eq_refl _) _).
  - vm_compute. discriminate.
  - reflexivity.
Defined.

Lemma feedback_stats_add_up_witness :
  let table' :=
    submit_all [analysis7] old_table
               [request true "extreme"; request false "relative"] in
  Facts.binary_tags table' /\
  total (get_feedback_stats table')
  = helpful (get_feedback_stats table')
    + unhelpful (get_feedback_stats table').
Proof.
  apply feedback_stats_add_up.
  constructor; [right; reflexivity|].
  constructor; [left; reflexivity|constructor].
Defined.

Lemma only_extreme_skips_witness :
  exists response,
    fst (submit_feedback [analysis7] old_table (request false "relative"))
    = Ok response /\
    skipped (strategy_info response) = 0.
Proof.
  eexists. split.
  - vm_compute. reflexivity.
  - refine (proj1 (only_extreme_skips
                     [analysis7] old_table (request false "relative")
                     analysis7 _ _ eq_refl _)).
    + discriminate.
    + vm_compute. reflexivity.
Defined.

(** An unknown strategy string on the batch with scores 90, 10 and 50
    and a satisfied user. *)
Lemma unknown_strategy_labels_as_hybrid_witness :
  exists response,
    fst (submit_feedback [analysis7] old_table (request true "bogus"))
    = Ok response /\
    skipped (strategy_info response) = 0 /\
    saved (strategy_info response) = 3.
Proof.
  destruct (proj2 (proj2 (proj2 (proj2
              (unknown_strategy_labels_as_hybrid
                 [analysis7] old_table (request true "bogus")
                 ltac:(discriminate) ltac:(discriminate)
                 ltac:(discriminate) ltac:(discriminate)))))
              analysis7 eq_refl eq_refl ltac:(vm_compute; discriminate))
    as (response & A & _ & _ & K & S & _).
  exists response. split; [exact A|]. split; [exact K|exact S].
Defined.

(** The labels that request stores are those of the hybrid strategy:
    1, 0 and 0 (50 is not above the average 50). *)
Example unknown_strategy_stores_hybrid_labels :
  map (fun row => (tags row, labeling_strategy row))
      (Spec.rows_of 7
         (snd (submit_feedback [analysis7] old_table
                               (request true "bogus"))))
  = [(1, "bogus"%string); (0, "bogus"%string); (0, "bogus"%string)].
Proof. vm_compute. reflexivity. Qed.

End EndpointExamples.

(** ** Retraining: the merged dataset and the life of a job *)

Section TrainingFacts.

Import TrainModel.

Lemma count_label_tagged (l : Z) (source : string) (df : DataFrame) :
  count_label l (tag_source source df) = Facts.count_in l df.
Proof.
  unfold count_label, Facts.count_in, tag_source, PyNum.len. f_equal.
  induction df as [|row df IH]; [reflexivity|].
  cbn [map filter]. unfold label_of at 1. cbn [fst snd].
  destruct (snd row =? l); cbn [List.length]; now rewrite IH.
Qed.

Lemma count_label_app (l : Z) (xs ys : Combined) :
  count_label l (xs ++ ys) = count_label l xs + count_label l ys.
Proof.
  unfold count_label, PyNum.len. rewrite filter_app, length_app. lia.
Qed.

Lemma combine_data_value (original feedback : option DataFrame) :
  combine_data original feedback =
    match Facts.frame original, Facts.frame feedback with
    | [], [] => Raise (ValueError "병합할 데이터가 없습니다!")
    | o, f => Ok (tag_source "original" o ++ tag_source "feedback" f)
    end.
Proof.
  unfold combine_data, append_dataset, Facts.frame.
  destruct original as [[|a o]|], feedback as [[|b f]|];
    cbn [app List.concat tag_source map]; rewrite ?app_nil_r; reflexivity.
Qed.

(** X18.  Merging loses nothing and invents nothing: when [combine_data]
    returns, the merged data are the original examples followed by the
    feedback examples, each tagged with its provenance, so sizes and
    per-label counts add up; it raises exactly when both parts are missing
    or empty. *)
Theorem combine_data_keeps_every_example
        (original feedback : option DataFrame) :
  let o := Facts.frame original in
  let f := Facts.frame feedback in
  (o = [] /\ f = [] <->
   combine_data original feedback
   = Raise (ValueError "병합할 데이터가 없습니다!")) /\
  (forall combined,
      combine_data original feedback = Ok combined ->
      combined = tag_source "original" o ++ tag_source "feedback" f /\
      map fst combined = o ++ f /\
      PyNum.len combined = PyNum.len o + PyNum.len f /\
      forall l,
        count_label l combined = Facts.count_in l o + Facts.count_in l f).
Proof.
  cbv zeta. rewrite combine_data_value. split.
  - destruct (Facts.frame original), (Facts.frame feedback); split;
      try discriminate; try (intros [? ?]; discriminate); auto.
  - intros combined H.
    assert (E : combined
                = tag_source "original" (Facts.frame original)
                  ++ tag_source "feedback" (Facts.frame feedback)).
    { destruct (Facts.frame original), (Facts.frame feedback);
        try discriminate; now apply Ok_inj in H. }
    split; [exact E|]. subst combined. repeat split.
    + unfold tag_source. rewrite map_app, !map_map. cbn [fst].
      now rewrite !map_id.
    + unfold PyNum.len, tag_source. rewrite length_app, !length_map. lia.
    + intros l. now rewrite count_label_app, !count_label_tagged.
Qed.

Lemma combine_data_keeps_every_example_witness :
  PyNum.len (Examples.merged 57 3) = 60.
Proof.
  destruct (proj2 (combine_data_keeps_every_example
                     (Examples.training_set 57 3) None)
                  (Examples.merged 57 3) eq_refl) as (_ & _ & L & _).
  exact L.
Defined.

Variable original_data : option DataFrame.
Variable fit_and_evaluate : Combined -> Result Metrics.

Local Abbreviation train :=
  (train_random_forest original_data fit_and_evaluate).

(** X19.  What a training run returns agrees with the row of its job.
    For a job of the table: when the run returns a success, the job is
    completed, the dataset had passed both gates, the fit had returned,
    the accuracies returned are those of the fit, and the model file and
    its metadata were written; when it returns a failure, the job is
    failed with the reason returned.  For a job id that is not in the
    table the run returns a failure and changes nothing. *)
Theorem training_ends_the_job (id : Z) (output_dir : string) (st : State) :
  let result := fst (train id output_dir st) in
  let st' := snd (train id output_dir st) in
  match query_job id (jobs st) with
  | None => result = TrainFailure (ExceptionText AttributeError) /\ st' = st
  | Some job =>
      exists job',
        query_job id (jobs st') = Some job' /\
        match result with
        | TrainSuccess acc cv =>
            status job' = "completed"%string /\
            error_message job' = error_message job /\
            files st'
            = files st ++ [(output_dir ++ "/random_forest_model.pkl")%string;
                           (output_dir ++ "/metadata.json")%string] /\
            exists combined m,
              combine_data original_data
                           (load_feedback_data (feedbacks st)) = Ok combined /\
              100 <= PyNum.len combined /\
              5 <= count_label 1 combined /\
              5 <= count_label 0 combined /\
              fit_and_evaluate combined = Ok m /\
              acc = val_accuracy m /\ cv = cv_accuracy m
        | TrainFailure reason =>
            status job' = "failed"%string /\
            error_message job' = Some reason
        end
  end.
Proof.
  cbv zeta. unfold train_random_forest.
  destruct (query_job id (jobs st)) as [job|] eqn:Q.
  2: { unfold training_failed. rewrite Q. split; reflexivity. }
  set (running := with_jobs st _).
  assert (R : query_job id (jobs running)
              = Some (set_status "running" None job)).
  { subst running. cbn [jobs with_jobs]. now apply query_update_job. }
  assert (F : forall reason,
             exists job',
               query_job id (jobs (fail_job id reason running)) = Some job' /\
               status job' = "failed"%string /\
               error_message job' = Some reason).
  { intros reason. eexists. split.
    - unfold fail_job, with_jobs. cbn [jobs].
      apply (query_update_job _ _ _ _ R). reflexivity.
    - repeat split. }
  cbn [feedbacks running with_jobs].
  destruct (combine_data _ _) as [combined|e].
  - destruct (Z.ltb_spec (PyNum.len combined) 100) as [L|L];
      [cbn [fst snd]; apply F|].
    destruct (Z.ltb_spec (count_label 1 combined) 5) as [L1|L1];
      [cbn [orb fst snd]; apply F|].
    destruct (Z.ltb_spec (count_label 0 combined) 5) as [L0|L0];
      [cbn [orb fst snd]; apply F|].
    cbn [orb]. destruct (fit_and_evaluate combined) as [m|e] eqn:EF.
    + cbn [fst snd jobs files with_jobs]. eexists. split.
      * apply (query_update_job _ _ _ _ R). reflexivity.
      * cbn [status error_message set_status]. repeat split.
        exists combined, m. repeat split; assumption.
    + unfold training_failed. fold running. rewrite R. cbn [fst snd].
      apply F.
  - unfold training_failed. fold running. rewrite R. cbn [fst snd]. apply F.
Qed.

End TrainingFacts.

(** ** Model versions and jobs across a pass *)

Section VersionFacts.

Import TrainModel.








Variable original_data : option DataFrame.
Variable fit_and_evaluate : Combined -> Result Metrics.
Variable next_version : string -> Result string.
Variable output_dir_of : AIJob -> string.

Local Abbreviation process_job :=
  (TrainModel.process_job original_data fit_and_evaluate next_version
                          output_dir_of).
Local Abbreviation process_jobs :=
  (TrainModel.process_jobs original_data fit_and_evaluate next_version
                           output_dir_of).
Local Abbreviation check_and_process_jobs :=
  (TrainModel.check_and_process_jobs original_data fit_and_evaluate
                                     next_version output_dir_of).





(** *** Without an active version *)

Lemma query_after_update (id id' : Z) (f : AIJob -> AIJob)
      (js : list AIJob) :
  (forall j, job_id (f j) = job_id j) ->
  query_job id (update_job id' f js) =
    if id =? id' then option_map f (query_job id js) else query_job id js.
Proof.
  intros F. unfold query_job. induction js as [|j js IH].
  - cbn. now destruct (id =? id').
  - cbn [update_job find]. destruct (Z.eqb_spec (job_id j) id') as [E|N].
    + cbn [find]. rewrite F. destruct (Z.eqb_spec id id') as [->|N'].
      * rewrite E, Z.eqb_refl. reflexivity.
      * destruct (Z.eqb_spec (job_id j) id); [congruence|reflexivity].
    + cbn [find]. destruct (Z.eqb_spec (job_id j) id) as [E|N'].
      * destruct (Z.eqb_spec id id'); [congruence|reflexivity].
      * exact IH.
Qed.

Lemma orphaned_pass (pending : list AIJob) :
  forall st,
    query_active (models st) = None ->
    let st' := process_jobs pending st in
    models st' = models st /\ files st' = files st /\
    feedbacks st' = feedbacks st /\
    forall id,
      query_job id (jobs st') =
        if existsb (fun p => job_id p =? id) pending
        then option_map Facts.fail_for_no_model (query_job id (jobs st))
        else query_job id (jobs st).
Proof.
  induction pending as [|p rest IH]; intros st QA.
  - cbn. repeat split.
  - cbn [TrainModel.process_jobs existsb]. unfold TrainModel.process_job.
    rewrite QA.
    destruct (IH (fail_job (job_id p) NoActiveModel st) QA)
      as (M & F & B & Q).
    cbv zeta. split; [exact M|]. split; [exact F|]. split; [exact B|].
    intros id. rewrite Q. unfold fail_job, with_jobs. cbn [jobs].
    rewrite (query_after_update id (job_id p) Facts.fail_for_no_model);
      [|reflexivity].
    rewrite (Z.eqb_sym (job_id p) id).
    destruct (id =? job_id p); cbn [orb]; [|reflexivity].
    destruct (query_job id (jobs st)) as [j|]; cbn [option_map];
      destruct (existsb _ rest); reflexivity.
Qed.

Lemma in_insert_by_time (j k : AIJob) (sorted : list AIJob) :
  In k (insert_by_time j sorted) <-> k = j \/ In k sorted.
Proof.
  induction sorted as [|s sorted IH]; cbn [insert_by_time].
  - cbn. intuition congruence.
  - destruct (submitted_at j <=? submitted_at s); cbn [In];
      [intuition congruence|]. rewrite IH. intuition congruence.
Qed.

Lemma in_order_by_submitted_at (k : AIJob) (js : list AIJob) :
  In k (order_by_submitted_at js) <-> In k js.
Proof.
  unfold order_by_submitted_at. induction js as [|j js IH]; [reflexivity|].
  cbn [fold_right In]. rewrite in_insert_by_time, IH. intuition congruence.
Qed.

(** X21.  Without an active model version nothing is trained: the pass
    marks every pending training job failed with the reason "no active
    model", leaves every other job, the model versions and the files as
    they were. *)
Theorem jobs_fail_without_active_model (st : State) :
  query_active (models st) = None ->
  let st' := check_and_process_jobs st in
  models st' = models st /\ files st' = files st /\
  (forall job,
      In job (jobs st) ->
      job_type job = "training"%string -> status job = "pending"%string ->
      exists job',
        query_job (job_id job) (jobs st') = Some job' /\
        status job' = "failed"%string /\
        error_message job' = Some NoActiveModel) /\
  (forall id,
      (forall job, In job (jobs st) -> job_id job = id ->
                   ~ (job_type job = "training"%string
                      /\ status job = "pending"%string)) ->
      query_job id (jobs st') = query_job id (jobs st)).
Proof.
  intros QA. cbv zeta. unfold TrainModel.check_and_process_jobs.
  destruct (orphaned_pass (pending_training_jobs (jobs st)) st QA)
    as (M & F & _ & Q).
  split; [exact M|]. split; [exact F|]. split.
  - intros job Hin T P. rewrite Q.
    assert (E : existsb (fun p => job_id p =? job_id job)
                        (pending_training_jobs (jobs st)) = true).
    { apply existsb_exists. exists job. split; [|apply Z.eqb_refl].
      unfold pending_training_jobs. apply in_order_by_submitted_at.
      apply filter_In. split; [exact Hin|]. now rewrite T, P. }
    rewrite E.
    destruct (query_job (job_id job) (jobs st)) as [j|] eqn:QJ.
    + eexists. split; [reflexivity|]. split; reflexivity.
    + exfalso. unfold query_job in QJ.
      pose proof (find_none _ _ QJ job Hin) as X. cbv beta in X.
      now rewrite Z.eqb_refl in X.
  - intros id H. rewrite Q.
    destruct (existsb _ _) eqn:E; [|reflexivity].
    exfalso. apply existsb_exists in E. destruct E as (p & Hp & Ep).
    unfold pending_training_jobs in Hp.
    apply in_order_by_submitted_at, filter_In in Hp.
    destruct Hp as [Hin C]. apply andb_true_iff in C.
    destruct C as [T P]. apply String.eqb_eq in T, P.
    apply (H p Hin); [now apply Z.eqb_eq|now split].
Qed.

End VersionFacts.

Section VersionExamples.

Import TrainModel Examples Samples.


Lemma jobs_fail_without_active_model_witness :
  exists job',
    query_job 3 (jobs (check_and_process_jobs (training_set 100 100) fit bump
                                               dir_of orphaned))
    = Some job' /\
    status job' = "failed"%string /\
    error_message job' = Some NoActiveModel.
Proof.
  refine (proj1 (proj2 (proj2 (jobs_fail_without_active_model
                                 (training_set 100 100) fit bump dir_of
                                 orphaned eq_refl)))
                (mkAIJob 3 "training" "pending" 10 None) _ eq_refl eq_refl).
  right. right. left. reflexivity.
Defined.

End VersionExamples.

(** ** The bearer token of a request *)

Section TokenFacts.

Import AuthService.

Lemma split_first_piece (sep : N) (s : pystr) :
  exists piece pieces,
    split sep s = piece :: pieces /\
    ~ In sep piece /\
    (s = piece \/ exists tail, s = piece ++ sep :: tail).
Proof.
  induction s as [|c s (piece & pieces & E & N & T)].
  - exists [], []. repeat split; [intros []|now left].
  - cbn [split]. destruct (N.eqb_spec c sep) as [->|D].
    + exists [], (split sep s). repeat split; [intros []|].
      right. now exists s.
    + rewrite E. exists (c :: piece), pieces. repeat split.
      * intros [H|H]; [now apply D|now apply N].
      * destruct T as [->|[tail ->]]; [now left|right; now exists tail].
Qed.

Lemma split_token (sep : N) (token : pystr) :
  ~ In sep token ->
  split sep token = [token] /\
  forall tail, split sep (token ++ sep :: tail) = token :: split sep tail.
Proof.
  induction token as [|c token IH]; intros N.
  - split; [reflexivity|]. intros tail. cbn [app split].
    now rewrite N.eqb_refl.
  - destruct IH as [E T]; [intros H; apply N; now right|].
    assert (D : (c =? sep)%N = false).
    { apply N.eqb_neq. intros ->. apply N. now left. }
    split; [|intros tail]; cbn [app split]; rewrite D;
      [now rewrite E|now rewrite T].
Qed.

Lemma bearer_header (rest : pystr) :
  extract_token_from_header (Some (Facts.bearer ++ rest))
  = nth_error (split space rest) 0.
Proof.
  unfold extract_token_from_header.
  change (u "Bearer ") with Facts.bearer.
  assert (S : startswith (Facts.bearer ++ rest) Facts.bearer = true)
    by (apply startswith_prefix; now exists rest).
  rewrite S. cbn [truthy Facts.bearer app negb orb].
  change (66 :: 101 :: 97 :: 114 :: 101 :: 114 :: 32 :: rest)%N
    with ([66; 101; 97; 114; 101; 114]%N ++ space :: rest).
  rewrite (proj2 (split_token space [66; 101; 97; 114; 101; 114]%N
                    ltac:(vm_compute; intuition discriminate))).
  reflexivity.
Qed.

(** X22.  The token comes back out of a well-formed header: for a token
    without a space, ["Bearer " + token] yields the token, also when more
    follows after a space.  A missing or empty header yields [None], and
    whatever is returned has no space in it and stands right after
    ["Bearer "] in the header. *)
Theorem bearer_token_round_trip :
  (forall token,
      ~ In space token ->
      extract_token_from_header (Some (u "Bearer " ++ token)) = Some token /\
      forall tail,
        extract_token_from_header
          (Some (u "Bearer " ++ token ++ space :: tail)) = Some token) /\
  extract_token_from_header None = None /\
  extract_token_from_header (Some []) = None /\
  (forall header token,
      extract_token_from_header header = Some token ->
      ~ In space token /\
      exists rest, header = Some (u "Bearer " ++ token ++ rest)).
Proof.
  change (u "Bearer ") with Facts.bearer.
  split; [|split; [reflexivity|split; [reflexivity|]]].
  - intros token N. destruct (split_token space token N) as [E T].
    split; [|intros tail]; rewrite bearer_header; [now rewrite E|].
    now rewrite T.
  - intros [header|] token; [|discriminate].
    unfold extract_token_from_header. change (u "Bearer ") with Facts.bearer.
    destruct (truthy header); [|discriminate].
    destruct (startswith header Facts.bearer) eqn:S; [|discriminate].
    apply startswith_prefix in S. destruct S as [rest ->].
    cbn [negb orb]. intros H.
    pose proof (bearer_header rest) as B.
    unfold extract_token_from_header in B. change (u "Bearer ") with Facts.bearer in B.
    assert (S : startswith (Facts.bearer ++ rest) Facts.bearer = true)
      by (apply startswith_prefix; now exists rest).
    rewrite S in B. cbn [truthy Facts.bearer app negb orb] in B.
    cbn [Facts.bearer app] in H. rewrite B in H.
    destruct (split_first_piece space rest) as (piece & pieces & E & N & T).
    rewrite E in H. cbn [nth_error] in H. injection H as <-.
    split; [exact N|].
    destruct T as [->|[tail ->]].
    + exists []. now rewrite app_nil_r.
    + now exists (space :: tail).
Qed.

Lemma bearer_token_round_trip_witness :
  extract_token_from_header (Some (u "Bearer " ++ u "abc.def.ghi"))
  = Some (u "abc.def.ghi").
Proof.
  apply (proj1 (proj1 bearer_token_round_trip (u "abc.def.ghi")
                      ltac:(vm_compute; intuition discriminate))).
Defined.

End TokenFacts.

(** ** From stored feedback to training data *)

Section FeedbackToTraining.

Import TrainModel FeedbackStats.

Lemma frame_of_feedback (table : list Feedback.FeedbackRow) :
  Facts.frame (load_feedback_data table)
  = map (fun f => (Feedback.review_text f, Feedback.tags f)) table.
Proof. now destruct table. Qed.

Lemma count_in_feedback (l : Z) (table : list Feedback.FeedbackRow) :
  Facts.count_in l
    (map (fun f => (Feedback.review_text f, Feedback.tags f)) table)
  = count_tags l table.
Proof.
  unfold Facts.count_in, count_tags, PyNum.len. f_equal.
  induction table as [|row table IH]; [reflexivity|].
  cbn [map filter snd]. destruct (Feedback.tags row =? l);
    cbn [List.length]; now rewrite IH.
Qed.

(** X23.  Every stored feedback row becomes one training example: when
    the merge for retraining returns, its size is the size of the original
    set plus [total] of the feedback statistics, and its counts of label 1
    and label 0, which the class gate tests, are the original counts plus
    [helpful] and [unhelpful]. *)
Theorem feedback_rows_become_examples
        (original : option DataFrame) (table : list Feedback.FeedbackRow)
        (combined : Combined) :
  combine_data original (load_feedback_data table) = Ok combined ->
  let stats := get_feedback_stats table in
  PyNum.len combined = PyNum.len (Facts.frame original) + total stats /\
  count_label 1 combined
  = Facts.count_in 1 (Facts.frame original) + helpful stats /\
  count_label 0 combined
  = Facts.count_in 0 (Facts.frame original) + unhelpful stats /\
  map fst (skipn (List.length (Facts.frame original)) combined)
  = map (fun f => (Feedback.review_text f, Feedback.tags f)) table.
Proof.
  rewrite combine_data_value, frame_of_feedback. intros H.
  assert (E : combined
              = tag_source "original" (Facts.frame original)
                ++ tag_source "feedback"
                     (map (fun f => (Feedback.review_text f, Feedback.tags f))
                          table)).
  { destruct (Facts.frame original), (map _ table);
      try discriminate; now apply Ok_inj in H. }
  subst combined. cbv zeta.
  cbn [get_feedback_stats total helpful unhelpful].
  rewrite !count_label_app, !count_label_tagged, !count_in_feedback.
  repeat split.
  - unfold PyNum.len, tag_source. rewrite length_app, !length_map. lia.
  - assert (L : List.length (Facts.frame original)
                = List.length (tag_source "original" (Facts.frame original)))
      by (unfold tag_source; now rewrite length_map).
    rewrite L, skipn_app, skipn_all, Nat.sub_diag. cbn [app skipn].
    unfold tag_source. rewrite map_map. cbn [fst]. apply map_id.
Qed.

Lemma feedback_rows_become_examples_witness :
  count_label 1 (Examples.merged 57 3
                 ++ tag_source "feedback"
                      [(u "재질이 좋아요", 1)])
  = Facts.count_in 1 (Facts.frame (Examples.training_set 57 3))
    + helpful (get_feedback_stats Samples.stored).
Proof.
  refine (proj1 (proj2 (feedback_rows_become_examples
                          (Examples.training_set 57 3) Samples.stored _ _))).
  vm_compute. reflexivity.
Defined.

End FeedbackToTraining.

(* ================================================================== *)
(** * The scoring rules and the verdict in binary64 *)

(** ** The order of binary64 *)

Section FloatOrder.

Import Binary64.

Lemma compare_antisym (x y : float) :
  SFcompare y x = option_map CompOpp (SFcompare x y).
Proof.
  destruct x as [sx|sx| |sx mx ex], y as [sy|sy| |sy my ey];
    cbn [SFcompare option_map]; try reflexivity;
    try (destruct sx; reflexivity); try (destruct sy; reflexivity);
    try (destruct sx, sy; reflexivity).
  pose proof (Pos.compare_cont_antisym mx my Eq) as A.
  cbn [CompOpp] in A.
  destruct sx, sy; cbn [CompOpp]; try reflexivity;
    rewrite (Z.compare_antisym ex ey), <- A;
    destruct (ex ?= ey); cbn [CompOpp]; try reflexivity;
    destruct (Pos.compare_cont Eq mx my); reflexivity.
Qed.

(** [x <= y] excludes [y < x]. *)
Lemma le_not_gt (x y : float) : leb x y = true -> ltb y x = false.
Proof.
  unfold leb, ltb, SFleb, SFltb. rewrite (compare_antisym x y).
  destruct (SFcompare x y) as [[| |]|]; cbn; congruence.
Qed.

(** Numbers compare. *)
Lemma compare_numbers (x y : float) :
  x <> S754_nan -> y <> S754_nan -> exists c, SFcompare x y = Some c.
Proof.
  intros X Y. destruct x, y; try contradiction; cbn [SFcompare];
    eexists; reflexivity.
Qed.

(** Among numbers, [x <= y] or [y < x]. *)
Lemma not_gt_le (x y : float) :
  x <> S754_nan -> y <> S754_nan -> ltb y x = false -> leb x y = true.
Proof.
  intros X Y. unfold leb, ltb, SFleb, SFltb. rewrite (compare_antisym x y).
  destruct (compare_numbers x y X Y) as [c ->].
  destruct c; cbn; congruence.
Qed.

Lemma not_ge_lt (x y : float) :
  x <> S754_nan -> y <> S754_nan -> leb y x = false -> ltb x y = true.
Proof.
  intros X Y. unfold leb, ltb, SFleb, SFltb. rewrite (compare_antisym x y).
  destruct (compare_numbers x y X Y) as [c ->].
  destruct c; cbn; congruence.
Qed.

(** Only numbers compare. *)
Lemma le_number (x y : float) : leb x y = true -> y <> S754_nan.
Proof. intros H ->. now destruct x. Qed.

Lemma of_int_number (n : Z) : -100 <= n <= 100 -> of_int n <> S754_nan.
Proof.
  intros H.
  assert (E : forallb (fun k =>
                         match of_int (Z.of_nat k - 100) with
                         | S754_nan => false
                         | _ => true
                         end) (seq 0 201) = true)
    by (vm_compute; reflexivity).
  rewrite forallb_forall in E.
  specialize (E (Z.to_nat (n + 100))).
  replace (Z.of_nat (Z.to_nat (n + 100)) - 100) with n in E by lia.
  intros N. rewrite N in E. assert (false = true); [|discriminate].
  apply E. apply in_seq. lia.
Qed.

(** The short-text test of rule 2, [min(len, 100) / 100.0 < 0.2], holds
    exactly for texts of fewer than 20 characters. *)
Lemma short_text (n : Z) :
  0 <= n ->
  ltb (FloatSpec.length_signal n) (decimal 2 10) = (n <? 20).
Proof.
  intros H. unfold FloatSpec.length_signal.
  assert (E : forallb (fun k =>
                         Bool.eqb (ltb (div (of_int (Z.of_nat k))
                                            (of_int 100))
                                       (decimal 2 10))
                                  (Z.of_nat k <? 20))
                      (seq 0 101) = true)
    by (vm_compute; reflexivity).
  rewrite forallb_forall in E.
  specialize (E (Z.to_nat (Z.min n 100))).
  rewrite Z2Nat.id in E by lia.
  rewrite (eqb_prop _ _ (E ltac:(apply in_seq; lia))).
  destruct (Z.ltb_spec (Z.min n 100) 20), (Z.ltb_spec n 20);
    try reflexivity; lia.
Qed.

End FloatOrder.

(** ** The scorer *)

Section FloatScorerFacts.

Import Binary64 FloatScorer.

Variable bert_model : pystr -> Result (list float).
Variable predict_proba : list float -> Result (list float).
Variable round : float -> Z -> float.

Local Abbreviation predict :=
  (FloatScorer.predict bert_model predict_proba round).

Lemma any_keyword_mentions (keywords : list pystr) (t : pystr) :
  ReviewScorer.any_keyword keywords t = true
  <-> FloatSpec.mentions keywords t.
Proof.
  unfold ReviewScorer.any_keyword, FloatSpec.mentions.
  rewrite existsb_exists.
  split; intros (k & Hin & H); exists k; (split; [exact Hin|]);
    now apply contains_occurs.
Qed.

Lemma float_predict_unfolded (t : pystr) (emb probs : list float)
      (p : float) :
  t <> [] ->
  bert_model t = Ok emb ->
  predict_proba (FloatSpec.features_of emb t) = Ok probs ->
  nth_error probs 1 = Some p ->
  predict t =
    let raw := mul p (of_int 100) in
    Ok (round
          (if negb (ReviewScorer.any_keyword ReviewScorer.PRODUCT_KEYWORDS t)
           then mul raw (decimal 25 100)
           else if ReviewScorer.any_keyword ReviewScorer.DELIVERY_KEYWORDS t
                   && ltb (FloatSpec.length_signal (PyNum.len t))
                          (decimal 2 10)
           then mul raw (decimal 1 10)
           else add (mul raw (decimal 85 100))
                    (mul (mul raw (decimal 15 100))
                         (FloatSpec.length_bonus (PyNum.len t))))
          1).
Proof.
  intros Ht Hb Hp Hn. unfold FloatScorer.predict, _extract_features.
  destruct t as [|c t']; [contradiction|]. set (t := c :: t') in *.
  cbn [truthy negb t]. fold t. rewrite Hb.
  unfold FloatSpec.features_of, FloatSpec.length_signal in Hp.
  rewrite Hp, Hn. cbv zeta.
  unfold FloatSpec.length_signal, FloatSpec.length_bonus.
  generalize (ReviewScorer.any_keyword ReviewScorer.PRODUCT_KEYWORDS t)
    as product.
  generalize (ReviewScorer.any_keyword ReviewScorer.DELIVERY_KEYWORDS t)
    as delivery.
  intros [|] [|]; reflexivity.
Qed.

(** C1.  For a non-empty text on which the embedding model and the
    classifier answer, with [p] the positive-class probability and
    [raw = p * 100], [predict] returns the piecewise formula, computed
    in binary64 as the code writes it, rounded to one decimal:
    [raw * 0.25] when no product keyword occurs in the text; otherwise
    [raw * 0.1] when a delivery keyword occurs and
    [min(len, 100) / 100 < 0.2], which is the case exactly for texts of
    fewer than 20 characters; otherwise
    [raw * 0.85 + raw * 0.15 * (min(len, 50) / 50)].  The conditions of
    the three rules exclude one another and the rules are tried in that
    order. *)
Theorem predict_follows_scoring_rules
        (t : pystr) (emb probs : list float) (p : float) :
  t <> [] ->
  bert_model t = Ok emb ->
  predict_proba (FloatSpec.features_of emb t) = Ok probs ->
  nth_error probs 1 = Some p ->
  let raw := mul p (of_int 100) in
  let n := PyNum.len t in
  let product := FloatSpec.mentions ReviewScorer.PRODUCT_KEYWORDS t in
  let delivery := FloatSpec.mentions ReviewScorer.DELIVERY_KEYWORDS t in
  let short := lt (FloatSpec.length_signal n) (decimal 2 10) in
  (short <-> n < 20) /\
  (~ product -> predict t = Ok (round (mul raw (decimal 25 100)) 1)) /\
  (product -> delivery /\ short ->
   predict t = Ok (round (mul raw (decimal 1 10)) 1)) /\
  (product -> ~ (delivery /\ short) ->
   predict t
   = Ok (round (add (mul raw (decimal 85 100))
                    (mul (mul raw (decimal 15 100))
                         (FloatSpec.length_bonus n))) 1)).
Proof.
  intros Ht Hb Hp Hn raw n product delivery short.
  rewrite (float_predict_unfolded t emb probs p Ht Hb Hp Hn).
  cbv zeta. fold raw n.
  assert (S : short <-> n < 20).
  { subst short. unfold lt. rewrite short_text by (unfold n, PyNum.len; lia).
    apply Z.ltb_lt. }
  split; [exact S|].
  pose proof (any_keyword_mentions ReviewScorer.PRODUCT_KEYWORDS t) as P.
  pose proof (any_keyword_mentions ReviewScorer.DELIVERY_KEYWORDS t) as D.
  fold product in P. fold delivery in D.
  destruct (ReviewScorer.any_keyword ReviewScorer.PRODUCT_KEYWORDS t);
    cbn [negb].
  - split; [intros N; contradiction N; now apply P|].
    destruct (ReviewScorer.any_keyword ReviewScorer.DELIVERY_KEYWORDS t);
      cbn [andb].
    + destruct (ltb (FloatSpec.length_signal n) (decimal 2 10)) eqn:L.
      * split; [reflexivity|]. intros _ N. contradiction N.
        split; [now apply D|exact L].
      * split; [|reflexivity]. intros _ [_ L']. unfold short, lt in L'.
        congruence.
    + split; [|reflexivity]. intros _ [D' _]. apply D in D'. discriminate.
  - split; [reflexivity|].
    split; intros P'; apply P in P'; discriminate.
Qed.

End FloatScorerFacts.

(** ** The analyzer *)

Section FloatAnalyzerFacts.

Import Binary64 FloatAnalyzer.

Variable scorer_predict : pystr -> Result float.
Variable round : float -> Z -> float.

Local Abbreviation score_review := (FloatAnalyzer.score_review scorer_predict).
Local Abbreviation score_all := (FloatAnalyzer.score_all scorer_predict).
Local Abbreviation analyze_reviews :=
  (FloatAnalyzer.analyze_reviews scorer_predict round).

Lemma score_all_ok (reviews : list Review) (scores : list float) :
  score_all reviews = Ok scores ->
  Forall2 (fun r s => score_review r = Ok s) reviews scores.
Proof.
  revert scores. induction reviews as [|r rs IH]; intros scores.
  - cbn. intros E. apply Ok_inj in E. subst. constructor.
  - cbn [FloatAnalyzer.score_all].
    destruct (score_review r) as [s|e] eqn:Er; [|discriminate].
    destruct (score_all rs) as [ss|e]; [|discriminate].
    intros E. apply Ok_inj in E. subst. constructor; [exact Er|now apply IH].
Qed.

Lemma float_enrich_all_ok (reviews : list Review) (scores : list float) :
  List.length reviews = List.length scores ->
  exists enriched,
    enrich_all reviews scores = Ok enriched /\
    map review enriched = reviews /\
    Forall2 (fun e s => e = enrich (review e) s) enriched scores.
Proof.
  revert scores. induction reviews as [|r rs IH]; intros [|s ss] L;
    try discriminate.
  - exists []. repeat split. constructor.
  - injection L as L. destruct (IH ss L) as (rest & E & M & F).
    exists (enrich r s :: rest). cbn [enrich_all]. rewrite E.
    assert (R : review (enrich r s) = r).
    { unfold enrich. now destruct (label_and_color s). }
    split; [reflexivity|]. split.
    + cbn [map]. now rewrite R, M.
    + constructor; [now rewrite R|exact F].
Qed.

Lemma float_enrich_banded (r : Review) (s : float) :
  FloatSpec.banded (enrich r s) s.
Proof.
  unfold FloatSpec.banded, enrich, label_and_color, geb, le, lt.
  assert (N76 : of_int 76 <> S754_nan) by (apply of_int_number; lia).
  destruct (leb (of_int 76) s) eqn:H76.
  - cbn [reliability_score analysis_label color_class].
    split; [reflexivity|]. split; [now split|].
    split; [|intros N; now contradiction N].
    intros [_ L]. apply le_not_gt in H76. congruence.
  - destruct (leb (of_int 36) s) eqn:H36;
      cbn [reliability_score analysis_label color_class];
      (split; [reflexivity|]); (split; [discriminate|]).
    + split; [now split|]. intros _ N. contradiction N.
      split; [reflexivity|].
      apply not_ge_lt; [exact (le_number _ _ H36)|exact N76|exact H76].
    + split; [intros [? _]; discriminate|now split].
Qed.

Lemma float_verdict_of_bands (avg_trust : float) :
  (lt (decimal 7 10) avg_trust ->
   fst (verdict_of avg_trust) = "safe"%string) /\
  (le (decimal 3 10) avg_trust /\ le avg_trust (decimal 7 10) ->
   fst (verdict_of avg_trust) = "suspicious"%string) /\
  (~ lt (decimal 7 10) avg_trust ->
   ~ (le (decimal 3 10) avg_trust /\ le avg_trust (decimal 7 10)) ->
   fst (verdict_of avg_trust) = "malicious"%string).
Proof.
  unfold verdict_of, gtb, geb, le, lt.
  assert (N7 : decimal 7 10 <> S754_nan) by (vm_compute; discriminate).
  destruct (ltb (decimal 7 10) avg_trust) eqn:H7.
  - split; [reflexivity|]. split; [|intros N; now contradiction N].
    intros [_ L]. apply le_not_gt in L. congruence.
  - split; [discriminate|].
    destruct (leb (decimal 3 10) avg_trust) eqn:H3; cbn [fst].
    + split; [reflexivity|]. intros _ N. contradiction N.
      split; [reflexivity|].
      apply not_gt_le; [exact (le_number _ _ H3)|exact N7|exact H7].
    + split; [intros [? _]; discriminate|reflexivity].
Qed.

(** C5.  When [analyze_reviews] returns, with [avg] the mean of the
    scores of the reviews as the code computes it in binary64 (their sum
    from left to right divided by their number; 0 for an empty batch):
    the verdict is [safe] if [avg / 100 > 0.7], [suspicious] if
    [avg / 100] is in [0.3, 0.7] and [malicious] otherwise; and,
    independently of the verdict, every review carries its score and the
    band of that score: highly helpful from 76, partially helpful from
    36 and below 76, not helpful otherwise. *)
Theorem verdict_and_label_thresholds
        (reviews : list Review) (result : AnalysisResult) :
  analyze_reviews reviews = Ok result ->
  exists scores,
    Forall2 (fun r s => score_review r = Ok s) reviews scores /\
    let avg := FloatSpec.batch_average scores in
    let trust := div avg (of_int 100) in
    (lt (decimal 7 10) trust -> verdict result = "safe"%string) /\
    (le (decimal 3 10) trust /\ le trust (decimal 7 10) ->
     verdict result = "suspicious"%string) /\
    (~ lt (decimal 7 10) trust ->
     ~ (le (decimal 3 10) trust /\ le trust (decimal 7 10)) ->
     verdict result = "malicious"%string) /\
    map review (enriched_reviews result) = reviews /\
    Forall2 FloatSpec.banded (enriched_reviews result) scores.
Proof.
  unfold FloatAnalyzer.analyze_reviews.
  destruct (score_all reviews) as [scores|e] eqn:E; [|discriminate].
  pose proof (score_all_ok _ _ E) as F.
  destruct (float_enrich_all_ok reviews scores (Forall2_length F))
    as (enriched & EE & M & B).
  rewrite EE. fold (FloatSpec.batch_average scores).
  set (trust := div (FloatSpec.batch_average scores) (of_int 100)).
  destruct (float_verdict_of_bands trust) as (V1 & V2 & V3).
  destruct (verdict_of trust) as [v kr]. cbn [fst] in V1, V2, V3.
  intros R. apply Ok_inj in R. subst result.
  exists scores. cbn [verdict enriched_reviews].
  split; [exact F|]. split; [exact V1|]. split; [exact V2|].
  split; [exact V3|]. split; [exact M|].
  clear -B. induction B as [|e s es ss H _ IH]; constructor; [|exact IH].
  rewrite H. apply float_enrich_banded.
Qed.

End FloatAnalyzerFacts.

(** ** The rules and the thresholds on concrete inputs *)

Section FloatScoringExamples.

Import Binary64 FloatExamples.

(** Three reviews with raw score 70: one about the delivery only
    (rule 1), a short one about delivery and product (rule 2) and one
    about the product (rule 3). *)
Lemma predict_follows_scoring_rules_witness :
  let raw := mul (decimal 7 10) (of_int 100) in
  FloatScorer.predict bert forest round_float (u "배송 빨라요")
  = Ok (round_float (mul raw (decimal 25 100)) 1) /\
  FloatScorer.predict bert forest round_float (u "배송 빨라요 사이즈")
  = Ok (round_float (mul raw (decimal 1 10)) 1) /\
  FloatScorer.predict bert forest round_float (u "사이즈가 딱 맞아요")
  = Ok (round_float
          (add (mul raw (decimal 85 100))
               (mul (mul raw (decimal 15 100)) (decimal 10 50))) 1).
Proof.
  split; [|split].
  - refine (proj1 (proj2 (predict_follows_scoring_rules
                            bert forest round_float (u "배송 빨라요")
                            [decimal 1 2] [decimal 3 10; decimal 7 10]
                            (decimal 7 10) _ eq_refl eq_refl eq_refl)) _).
    + vm_compute. discriminate.
    + intros M. apply any_keyword_mentions in M. vm_compute in M.
      discriminate.
  - refine (proj1 (proj2 (proj2 (predict_follows_scoring_rules
                            bert forest round_float
                            (u "배송 빨라요 사이즈")
                            [decimal 1 2] [decimal 3 10; decimal 7 10]
                            (decimal 7 10) _ eq_refl eq_refl eq_refl)))
                  _ _).
    + vm_compute. discriminate.
    + apply any_keyword_mentions. vm_compute. reflexivity.
    + split; [apply any_keyword_mentions|]; vm_compute; reflexivity.
  - refine (proj2 (proj2 (proj2 (predict_follows_scoring_rules
                            bert forest round_float
                            (u "사이즈가 딱 맞아요")
                            [decimal 1 2] [decimal 3 10; decimal 7 10]
                            (decimal 7 10) _ eq_refl eq_refl eq_refl)))
                  _ _).
    + vm_compute. discriminate.
    + apply any_keyword_mentions. vm_compute. reflexivity.
    + intros [M _]. apply any_keyword_mentions in M. vm_compute in M.
      discriminate.
Defined.

(** Those three scores are 17.5, 7.0 and 61.6. *)
Example float_predict_on_three_reviews :
  map (FloatScorer.predict bert forest round_float)
      [u "배송 빨라요"; u "배송 빨라요 사이즈"; u "사이즈가 딱 맞아요"]
  = [Ok (decimal 175 10); Ok (of_int 7); Ok (decimal 616 10)].
Proof. vm_compute. reflexivity. Qed.

(** With probability 0.022 and no product keyword the score is 0.5:
    [0.022 * 100] is 2.1999999999999997 in binary64 and a quarter of it
    is below 0.55. *)
Example predict_below_the_tie :
  FloatScorer.predict bert doubtful_forest round_float (u "배송 빨라요")
  = Ok (decimal 5 10).
Proof. vm_compute. reflexivity. Qed.

Lemma verdict_and_label_thresholds_witness :
  exists result,
    FloatAnalyzer.analyze_reviews scorer round_float batch = Ok result /\
    exists scores,
      Forall2 (fun r s => FloatAnalyzer.score_review scorer r = Ok s)
              batch scores /\
      let trust := div (FloatSpec.batch_average scores) (of_int 100) in
      (lt (decimal 7 10) trust ->
       FloatAnalyzer.verdict result = "safe"%string) /\
      Forall2 FloatSpec.banded (FloatAnalyzer.enriched_reviews result)
              scores.
Proof.
  assert (R : exists result,
             FloatAnalyzer.analyze_reviews scorer round_float batch
             = Ok result)
    by (eexists; vm_compute; reflexivity).
  destruct R as [result R]. exists result. split; [exact R|].
  destruct (verdict_and_label_thresholds scorer round_float batch result R)
    as (scores & F & V & _ & _ & _ & B).
  exists scores. split; [exact F|]. split; [exact V|exact B].
Defined.

(** The scores 83.9, 70.7 and 55.4 add up to 210.00000000000003 in
    binary64, so their mean is above 70 and the batch is safe. *)
Example mean_just_above_the_threshold :
  option_map FloatAnalyzer.verdict
    (match FloatAnalyzer.analyze_reviews scorer round_float batch with
     | Ok result => Some result
     | Raise _ => None
     end)
  = Some "safe"%string /\
  ltb (decimal 7 10)
      (div (FloatSpec.batch_average
              [decimal 839 10; decimal 707 10; decimal 554 10])
           (of_int 100)) = true.
Proof. split; vm_compute; reflexivity. Qed.

End FloatScoringExamples.
